(** * fakeeditor: the editor stand-in of the test suite

    A shallow embedding of [src/fakeeditor/src/main.zig].  The program
    prints an identity block (pid, working directory, argv, sentinel),
    then polls for a signal file while watching its parent and a 5 s
    budget.  Everything the program asks of the operating system is an
    oracle of a [World]; the program itself is a computation in a small
    monad that threads the two buffered writers, propagates Zig errors
    ([try]), models [std.process.exit], and records the sequence of
    system interactions it performed. *)

From Stdlib Require Import ZArith List String Ascii Bool Lia DecimalString.
Import ListNotations.
Local Open Scope Z_scope.
Local Open Scope string_scope.

(** ** Text *)

Module Text.

(** The line feed the format strings end with. *)
Definition nl : string := String (ascii_of_nat 10) EmptyString.

(** [{}] on an integer: decimal digits, with a leading minus sign. *)
Definition fmt_int (z : Z) : string := NilZero.string_of_int (Z.to_int z).

(** Zig errors are global names; [{any}] prints them as [error.Name]. *)
Definition zig_error := string.
Definition fmt_error (e : zig_error) : string := "error." ++ e.

(** The lines of a text: every maximal run of characters before a line
    feed, and the unterminated rest when it is not empty. *)
Fixpoint lines_from (cur : string) (s : string) : list string :=
  match s with
  | EmptyString => match cur with EmptyString => [] | _ => [cur] end
  | String c rest =>
      if Ascii.eqb c (ascii_of_nat 10) then cur :: lines_from "" rest
      else lines_from (cur ++ String c "") rest
  end.
Definition lines (s : string) : list string := lines_from "" s.

End Text.
Import Text.

(** ** Results of fallible calls *)

Inductive result (A : Type) : Type :=
| Ok (a : A)
| Err (e : zig_error).
Arguments Ok {A} a.
Arguments Err {A} e.

(** ** The operating system as the program sees it *)

(** [builtin.os.tag], restricted to the tags [main] accepts; every other
    tag is a compile error. *)
Inductive OsTag := Linux | Windows | Macos | Freebsd | Netbsd | Openbsd | Dragonfly.

Definition is_windows (t : OsTag) : bool :=
  match t with Windows => true | _ => false end.

(** The two fields of [PROCESSENTRY32] the program reads. *)
Record PROCESSENTRY32 := {
  th32ProcessID : Z;
  th32ParentProcessID : Z
}.

(** Every answer the system gives during one run.  Calls made once are
    plain fields; calls repeated by the wait loop are indexed by the
    iteration of the loop that makes them. *)
Record World := {
  os_tag : OsTag;
  (** [getpid] / [GetCurrentProcessId] *)
  getpid : Z;
  (** [std.posix.getcwd] *)
  getcwd : result string;
  (** [std.process.argsAlloc]: the whole argument vector, program name first *)
  argsAlloc : result (list string);
  (** [std.process.getEnvVarOwned] *)
  getEnvVarOwned : string -> result string;
  (** [std.fs.path.join] and [std.fs.path.sep] *)
  path_join : list string -> result string;
  path_sep : string;
  (** [std.time.nanoTimestamp]: reading 0 is [start_time], reading
      [S k] is [current_time] of iteration [k] *)
  nanoTimestamp : nat -> Z;
  (** [getppid] *)
  getppid : Z;
  (** [std.posix.kill pid sig] in iteration [k]; a failure carries the
      name of the Zig error the library returns *)
  kill : nat -> Z -> Z -> result unit;
  (** [std.fs.accessAbsolute path] in iteration [k] *)
  accessAbsolute : nat -> string -> result unit;
  (** [CreateToolhelp32Snapshot]: [None] is [INVALID_HANDLE_VALUE],
      otherwise the entries [Process32First]/[Process32Next] deliver
      before one of them returns [FALSE] *)
  CreateToolhelp32Snapshot : option (list PROCESSENTRY32);
  (** [GetLastError] after the failing call of the snapshot walk *)
  snapshot_last_error : Z;
  (** [OpenProcess(SYNCHRONIZE, 0, pid)] in iteration [k]: [false] is a null handle *)
  OpenProcess : nat -> Z -> bool;
  (** [WaitForSingleObject(h, 0)] on the handle of [pid] in iteration [k] *)
  WaitForSingleObject : nat -> Z -> Z;
  (** [GetLastError] after that wait *)
  wait_last_error : nat -> Z
}.

(** Constants of the Windows SDK headers the program includes. *)
Definition WAIT_OBJECT_0 : Z := 0.
Definition WAIT_TIMEOUT : Z := 258.
Definition WAIT_FAILED : Z := 4294967295.
Definition ERROR_NO_MORE_FILES : Z := 18.

(** ** Observable interactions *)

Inductive Stream := Stdout | Stderr.

Definition stream_eqb (a b : Stream) : bool :=
  match a, b with
  | Stdout, Stdout | Stderr, Stderr => true
  | _, _ => false
  end.

(** One entry per interaction with the system, with the answer it got.
    [EvWrite] is a write of bytes to a descriptor, which happens when a
    buffered writer drains, not when the program prints. *)
Inductive Event :=
| EvWrite (fd : Stream) (bytes : string)
| EvGetPid (pid : Z)
| EvGetCwd (r : result string)
| EvArgsAlloc (r : result (list string))
| EvGetEnv (name : string) (r : result string)
| EvPathJoin (parts : list string) (r : result string)
| EvClock (ns : Z)
| EvGetPpid (ppid : Z)
| EvSnapshot (opened : bool)
| EvKill (pid sig : Z) (r : result unit)
| EvOpenProcess (pid : Z) (opened : bool)
| EvWaitForSingleObject (pid : Z) (status : Z)
| EvCloseHandle
| EvAccess (path : string) (r : result unit)
| EvSleep (ns : Z).

(** ** Program state and the monad of [main] *)

(** What the two [std.Io.Writer]s hold in their 1024-byte buffers. *)
Record State := {
  stdout_buffer : string;
  stderr_buffer : string
}.

Definition init : State := {| stdout_buffer := ""; stderr_buffer := "" |}.

Definition buf (fd : Stream) (s : State) : string :=
  match fd with Stdout => stdout_buffer s | Stderr => stderr_buffer s end.

Definition set_buf (fd : Stream) (b : string) (s : State) : State :=
  match fd with
  | Stdout => {| stdout_buffer := b; stderr_buffer := stderr_buffer s |}
  | Stderr => {| stdout_buffer := stdout_buffer s; stderr_buffer := b |}
  end.

(** How a computation ends: with a value, with a Zig error travelling up
    through [try], in [std.process.exit], or still inside the wait loop
    when the fuel of the model is used up.  Each ending carries the
    state and the interactions performed. *)
Inductive Res (A : Type) : Type :=
| Ret (a : A) (s : State) (evs : list Event)
| Throw (e : zig_error) (s : State) (evs : list Event)
| Exited (code : Z) (s : State) (evs : list Event)
| Pending (s : State) (evs : list Event).
Arguments Ret {A} a s evs.
Arguments Throw {A} e s evs.
Arguments Exited {A} code s evs.
Arguments Pending {A} s evs.

Definition M (A : Type) : Type := State -> Res A.

Definition events {A} (r : Res A) : list Event :=
  match r with
  | Ret _ _ evs | Throw _ _ evs | Exited _ _ evs | Pending _ evs => evs
  end.

Definition final {A} (r : Res A) : State :=
  match r with
  | Ret _ s _ | Throw _ s _ | Exited _ s _ | Pending s _ => s
  end.

Definition prepend {A} (pre : list Event) (r : Res A) : Res A :=
  match r with
  | Ret a s evs => Ret a s (pre ++ evs)%list
  | Throw e s evs => Throw e s (pre ++ evs)%list
  | Exited c s evs => Exited c s (pre ++ evs)%list
  | Pending s evs => Pending s (pre ++ evs)%list
  end.

Definition ret {A} (a : A) : M A := fun s => Ret a s [].

Definition bind {A B} (m : M A) (f : A -> M B) : M B := fun s =>
  match m s with
  | Ret a s1 evs => prepend evs (f a s1)
  | Throw e s1 evs => Throw e s1 evs
  | Exited c s1 evs => Exited c s1 evs
  | Pending s1 evs => Pending s1 evs
  end.

Declare Scope zig_scope.
Delimit Scope zig_scope with zig.
Notation "x <- m ;; k" := (bind m (fun x => k))
  (at level 61, m at next level, right associativity) : zig_scope.
Notation "m ;; k" := (bind m (fun _ => k))
  (at level 61, right associativity) : zig_scope.
Local Open Scope zig_scope.

(** [return error.Name] *)
Definition throw {A} (e : zig_error) : M A := fun s => Throw e s [].

(** [m catch |err| handler] *)
Definition catch {A} (m : M A) (handler : zig_error -> M A) : M A := fun s =>
  match m s with
  | Throw e s1 evs => prepend evs (handler e s1)
  | r => r
  end.

(** [if (m) |v| ... else |err| ...]: the error union as a value. *)
Definition attempt {A} (m : M A) : M (result A) := fun s =>
  match m s with
  | Ret a s1 evs => Ret (Ok a) s1 evs
  | Throw e s1 evs => Ret (Err e) s1 evs
  | Exited c s1 evs => Exited c s1 evs
  | Pending s1 evs => Pending s1 evs
  end.

(** [defer cleanup]: runs when the block is left by a value or by an
    error, not when the process exits inside it. *)
Definition defer {A} (cleanup : M unit) (body : M A) : M A := fun s =>
  match body s with
  | Ret a s1 evs => prepend evs ((cleanup ;; ret a) s1)
  | Throw e s1 evs => prepend evs ((cleanup ;; throw e) s1)
  | r => r
  end.

(** A call into the system: recorded, then its answer. *)
Definition observe {A} (e : Event) (r : result A) : M A := fun s =>
  match r with
  | Ok a => Ret a s [e]
  | Err x => Throw x s [e]
  end.

(** [std.process.exit] *)
Definition process_exit {A} (code : Z) : M A := fun s => Exited code s [].

(** ** The buffered writers

    [std.fs.File.stdout().writer(buf)] with a 1024-byte buffer: printed
    text stays in the buffer while it fits; text that does not fit
    drains the buffer and goes to the descriptor with it; [flush]
    drains what is buffered.  The descriptors accept every write, so
    neither operation returns [error.WriteFailed] here. *)

Definition BUFFER_SIZE : nat := 1024.

Definition print (fd : Stream) (text : string) : M unit := fun s =>
  let b := buf fd s in
  if (String.length b + String.length text <=? BUFFER_SIZE)%nat
  then Ret tt (set_buf fd (b ++ text) s) []
  else Ret tt (set_buf fd "" s) [EvWrite fd (b ++ text)].

Definition flush (fd : Stream) : M unit := fun s =>
  match buf fd s with
  | EmptyString => Ret tt s []
  | b => Ret tt (set_buf fd "" s) [EvWrite fd b]
  end.

(** ** The program *)

Definition POLLING_INTERVAL_MS : Z := 50.
Definition TOTAL_TIMEOUT_MS : Z := 5000.
Definition ns_per_ms : Z := 1000000.

(** [flushAndExit]: both flushes ignore their error ([catch {}]). *)
Definition flushAndExit {A} (code : Z) : M A :=
  catch (flush Stdout) (fun _ => ret tt) ;;
  catch (flush Stderr) (fun _ => ret tt) ;;
  process_exit code.

(** [parentProcessExistsWindows], called in iteration [k]. *)
Definition parentProcessExistsWindows (w : World) (k : nat) (parent_pid : Z) : M bool :=
  let opened := OpenProcess w k parent_pid in
  observe (EvOpenProcess parent_pid opened) (Ok tt) ;;
  if negb opened then ret false
  else
    defer (observe EvCloseHandle (Ok tt))
      (let status := WaitForSingleObject w k parent_pid in
       wait_status <- observe (EvWaitForSingleObject parent_pid status) (Ok status) ;;
       if (wait_status =? WAIT_OBJECT_0)%Z then ret false
       else if (wait_status =? WAIT_TIMEOUT)%Z then ret true
       else
         print Stderr ("WaitForSingleObject failed: " ++ fmt_int (wait_last_error w k) ++ nl) ;;
         ret false).

(** The [while (true)] of [getParentPidWindows]: [pe32] is the entry at
    hand, [rest] what [Process32Next] has yet to deliver. *)
Fixpoint snapshot_walk (w : World) (current_pid : Z)
    (pe32 : PROCESSENTRY32) (rest : list PROCESSENTRY32) : M Z :=
  if (th32ProcessID pe32 =? current_pid)%Z then
    if (th32ParentProcessID pe32 =? 0)%Z then
      print Stderr ("Error: Retrieved parent PID is 0 for process "
                    ++ fmt_int current_pid ++ ". This is unexpected." ++ nl) ;;
      throw "ParentIsSystemIdleProcess"
    else ret (th32ParentProcessID pe32)
  else
    match rest with
    | next :: rest' => snapshot_walk w current_pid next rest'
    | [] =>
        if (snapshot_last_error w =? ERROR_NO_MORE_FILES)%Z then throw "ParentNotFound"
        else
          print Stderr ("Process32Next failed: " ++ fmt_int (snapshot_last_error w) ++ nl) ;;
          throw "Process32NextFailed"
    end.

(** [getParentPidWindows] *)
Definition getParentPidWindows (w : World) : M Z :=
  let current_pid := getpid w in
  match CreateToolhelp32Snapshot w with
  | None =>
      observe (EvSnapshot false) (Ok tt) ;;
      print Stderr ("CreateToolhelp32Snapshot failed: " ++ fmt_int (snapshot_last_error w) ++ nl) ;;
      throw "SnapshotFailed"
  | Some entries =>
      observe (EvSnapshot true) (Ok tt) ;;
      defer (observe EvCloseHandle (Ok tt))
        match entries with
        | [] =>
            print Stderr ("Process32First failed: " ++ fmt_int (snapshot_last_error w) ++ nl) ;;
            throw "Process32FirstFailed"
        | pe32 :: rest => snapshot_walk w current_pid pe32 rest
        end
  end.

(** One pass through the body of the wait loop of [main], in iteration
    [k]; it returns when the pass ended in the sleep.  Errors are
    compared by name, as [err == error.NoSuchProcess] does. *)
Definition tick (w : World) (signal_file_path : string) (ppid win_ppid : Z)
    (parent_monitoring_active : bool) (start_time : Z) (k : nat) : M unit :=
  current_time <- observe (EvClock (nanoTimestamp w (S k))) (Ok (nanoTimestamp w (S k))) ;;
  let elapsed_ms := Z.quot (current_time - start_time) ns_per_ms in
  (if (elapsed_ms >=? TOTAL_TIMEOUT_MS)%Z then
     print Stderr ("Error: Timeout (" ++ fmt_int TOTAL_TIMEOUT_MS
                   ++ "ms) reached in fakeeditor. Exiting." ++ nl) ;;
     flushAndExit 1
   else ret tt) ;;
  (if parent_monitoring_active then
     if is_windows (os_tag w) then
       alive <- parentProcessExistsWindows w k win_ppid ;;
       if negb alive then
         print Stderr ("Parent process (PID: " ++ fmt_int win_ppid
                       ++ ") no longer exists (Windows). Exiting." ++ nl) ;;
         flushAndExit 1
       else ret tt
     else
       probe <- attempt (observe (EvKill ppid 0 (kill w k ppid 0)) (kill w k ppid 0)) ;;
       match probe with
       | Ok _ => ret tt
       | Err err =>
           if String.eqb err "NoSuchProcess" then
             print Stderr ("Parent process (PID: " ++ fmt_int ppid
                           ++ ") no longer exists (POSIX). Exiting." ++ nl) ;;
             flushAndExit 1
           else ret tt
       end
   else ret tt) ;;
  found <- attempt (observe (EvAccess signal_file_path (accessAbsolute w k signal_file_path))
                            (accessAbsolute w k signal_file_path)) ;;
  match found with
  | Ok _ => flushAndExit 0
  | Err err =>
      if negb (String.eqb err "FileNotFound") then
        print Stderr ("Error checking for signal file '0' in fakeeditor: "
                      ++ fmt_error err ++ nl)
      else ret tt
  end ;;
  observe (EvSleep (POLLING_INTERVAL_MS * ns_per_ms)) (Ok tt).

(** The [while (true)] of [main], from iteration [k] on. *)
Fixpoint wait_loop (w : World) (signal_file_path : string) (ppid win_ppid : Z)
    (parent_monitoring_active : bool) (start_time : Z) (fuel : nat) (k : nat) : M unit :=
  match fuel with
  | O => fun s => Pending s []
  | S fuel' =>
      tick w signal_file_path ppid win_ppid parent_monitoring_active start_time k ;;
      wait_loop w signal_file_path ppid win_ppid parent_monitoring_active start_time fuel' (S k)
  end.

(** [for (args) |arg| try stdout.print("{s}\n", .{arg})] *)
Fixpoint print_args (args : list string) : M unit :=
  match args with
  | [] => ret tt
  | arg :: rest => print Stdout (arg ++ nl) ;; print_args rest
  end.

Definition envVarName : string := "JJ_FAKEEDITOR_SIGNAL_DIR".

(** The three locals of [main] that describe the parent.  The [ppid]
    of a Windows build and the [win_ppid] of a POSIX build have type
    [void]; they are 0 here and never read. *)
Record Parent := {
  ppid : Z;
  win_ppid : Z;
  parent_monitoring_active : bool
}.

(** [main], lines 96-123: the identity block.  The environment
    variable is read between the argument lines and the sentinel; the
    block returns the signal directory. *)
Definition announce (w : World) : M string :=
  pid <- observe (EvGetPid (getpid w)) (Ok (getpid w)) ;;
  print Stdout (fmt_int pid ++ nl) ;;
  cwd <- observe (EvGetCwd (getcwd w)) (getcwd w) ;;
  print Stdout (cwd ++ nl) ;;
  args <- observe (EvArgsAlloc (argsAlloc w)) (argsAlloc w) ;;
  print_args args ;;
  signal_dir_path_owned <-
    catch (observe (EvGetEnv envVarName (getEnvVarOwned w envVarName))
                   (getEnvVarOwned w envVarName))
          (fun err =>
             print Stderr ("Error getting environment variable '" ++ envVarName
                           ++ "': " ++ fmt_error err ++ nl) ;;
             flushAndExit 1) ;;
  print Stdout ("FAKEEDITOR_OUTPUT_END" ++ nl) ;;
  flush Stdout ;;
  ret signal_dir_path_owned.

(** [main], lines 127-130: the path of the signal file. *)
Definition signal_path (w : World) (signal_dir_path_owned : string) : M string :=
  catch (observe (EvPathJoin [signal_dir_path_owned; "0"]
                    (path_join w [signal_dir_path_owned; "0"]))
                 (path_join w [signal_dir_path_owned; "0"]))
        (fun e =>
           print Stderr ("Critical Error: Failed to construct signal file path '"
                         ++ signal_dir_path_owned ++ path_sep w ++ "0" ++ "': "
                         ++ fmt_error e ++ ". Exiting fakeeditor." ++ nl) ;;
           flushAndExit 1).

(** [main], lines 132-150: who the parent is and whether it is watched. *)
Definition resolve_parent (w : World) : M Parent :=
  if is_windows (os_tag w) then
    found <-
      catch (id <- getParentPidWindows w ;; ret (id, true))
            (fun err =>
               print Stderr ("Warning: Failed to get parent PID on Windows: "
                             ++ fmt_error err
                             ++ ". Parent process monitoring will be disabled." ++ nl) ;;
               ret (0, false)) ;;
    ret {| ppid := 0; win_ppid := fst found; parent_monitoring_active := snd found |}
  else
    id <- observe (EvGetPpid (getppid w)) (Ok (getppid w)) ;;
    (if (id =? 1)%Z then
       print Stderr ("Info: Parent process is init/launchd (PID 1), original parent likely exited. Exiting fakeeditor." ++ nl) ;;
       flushAndExit 1
     else ret tt) ;;
    ret {| ppid := id; win_ppid := 0; parent_monitoring_active := true |}.

(** [main]: the blocks above in the order of the source, then the wait
    loop (lines 152-195). *)
Definition main (w : World) (fuel : nat) : M unit :=
  signal_dir_path_owned <- announce w ;;
  start_time <- observe (EvClock (nanoTimestamp w 0)) (Ok (nanoTimestamp w 0)) ;;
  signal_file_path <- signal_path w signal_dir_path_owned ;;
  parent <- resolve_parent w ;;
  wait_loop w signal_file_path (ppid parent) (win_ppid parent)
    (parent_monitoring_active parent) start_time fuel 0.

(** A run of the program from its start. *)
Definition run (w : World) (fuel : nat) : Res unit := main w fuel init.

(** The status the process ends with.  A value returned from [main] is
    status 0 and an error returned from [main] is status 1 (the start
    code of the Zig runtime); [None] while the program is still
    polling. *)
Definition exit_status {A} (r : Res A) : option Z :=
  match r with
  | Ret _ _ _ => Some 0
  | Throw _ _ _ => Some 1
  | Exited code _ _ => Some code
  | Pending _ _ => None
  end.

(** ** Reading a run

    What a finished or pending computation shows: its system calls, the
    bytes it wrote, the text it printed, and the terminal outcome of
    the lifecycle its last system call stands for. *)

Definition is_write (e : Event) : bool :=
  match e with EvWrite _ _ => true | _ => false end.

(** The interactions of a run other than its writes. *)
Definition observations (evs : list Event) : list Event :=
  filter (fun e => negb (is_write e)) evs.

(** The bytes a run wrote to a descriptor, in order. *)
Fixpoint output (fd : Stream) (evs : list Event) : string :=
  match evs with
  | [] => ""
  | EvWrite fd' bytes :: rest =>
      if stream_eqb fd fd' then bytes ++ output fd rest else output fd rest
  | _ :: rest => output fd rest
  end.

(** Everything a computation printed to a stream together with what the
    stream's buffer held before: what it wrote, then what its buffer
    still holds. *)
Definition emitted {A} (fd : Stream) (r : Res A) : string :=
  output fd (events r) ++ buf fd (final r).

(** Both buffers are empty. *)
Definition flushed (s : State) : Prop :=
  stdout_buffer s = "" /\ stderr_buffer s = "".

(** The terminal outcomes of the lifecycle. *)
Inductive TerminationOutcome :=
| Completed
| Timeout
| ParentGone
| SetupError.

(** The outcome an observation stands for when it is the last one of a
    terminated run: the signal file was accessed; the clock was read
    and nothing else was asked; a liveness probe (or the parent id
    query at startup) was the last thing asked; a startup call failed. *)
Definition classify (e : Event) : option TerminationOutcome :=
  match e with
  | EvAccess _ (Ok _) => Some Completed
  | EvClock _ => Some Timeout
  | EvKill _ _ (Err _) => Some ParentGone
  | EvGetPpid _ => Some ParentGone
  | EvOpenProcess _ false => Some ParentGone
  | EvCloseHandle => Some ParentGone
  | EvGetCwd (Err _) => Some SetupError
  | EvArgsAlloc (Err _) => Some SetupError
  | EvGetEnv _ (Err _) => Some SetupError
  | EvPathJoin _ (Err _) => Some SetupError
  | _ => None
  end.

Definition last_event (l : list Event) : option Event :=
  List.last (map Some l) None.

Definition last_observation (evs : list Event) : option Event :=
  last_event (observations evs).

(** The terminal outcome of a run; [None] while it is still polling. *)
Definition outcome {A} (r : Res A) : option TerminationOutcome :=
  match r with
  | Pending _ _ => None
  | _ => match last_observation (events r) with
         | Some e => classify e
         | None => None
         end
  end.

(** ** One iteration of the wait loop, as the lifecycle describes it

    The definitions of this section are written from the description of
    the [Waiting] state, not from the code: a verdict per iteration,
    decided by three checks in a fixed order, together with the system
    calls and diagnostic lines each verdict comes with.  The properties
    below relate them to [tick]. *)

Inductive Verdict :=
| VTimeout
| VParentGone
| VCompleted
| VSleep.

Definition elapsed_ms (w : World) (start_time : Z) (k : nat) : Z :=
  Z.quot (nanoTimestamp w (S k) - start_time) ns_per_ms.

(** What the Windows probe of iteration [k] says. *)
Definition parent_alive_windows (w : World) (k : nat) (pid : Z) : bool :=
  OpenProcess w k pid && (WaitForSingleObject w k pid =? WAIT_TIMEOUT)%Z.

(** The liveness check of iteration [k] finds the parent gone; never
    when monitoring is disabled. *)
Definition parent_gone (w : World) (p : Parent) (k : nat) : bool :=
  parent_monitoring_active p &&
  (if is_windows (os_tag w) then negb (parent_alive_windows w k (win_ppid p))
   else match kill w k (ppid p) 0 with
        | Ok _ => false
        | Err e => String.eqb e "NoSuchProcess"
        end).

Definition signal_present (w : World) (path : string) (k : nat) : bool :=
  match accessAbsolute w k path with Ok _ => true | Err _ => false end.

(** The checks of one iteration in the order of the lifecycle. *)
Definition tick_verdict (w : World) (path : string) (p : Parent)
    (start_time : Z) (k : nat) : Verdict :=
  if (elapsed_ms w start_time k >=? TOTAL_TIMEOUT_MS)%Z then VTimeout
  else if parent_gone w p k then VParentGone
  else if signal_present w path k then VCompleted
  else VSleep.

(** The system calls of the liveness check of iteration [k]. *)
Definition probe_observations (w : World) (p : Parent) (k : nat) : list Event :=
  if parent_monitoring_active p then
    if is_windows (os_tag w) then
      EvOpenProcess (win_ppid p) (OpenProcess w k (win_ppid p)) ::
      (if OpenProcess w k (win_ppid p)
       then [EvWaitForSingleObject (win_ppid p) (WaitForSingleObject w k (win_ppid p));
             EvCloseHandle]
       else [])
    else [EvKill (ppid p) 0 (kill w k (ppid p) 0)]
  else [].

(** The system calls of iteration [k], by its verdict. *)
Definition tick_observations (w : World) (path : string) (p : Parent)
    (start_time : Z) (k : nat) : list Event :=
  let clock := EvClock (nanoTimestamp w (S k)) in
  let access := EvAccess path (accessAbsolute w k path) in
  match tick_verdict w path p start_time k with
  | VTimeout => [clock]
  | VParentGone => clock :: probe_observations w p k
  | VCompleted => clock :: (probe_observations w p k ++ [access])%list
  | VSleep => clock :: (probe_observations w p k
                        ++ [access; EvSleep (POLLING_INTERVAL_MS * ns_per_ms)])%list
  end.

(** The exit status a verdict stands for; [VSleep] does not exit. *)
Definition verdict_status (v : Verdict) : option Z :=
  match v with
  | VTimeout | VParentGone => Some 1
  | VCompleted => Some 0
  | VSleep => None
  end.

(** The diagnostic lines of iteration [k]. *)
Definition wait_failed_line (w : World) (k : nat) : string :=
  "WaitForSingleObject failed: " ++ fmt_int (wait_last_error w k) ++ nl.

Definition timeout_line : string :=
  "Error: Timeout (" ++ fmt_int TOTAL_TIMEOUT_MS ++ "ms) reached in fakeeditor. Exiting." ++ nl.

Definition parent_gone_line (w : World) (p : Parent) : string :=
  if is_windows (os_tag w)
  then "Parent process (PID: " ++ fmt_int (win_ppid p) ++ ") no longer exists (Windows). Exiting." ++ nl
  else "Parent process (PID: " ++ fmt_int (ppid p) ++ ") no longer exists (POSIX). Exiting." ++ nl.

Definition access_error_line (err : zig_error) : string :=
  "Error checking for signal file '0' in fakeeditor: " ++ fmt_error err ++ nl.

(** What the Windows probe of iteration [k] logs: only a wait that is
    neither signaled nor timed out. *)
Definition probe_diagnostics (w : World) (p : Parent) (k : nat) : string :=
  if parent_monitoring_active p && is_windows (os_tag w) && OpenProcess w k (win_ppid p)
     && negb (WaitForSingleObject w k (win_ppid p) =? WAIT_OBJECT_0)%Z
     && negb (WaitForSingleObject w k (win_ppid p) =? WAIT_TIMEOUT)%Z
  then wait_failed_line w k else "".

Definition access_diagnostics (w : World) (path : string) (k : nat) : string :=
  match accessAbsolute w k path with
  | Ok _ => ""
  | Err err => if String.eqb err "FileNotFound" then "" else access_error_line err
  end.

Definition tick_diagnostics (w : World) (path : string) (p : Parent)
    (start_time : Z) (k : nat) : string :=
  match tick_verdict w path p start_time k with
  | VTimeout => timeout_line
  | VParentGone => probe_diagnostics w p k ++ parent_gone_line w p
  | VCompleted => probe_diagnostics w p k
  | VSleep => probe_diagnostics w p k ++ access_diagnostics w path k
  end.

(** The state and the writes of a [print] and of a [flush]. *)
Definition print_st (fd : Stream) (text : string) (s : State) : State :=
  final (print fd text s).
Definition print_ev (fd : Stream) (text : string) (s : State) : list Event :=
  events (print fd text s).
Definition flush_st (fd : Stream) (s : State) : State := final (flush fd s).
Definition flush_ev (fd : Stream) (s : State) : list Event := events (flush fd s).

(** [effect r s obs out err]: started in [s], the computation that ended
    as [r] made the system calls [obs] and printed [out] and [err]. *)
Definition effect {A} (r : Res A) (s : State) (obs : list Event) (out err : string) : Prop :=
  observations (events r) = obs
  /\ emitted Stdout r = buf Stdout s ++ out
  /\ emitted Stderr r = buf Stderr s ++ err.

(** ** The wait loop as a sequence of verdicts *)

(** The first iteration among [k], ..., [k + fuel - 1] whose verdict is
    not [VSleep]. *)
Fixpoint first_stop (w : World) (path : string) (p : Parent) (start_time : Z)
    (fuel k : nat) : option nat :=
  match fuel with
  | O => None
  | S fuel' =>
      match tick_verdict w path p start_time k with
      | VSleep => first_stop w path p start_time fuel' (S k)
      | _ => Some k
      end
  end.

(** The system calls and the diagnostic lines of the iterations up to
    and including the first that stops. *)
Fixpoint loop_observations (w : World) (path : string) (p : Parent) (start_time : Z)
    (fuel k : nat) : list Event :=
  match fuel with
  | O => []
  | S fuel' =>
      (tick_observations w path p start_time k ++
       match tick_verdict w path p start_time k with
       | VSleep => loop_observations w path p start_time fuel' (S k)
       | _ => []
       end)%list
  end.

Fixpoint loop_diagnostics (w : World) (path : string) (p : Parent) (start_time : Z)
    (fuel k : nat) : string :=
  match fuel with
  | O => ""
  | S fuel' =>
      tick_diagnostics w path p start_time k ++
      match tick_verdict w path p start_time k with
      | VSleep => loop_diagnostics w path p start_time fuel' (S k)
      | _ => ""
      end
  end.

(** ** The identity block *)

Fixpoint arg_lines (args : list string) : string :=
  match args with
  | [] => ""
  | arg :: rest => (arg ++ nl) ++ arg_lines rest
  end.

Definition sentinel_line : string := "FAKEEDITOR_OUTPUT_END" ++ nl.

(** Pid line, working-directory line, one line per element of the
    argument vector, without the sentinel. *)
Definition identity_lines (pid : Z) (cwd : string) (args : list string) : string :=
  (fmt_int pid ++ nl) ++ (cwd ++ nl) ++ arg_lines args.

Definition identity_block (pid : Z) (cwd : string) (args : list string) : string :=
  identity_lines pid cwd args ++ sentinel_line.

(** ** Startup, block by block

    As for the wait loop: what each block of [main] before the loop
    asks of the system, prints and decides, written as plain functions
    of the world and proved below to be what the code does. *)

(** The entry of the snapshot for this process: the first whose process
    id is ours. *)
Definition own_entry (w : World) (entries : list PROCESSENTRY32) : option PROCESSENTRY32 :=
  find (fun e => (th32ProcessID e =? getpid w)%Z) entries.

(** What the walk of the process snapshot yields. *)
Definition discovery (w : World) : result Z :=
  match CreateToolhelp32Snapshot w with
  | None => Err "SnapshotFailed"
  | Some [] => Err "Process32FirstFailed"
  | Some entries =>
      match own_entry w entries with
      | Some e =>
          if (th32ParentProcessID e =? 0)%Z then Err "ParentIsSystemIdleProcess"
          else Ok (th32ParentProcessID e)
      | None =>
          if (snapshot_last_error w =? ERROR_NO_MORE_FILES)%Z then Err "ParentNotFound"
          else Err "Process32NextFailed"
      end
  end.

(** The line [getParentPidWindows] itself logs when it fails. *)
Definition discovery_diagnostics (w : World) : string :=
  match CreateToolhelp32Snapshot w with
  | None => "CreateToolhelp32Snapshot failed: " ++ fmt_int (snapshot_last_error w) ++ nl
  | Some [] => "Process32First failed: " ++ fmt_int (snapshot_last_error w) ++ nl
  | Some entries =>
      match own_entry w entries with
      | Some e =>
          if (th32ParentProcessID e =? 0)%Z
          then "Error: Retrieved parent PID is 0 for process "
               ++ fmt_int (getpid w) ++ ". This is unexpected." ++ nl
          else ""
      | None =>
          if (snapshot_last_error w =? ERROR_NO_MORE_FILES)%Z then ""
          else "Process32Next failed: " ++ fmt_int (snapshot_last_error w) ++ nl
      end
  end.

Definition discovery_observations (w : World) : list Event :=
  match CreateToolhelp32Snapshot w with
  | None => [EvSnapshot false]
  | Some _ => [EvSnapshot true; EvCloseHandle]
  end.

Definition monitoring_disabled_line (err : zig_error) : string :=
  "Warning: Failed to get parent PID on Windows: " ++ fmt_error err
  ++ ". Parent process monitoring will be disabled." ++ nl.

Definition reparented_line : string :=
  "Info: Parent process is init/launchd (PID 1), original parent likely exited. Exiting fakeeditor." ++ nl.

(** The parent the wait loop starts with; [None] when the process ends
    during parent resolution. *)
Definition resolved (w : World) : option Parent :=
  if is_windows (os_tag w) then
    match discovery w with
    | Ok id => Some {| ppid := 0; win_ppid := id; parent_monitoring_active := true |}
    | Err _ => Some {| ppid := 0; win_ppid := 0; parent_monitoring_active := false |}
    end
  else if (getppid w =? 1)%Z then None
  else Some {| ppid := getppid w; win_ppid := 0; parent_monitoring_active := true |}.

Definition resolve_observations (w : World) : list Event :=
  if is_windows (os_tag w) then discovery_observations w else [EvGetPpid (getppid w)].

Definition resolve_diagnostics (w : World) : string :=
  if is_windows (os_tag w) then
    discovery_diagnostics w ++
    match discovery w with Ok _ => "" | Err err => monitoring_disabled_line err end
  else if (getppid w =? 1)%Z then reparented_line else "".

Definition env_error_line (err : zig_error) : string :=
  "Error getting environment variable '" ++ envVarName ++ "': " ++ fmt_error err ++ nl.

Definition join_error_line (w : World) (dir : string) (e : zig_error) : string :=
  "Critical Error: Failed to construct signal file path '" ++ dir ++ path_sep w ++ "0"
  ++ "': " ++ fmt_error e ++ ". Exiting fakeeditor." ++ nl.

(** What the identity announcer asks of the system, prints to standard
    output and prints to the diagnostic stream. *)
Definition announce_observations (w : World) : list Event :=
  EvGetPid (getpid w) :: EvGetCwd (getcwd w) ::
  match getcwd w with
  | Err _ => []
  | Ok _ =>
      EvArgsAlloc (argsAlloc w) ::
      match argsAlloc w with
      | Err _ => []
      | Ok _ => [EvGetEnv envVarName (getEnvVarOwned w envVarName)]
      end
  end.

Definition announce_output (w : World) : string :=
  (fmt_int (getpid w) ++ nl) ++
  match getcwd w with
  | Err _ => ""
  | Ok cwd =>
      (cwd ++ nl) ++
      match argsAlloc w with
      | Err _ => ""
      | Ok args =>
          arg_lines args ++
          match getEnvVarOwned w envVarName with
          | Err _ => ""
          | Ok _ => sentinel_line
          end
      end
  end.

Definition announce_diagnostics (w : World) : string :=
  match getcwd w, argsAlloc w, getEnvVarOwned w envVarName with
  | Ok _, Ok _, Err err => env_error_line err
  | _, _, _ => ""
  end.

(** The signal directory, when the announcer completes. *)
Definition announced (w : World) : option string :=
  match getcwd w, argsAlloc w, getEnvVarOwned w envVarName with
  | Ok _, Ok _, Ok dir => Some dir
  | _, _, _ => None
  end.

(** The signal file path and the parent the wait loop starts with;
    [None] when the process ends before the loop. *)
Definition startup (w : World) : option (string * Parent) :=
  match announced w with
  | None => None
  | Some dir =>
      match path_join w [dir; "0"] with
      | Err _ => None
      | Ok path =>
          match resolved w with
          | None => None
          | Some p => Some (path, p)
          end
      end
  end.

(** System calls and diagnostic lines of the blocks between the
    announcer and the wait loop. *)
Definition setup_observations (w : World) (dir : string) : list Event :=
  EvClock (nanoTimestamp w 0) :: EvPathJoin [dir; "0"] (path_join w [dir; "0"]) ::
  match path_join w [dir; "0"] with
  | Err _ => []
  | Ok _ => resolve_observations w
  end.

Definition setup_diagnostics (w : World) (dir : string) : string :=
  match path_join w [dir; "0"] with
  | Err e => join_error_line w dir e
  | Ok _ => resolve_diagnostics w
  end.

(** The whole run: system calls in order, standard output, diagnostics. *)
Definition run_observations (w : World) (fuel : nat) : list Event :=
  (announce_observations w ++
   match announced w with
   | None => []
   | Some dir =>
       setup_observations w dir ++
       match startup w with
       | None => []
       | Some (path, p) => loop_observations w path p (nanoTimestamp w 0) fuel 0
       end
   end)%list.

Definition run_diagnostics (w : World) (fuel : nat) : string :=
  announce_diagnostics w ++
  match announced w with
  | None => ""
  | Some dir =>
      setup_diagnostics w dir ++
      match startup w with
      | None => ""
      | Some (path, p) => loop_diagnostics w path p (nanoTimestamp w 0) fuel 0
      end
  end.

(** The state and the writes of printing the argument lines. *)
Definition print_args_st (args : list string) (s : State) : State :=
  final (print_args args s).
Definition print_args_ev (args : list string) (s : State) : list Event :=
  events (print_args args s).

(** The verdict the wait loop stops on, within the fuel given. *)
Definition stop_verdict (w : World) (path : string) (p : Parent) (fuel : nat) : option Verdict :=
  match first_stop w path p (nanoTimestamp w 0) fuel 0 with
  | None => None
  | Some j => Some (tick_verdict w path p (nanoTimestamp w 0) j)
  end.

(** ** The outcome of a run, from its verdicts *)

Definition verdict_outcome (v : Verdict) : option TerminationOutcome :=
  match v with
  | VTimeout => Some Timeout
  | VParentGone => Some ParentGone
  | VCompleted => Some Completed
  | VSleep => None
  end.

(** The terminal outcome the lifecycle assigns to a run: a failure of
    the announcer or of path construction is a setup error; a parent
    that is already the reaper at startup is a lost parent; otherwise
    the verdict the wait loop stops on decides. *)
Definition expected_outcome (w : World) (fuel : nat) : option TerminationOutcome :=
  match announced w with
  | None => Some SetupError
  | Some dir =>
      match path_join w [dir; "0"] with
      | Err _ => Some SetupError
      | Ok path =>
          match resolved w with
          | None => Some ParentGone
          | Some p =>
              match stop_verdict w path p fuel with
              | None => None
              | Some v => verdict_outcome v
              end
          end
      end
  end.

(** The exit status of a run, from the same case analysis. *)
Definition expected_status (w : World) (fuel : nat) : option Z :=
  match startup w with
  | None => Some 1
  | Some (path, p) =>
      match stop_verdict w path p fuel with
      | None => None
      | Some v => verdict_status v
      end
  end.

(** ** Concrete worlds *)

(** The scenario of the test suite: a Linux run launched as
    [fakeeditor --edit msg.txt] with the signal directory [/tmp/sig42],
    a live parent 977, a clock read every 50 ms, and the signal file
    present from 200 ms on. *)
Definition scenario_world : World := {|
  os_tag := Linux;
  getpid := 4242;
  getcwd := Ok "/repo";
  argsAlloc := Ok ["/bin/fakeeditor"; "--edit"; "msg.txt"];
  getEnvVarOwned := fun name =>
    if String.eqb name "JJ_FAKEEDITOR_SIGNAL_DIR" then Ok "/tmp/sig42"
    else Err "EnvironmentVariableNotFound";
  path_join := fun parts => Ok (String.concat "/" parts);
  path_sep := "/";
  nanoTimestamp := fun n => 1000000000 + Z.of_nat n * 50000000;
  getppid := 977;
  kill := fun _ _ _ => Ok tt;
  accessAbsolute := fun k path =>
    if ((3 <=? k)%nat && String.eqb path "/tmp/sig42/0")%bool then Ok tt
    else Err "FileNotFound";
  CreateToolhelp32Snapshot := None;
  snapshot_last_error := 0;
  OpenProcess := fun _ _ => false;
  WaitForSingleObject := fun _ _ => WAIT_FAILED;
  wait_last_error := fun _ => 0
|}.

(** The parent of the scenario as the wait loop holds it. *)
Definition scenario_parent : Parent :=
  {| ppid := 977; win_ppid := 0; parent_monitoring_active := true |}.

(** The status a computation exits the process with; [None] when it
    does not call [std.process.exit]. *)
Definition exit_code {A} (r : Res A) : option Z :=
  match r with
  | Exited code _ _ => Some code
  | _ => None
  end.

(** The scenario with a parent the process may not signal: every probe
    fails with [error.PermissionDenied]. *)
Definition denied_probe_world : World := {|
  os_tag := os_tag scenario_world;
  getpid := getpid scenario_world;
  getcwd := getcwd scenario_world;
  argsAlloc := argsAlloc scenario_world;
  getEnvVarOwned := getEnvVarOwned scenario_world;
  path_join := path_join scenario_world;
  path_sep := path_sep scenario_world;
  nanoTimestamp := nanoTimestamp scenario_world;
  getppid := getppid scenario_world;
  kill := fun _ _ _ => Err "PermissionDenied";
  accessAbsolute := accessAbsolute scenario_world;
  CreateToolhelp32Snapshot := CreateToolhelp32Snapshot scenario_world;
  snapshot_last_error := snapshot_last_error scenario_world;
  OpenProcess := OpenProcess scenario_world;
  WaitForSingleObject := WaitForSingleObject scenario_world;
  wait_last_error := wait_last_error scenario_world
|}.


(** A Windows run whose parent 977 is found in the snapshot, can be
    opened, and whose wait fails with error 6 in every iteration. *)
Definition windows_world : World := {|
  os_tag := Windows;
  getpid := 4242;
  getcwd := Ok "C:\repo";
  argsAlloc := Ok ["fakeeditor.exe"; "--edit"; "msg.txt"];
  getEnvVarOwned := fun name =>
    if String.eqb name "JJ_FAKEEDITOR_SIGNAL_DIR" then Ok "C:\sig42"
    else Err "EnvironmentVariableNotFound";
  path_join := fun parts => Ok (String.concat "\" parts);
  path_sep := "\";
  nanoTimestamp := fun n => 1000000000 + Z.of_nat n * 50000000;
  getppid := 0;
  kill := fun _ _ _ => Ok tt;
  accessAbsolute := fun _ _ => Err "FileNotFound";
  CreateToolhelp32Snapshot :=
    Some [ {| th32ProcessID := 4; th32ParentProcessID := 0 |};
           {| th32ProcessID := 977; th32ParentProcessID := 4 |};
           {| th32ProcessID := 4242; th32ParentProcessID := 977 |} ];
  snapshot_last_error := ERROR_NO_MORE_FILES;
  OpenProcess := fun _ _ => true;
  WaitForSingleObject := fun _ _ => WAIT_FAILED;
  wait_last_error := fun _ => 6
|}.

Definition windows_parent : Parent :=
  {| ppid := 0; win_ppid := 977; parent_monitoring_active := true |}.

(** The scenario started after its launcher has gone: the parent id is
    that of the reaper. *)
Definition orphan_world : World := {|
  os_tag := os_tag scenario_world;
  getpid := getpid scenario_world;
  getcwd := getcwd scenario_world;
  argsAlloc := argsAlloc scenario_world;
  getEnvVarOwned := getEnvVarOwned scenario_world;
  path_join := path_join scenario_world;
  path_sep := path_sep scenario_world;
  nanoTimestamp := nanoTimestamp scenario_world;
  getppid := 1;
  kill := kill scenario_world;
  accessAbsolute := accessAbsolute scenario_world;
  CreateToolhelp32Snapshot := CreateToolhelp32Snapshot scenario_world;
  snapshot_last_error := snapshot_last_error scenario_world;
  OpenProcess := OpenProcess scenario_world;
  WaitForSingleObject := WaitForSingleObject scenario_world;
  wait_last_error := wait_last_error scenario_world
|}.

(** The scenario started in a working directory that has been removed. *)
Definition unlinked_cwd_world : World := {|
  os_tag := os_tag scenario_world;
  getpid := getpid scenario_world;
  getcwd := Err "CurrentWorkingDirectoryUnlinked";
  argsAlloc := argsAlloc scenario_world;
  getEnvVarOwned := getEnvVarOwned scenario_world;
  path_join := path_join scenario_world;
  path_sep := path_sep scenario_world;
  nanoTimestamp := nanoTimestamp scenario_world;
  getppid := getppid scenario_world;
  kill := kill scenario_world;
  accessAbsolute := accessAbsolute scenario_world;
  CreateToolhelp32Snapshot := CreateToolhelp32Snapshot scenario_world;
  snapshot_last_error := snapshot_last_error scenario_world;
  OpenProcess := OpenProcess scenario_world;
  WaitForSingleObject := WaitForSingleObject scenario_world;
  wait_last_error := wait_last_error scenario_world
|}.

(** The Windows run when the process snapshot cannot be taken (error 5). *)
Definition windows_blind_world : World := {|
  os_tag := os_tag windows_world;
  getpid := getpid windows_world;
  getcwd := getcwd windows_world;
  argsAlloc := argsAlloc windows_world;
  getEnvVarOwned := getEnvVarOwned windows_world;
  path_join := path_join windows_world;
  path_sep := path_sep windows_world;
  nanoTimestamp := nanoTimestamp windows_world;
  getppid := getppid windows_world;
  kill := kill windows_world;
  accessAbsolute := accessAbsolute windows_world;
  CreateToolhelp32Snapshot := None;
  snapshot_last_error := 5;
  OpenProcess := OpenProcess windows_world;
  WaitForSingleObject := WaitForSingleObject windows_world;
  wait_last_error := wait_last_error windows_world
|}.

(** ** Readings of the identity block *)

(** System calls that belong to a component other than the identity
    announcer: the environment, the clock, path construction, parent
    resolution, the probes, the signal check and the sleep. *)
Definition other_component (e : Event) : bool :=
  match e with
  | EvWrite _ _ | EvGetPid _ | EvGetCwd _ | EvArgsAlloc _ => false
  | _ => true
  end.

(** The same without the lookup of the environment variable. *)
Definition after_announcer (e : Event) : bool :=
  match e with
  | EvGetEnv _ _ => false
  | _ => other_component e
  end.

(** Whenever a system call selected by [sel] is made, standard output
    has received exactly [block]. *)
Definition flushed_before (sel : Event -> bool) (block : string) (evs : list Event) : Prop :=
  forall pre e post, evs = (pre ++ e :: post)%list -> sel e = true -> output Stdout pre = block.

(** The lines of an identity block between the working-directory line
    and the sentinel line. *)
Definition argument_lines (text : string) : list string :=
  removelast (skipn 2 (lines text)).

(** The parent of a run whose parent could not be determined. *)
Definition monitoring_disabled : Parent :=
  {| ppid := 0; win_ppid := 0; parent_monitoring_active := false |}.

(** ** Further readings of a run *)

(** The sleeps of a run, in nanoseconds, in order. *)
Fixpoint sleeps (evs : list Event) : list Z :=
  match evs with
  | [] => []
  | EvSleep ns :: rest => ns :: sleeps rest
  | _ :: rest => sleeps rest
  end.

(** System calls that hand out a handle, and the one that releases it. *)
Definition opens_handle (e : Event) : bool :=
  match e with
  | EvSnapshot true | EvOpenProcess _ true => true
  | _ => false
  end.

Definition closes_handle (e : Event) : bool :=
  match e with
  | EvCloseHandle => true
  | _ => false
  end.

(** The scenario when the allocator cannot build the signal file path. *)
Definition join_failure_world : World := {|
  os_tag := os_tag scenario_world;
  getpid := getpid scenario_world;
  getcwd := getcwd scenario_world;
  argsAlloc := argsAlloc scenario_world;
  getEnvVarOwned := getEnvVarOwned scenario_world;
  path_join := fun _ => Err "OutOfMemory";
  path_sep := path_sep scenario_world;
  nanoTimestamp := nanoTimestamp scenario_world;
  getppid := getppid scenario_world;
  kill := kill scenario_world;
  accessAbsolute := accessAbsolute scenario_world;
  CreateToolhelp32Snapshot := CreateToolhelp32Snapshot scenario_world;
  snapshot_last_error := snapshot_last_error scenario_world;
  OpenProcess := OpenProcess scenario_world;
  WaitForSingleObject := WaitForSingleObject scenario_world;
  wait_last_error := wait_last_error scenario_world
|}.

(** The scenario without the signal directory in the environment. *)
Definition unset_variable_world : World := {|
  os_tag := os_tag scenario_world;
  getpid := getpid scenario_world;
  getcwd := getcwd scenario_world;
  argsAlloc := argsAlloc scenario_world;
  getEnvVarOwned := fun _ => Err "EnvironmentVariableNotFound";
  path_join := path_join scenario_world;
  path_sep := path_sep scenario_world;
  nanoTimestamp := nanoTimestamp scenario_world;
  getppid := getppid scenario_world;
  kill := kill scenario_world;
  accessAbsolute := accessAbsolute scenario_world;
  CreateToolhelp32Snapshot := CreateToolhelp32Snapshot scenario_world;
  snapshot_last_error := snapshot_last_error scenario_world;
  OpenProcess := OpenProcess scenario_world;
  WaitForSingleObject := WaitForSingleObject scenario_world;
  wait_last_error := wait_last_error scenario_world
|}.

(** The scenario when the argument vector cannot be allocated. *)
Definition args_failure_world : World := {|
  os_tag := os_tag scenario_world;
  getpid := getpid scenario_world;
  getcwd := getcwd scenario_world;
  argsAlloc := Err "OutOfMemory";
  getEnvVarOwned := getEnvVarOwned scenario_world;
  path_join := path_join scenario_world;
  path_sep := path_sep scenario_world;
  nanoTimestamp := nanoTimestamp scenario_world;
  getppid := getppid scenario_world;
  kill := kill scenario_world;
  accessAbsolute := accessAbsolute scenario_world;
  CreateToolhelp32Snapshot := CreateToolhelp32Snapshot scenario_world;
  snapshot_last_error := snapshot_last_error scenario_world;
  OpenProcess := OpenProcess scenario_world;
  WaitForSingleObject := WaitForSingleObject scenario_world;
  wait_last_error := wait_last_error scenario_world
|}.

(** The Windows run whose parent 977 has exited: its handle opens and
    is signaled. *)
Definition windows_exited_parent_world : World := {|
  os_tag := os_tag windows_world;
  getpid := getpid windows_world;
  getcwd := getcwd windows_world;
  argsAlloc := argsAlloc windows_world;
  getEnvVarOwned := getEnvVarOwned windows_world;
  path_join := path_join windows_world;
  path_sep := path_sep windows_world;
  nanoTimestamp := nanoTimestamp windows_world;
  getppid := getppid windows_world;
  kill := kill windows_world;
  accessAbsolute := accessAbsolute windows_world;
  CreateToolhelp32Snapshot := CreateToolhelp32Snapshot windows_world;
  snapshot_last_error := snapshot_last_error windows_world;
  OpenProcess := OpenProcess windows_world;
  WaitForSingleObject := fun _ _ => WAIT_OBJECT_0;
  wait_last_error := wait_last_error windows_world
|}.

(** ** What the system did to bring an outcome about *)

(** The startup calls all succeed and leave [path] and [p] to the loop. *)
Definition reaches_loop (w : World) (path : string) (p : Parent) : Prop :=
  exists cwd args dir,
    getcwd w = Ok cwd
    /\ argsAlloc w = Ok args
    /\ getEnvVarOwned w envVarName = Ok dir
    /\ path_join w [dir; "0"] = Ok path
    /\ resolved w = Some p.

(** In each iteration before [k] the budget is left, the parent is not
    found gone and the access to the signal file fails. *)
Definition iterations_sleep (w : World) (path : string) (p : Parent) (k : nat) : Prop :=
  forall j, (j < k)%nat ->
    elapsed_ms w (nanoTimestamp w 0) j < TOTAL_TIMEOUT_MS
    /\ parent_gone w p j = false
    /\ exists e, accessAbsolute w j path = Err e.

(** The answers of the system that make a run with this fuel end in
    the outcome: which call failed at startup, or what the clock, the
    probe and the access answered in the iteration the loop stopped
    in. *)
Definition outcome_cause (w : World) (fuel : nat) (o : TerminationOutcome) : Prop :=
  match o with
  | Completed =>
      exists path p k,
        reaches_loop w path p /\ (k < fuel)%nat /\ iterations_sleep w path p k
        /\ elapsed_ms w (nanoTimestamp w 0) k < TOTAL_TIMEOUT_MS
        /\ parent_gone w p k = false
        /\ accessAbsolute w k path = Ok tt
  | Timeout =>
      exists path p k,
        reaches_loop w path p /\ (k < fuel)%nat /\ iterations_sleep w path p k
        /\ elapsed_ms w (nanoTimestamp w 0) k >= TOTAL_TIMEOUT_MS
  | ParentGone =>
      (exists cwd args dir path,
          getcwd w = Ok cwd /\ argsAlloc w = Ok args
          /\ getEnvVarOwned w envVarName = Ok dir
          /\ path_join w [dir; "0"] = Ok path
          /\ is_windows (os_tag w) = false /\ getppid w = 1)
      \/ (exists path p k,
             reaches_loop w path p /\ (k < fuel)%nat /\ iterations_sleep w path p k
             /\ elapsed_ms w (nanoTimestamp w 0) k < TOTAL_TIMEOUT_MS
             /\ parent_gone w p k = true)
  | SetupError =>
      (exists e, getcwd w = Err e)
      \/ (exists cwd e, getcwd w = Ok cwd /\ argsAlloc w = Err e)
      \/ (exists cwd args e,
             getcwd w = Ok cwd /\ argsAlloc w = Ok args
             /\ getEnvVarOwned w envVarName = Err e)
      \/ (exists cwd args dir e,
             getcwd w = Ok cwd /\ argsAlloc w = Ok args
             /\ getEnvVarOwned w envVarName = Ok dir
             /\ path_join w [dir; "0"] = Err e)
  end.

(** The scenario with a parent that has exited and a signal file that
    never appears: every probe fails with [error.ProcessNotFound], every
    access with [error.FileNotFound]. *)
Definition vanished_parent_world : World := {|
  os_tag := os_tag scenario_world;
  getpid := getpid scenario_world;
  getcwd := getcwd scenario_world;
  argsAlloc := argsAlloc scenario_world;
  getEnvVarOwned := getEnvVarOwned scenario_world;
  path_join := path_join scenario_world;
  path_sep := path_sep scenario_world;
  nanoTimestamp := nanoTimestamp scenario_world;
  getppid := getppid scenario_world;
  kill := fun _ _ _ => Err "ProcessNotFound";
  accessAbsolute := fun _ _ => Err "FileNotFound";
  CreateToolhelp32Snapshot := CreateToolhelp32Snapshot scenario_world;
  snapshot_last_error := snapshot_last_error scenario_world;
  OpenProcess := OpenProcess scenario_world;
  WaitForSingleObject := WaitForSingleObject scenario_world;
  wait_last_error := wait_last_error scenario_world
|}.

(** The probes among the observations of a run, with their answers. *)
Definition probes (evs : list Event) : list (Z * Z * result unit) :=
  flat_map (fun e => match e with EvKill pid sig r => [(pid, sig, r)] | _ => [] end) evs.

(** * Properties *)

(** ** Strings *)

Lemma append_assoc (a b c : string) : (a ++ b) ++ c = a ++ (b ++ c).
Proof. induction a as [|ch a IH]; simpl; [reflexivity | now rewrite IH]. Qed.

Lemma append_empty_r (a : string) : a ++ "" = a.
Proof. induction a as [|ch a IH]; simpl; [reflexivity | now rewrite IH]. Qed.

Lemma append_eq_empty (a b : string) : a ++ b = "" -> a = "" /\ b = "".
Proof. destruct a; simpl; [auto | discriminate]. Qed.

(** ** Event lists *)

Lemma observations_app (a b : list Event) :
  observations (a ++ b) = (observations a ++ observations b)%list.
Proof. apply filter_app. Qed.

Lemma output_app fd (a b : list Event) :
  output fd (a ++ b) = output fd a ++ output fd b.
Proof.
  induction a as [|e a IH]; simpl; [reflexivity|].
  destruct e; auto.
  destruct (stream_eqb fd fd0); auto.
  now rewrite IH, append_assoc.
Qed.

Lemma events_prepend {A} pre (r : Res A) : events (prepend pre r) = (pre ++ events r)%list.
Proof. now destruct r. Qed.

Lemma final_prepend {A} pre (r : Res A) : final (prepend pre r) = final r.
Proof. now destruct r. Qed.

Lemma exit_status_prepend {A} pre (r : Res A) : exit_status (prepend pre r) = exit_status r.
Proof. now destruct r. Qed.

Lemma prepend_nil {A} (r : Res A) : prepend [] r = r.
Proof. now destruct r. Qed.

Lemma prepend_prepend {A} a b (r : Res A) : prepend a (prepend b r) = prepend (a ++ b) r.
Proof. destruct r; simpl; now rewrite app_assoc. Qed.

Lemma emitted_prepend {A} fd pre (r : Res A) :
  emitted fd (prepend pre r) = output fd pre ++ emitted fd r.
Proof.
  unfold emitted. now rewrite events_prepend, final_prepend, output_app, append_assoc.
Qed.

(** ** The writers *)

Lemma print_eq fd text s : print fd text s = Ret tt (print_st fd text s) (print_ev fd text s).
Proof.
  unfold print_st, print_ev, print.
  now destruct (String.length (buf fd s) + String.length text <=? BUFFER_SIZE)%nat.
Qed.

Lemma flush_eq fd s : flush fd s = Ret tt (flush_st fd s) (flush_ev fd s).
Proof. unfold flush_st, flush_ev, flush. now destruct (buf fd s). Qed.


Lemma buf_set_same fd b s : buf fd (set_buf fd b s) = b.
Proof. now destruct fd. Qed.

Lemma buf_set_other fd fd' b s : fd <> fd' -> buf fd' (set_buf fd b s) = buf fd' s.
Proof. destruct fd, fd'; simpl; congruence. Qed.

Lemma stream_eqb_refl fd : stream_eqb fd fd = true.
Proof. now destruct fd. Qed.

Lemma stream_eqb_neq fd fd' : fd <> fd' -> stream_eqb fd' fd = false.
Proof. destruct fd, fd'; simpl; congruence. Qed.

Lemma print_ev_obs fd text s : observations (print_ev fd text s) = [].
Proof.
  unfold print_ev, print.
  now destruct (String.length (buf fd s) + String.length text <=? BUFFER_SIZE)%nat.
Qed.

Lemma flush_ev_obs fd s : observations (flush_ev fd s) = [].
Proof. unfold flush_ev, flush. now destruct (buf fd s). Qed.

(** Printing adds the text to what the stream has emitted. *)
Lemma print_emitted fd text s :
  output fd (print_ev fd text s) ++ buf fd (print_st fd text s) = buf fd s ++ text.
Proof.
  unfold print_ev, print_st, print.
  destruct (String.length (buf fd s) + String.length text <=? BUFFER_SIZE)%nat; simpl.
  - now rewrite buf_set_same.
  - now rewrite stream_eqb_refl, buf_set_same, !append_empty_r.
Qed.

Lemma print_other fd fd' text s :
  fd <> fd' ->
  output fd' (print_ev fd text s) = "" /\ buf fd' (print_st fd text s) = buf fd' s.
Proof.
  intros H. unfold print_ev, print_st, print.
  destruct (String.length (buf fd s) + String.length text <=? BUFFER_SIZE)%nat; simpl;
    rewrite ?(stream_eqb_neq _ _ H), (buf_set_other _ _ _ _ H); auto.
Qed.

(** Flushing moves the buffer to the descriptor and leaves it empty. *)
Lemma flush_output fd s : output fd (flush_ev fd s) = buf fd s.
Proof.
  unfold flush_ev, flush. destruct (buf fd s) eqn:E; simpl; [reflexivity|].
  now rewrite stream_eqb_refl, append_empty_r.
Qed.

Lemma flush_buf fd s : buf fd (flush_st fd s) = "".
Proof.
  unfold flush_st, flush. destruct (buf fd s) eqn:E; simpl; [assumption|].
  apply buf_set_same.
Qed.

Lemma flush_other fd fd' s :
  fd <> fd' ->
  output fd' (flush_ev fd s) = "" /\ buf fd' (flush_st fd s) = buf fd' s.
Proof.
  intros H. unfold flush_ev, flush_st, flush.
  destruct (buf fd s); simpl; rewrite ?(stream_eqb_neq _ _ H), ?(buf_set_other _ _ _ _ H); auto.
Qed.

(** The two streams do not disturb each other. *)
Lemma print_stderr_stdout text s :
  output Stdout (print_ev Stderr text s) = ""
  /\ buf Stdout (print_st Stderr text s) = buf Stdout s.
Proof. apply print_other; discriminate. Qed.

Lemma print_stdout_stderr text s :
  output Stderr (print_ev Stdout text s) = ""
  /\ buf Stderr (print_st Stdout text s) = buf Stderr s.
Proof. apply print_other; discriminate. Qed.

(** ** Effects of a computation *)


Lemma effect_prepend {A} (r : Res A) s0 s1 pre obs0 out0 err0 obs1 out1 err1 :
  observations pre = obs0 ->
  output Stdout pre ++ buf Stdout s1 = buf Stdout s0 ++ out0 ->
  output Stderr pre ++ buf Stderr s1 = buf Stderr s0 ++ err0 ->
  effect r s1 obs1 out1 err1 ->
  effect (prepend pre r) s0 (obs0 ++ obs1) (out0 ++ out1) (err0 ++ err1).
Proof.
  intros Ho Hout Herr (E1 & E2 & E3). unfold effect.
  rewrite events_prepend, observations_app, !emitted_prepend, Ho, E1, E2, E3.
  repeat split.
  - now rewrite <- append_assoc, Hout, append_assoc.
  - now rewrite <- append_assoc, Herr, append_assoc.
Qed.

Lemma effect_print_stderr {A} (r : Res A) s text obs out err :
  effect r (print_st Stderr text s) obs out err ->
  effect (prepend (print_ev Stderr text s) r) s obs out (text ++ err).
Proof.
  intros H.
  change obs with ([] ++ obs)%list. change out with ("" ++ out).
  eapply effect_prepend; eauto.
  - apply print_ev_obs.
  - destruct (print_stderr_stdout text s) as [-> ->]. now rewrite append_empty_r.
  - apply print_emitted.
Qed.

Lemma effect_print_stdout {A} (r : Res A) s text obs out err :
  effect r (print_st Stdout text s) obs out err ->
  effect (prepend (print_ev Stdout text s) r) s obs (text ++ out) err.
Proof.
  intros H.
  change obs with ([] ++ obs)%list. change err with ("" ++ err).
  eapply effect_prepend; eauto.
  - apply print_ev_obs.
  - apply print_emitted.
  - destruct (print_stdout_stderr text s) as [-> ->]. now rewrite append_empty_r.
Qed.

Lemma effect_observe {A} (r : Res A) s e obs out err :
  is_write e = false ->
  effect r s obs out err ->
  effect (prepend [e] r) s (e :: obs) out err.
Proof.
  intros He H.
  change (e :: obs) with ([e] ++ obs)%list.
  change out with ("" ++ out). change err with ("" ++ err).
  eapply effect_prepend; eauto.
  - unfold observations. simpl. now rewrite He.
  - destruct e; try discriminate; simpl; now rewrite append_empty_r.
  - destruct e; try discriminate; simpl; now rewrite append_empty_r.
Qed.

Lemma effect_Ret {A} (a : A) s : effect (Ret a s []) s [] "" "".
Proof. unfold effect, emitted. simpl. now rewrite !append_empty_r. Qed.

Lemma effect_Throw {A} e s : effect (@Throw A e s []) s [] "" "".
Proof. unfold effect, emitted. simpl. now rewrite !append_empty_r. Qed.

Lemma effect_Pending {A} s : effect (@Pending A s []) s [] "" "".
Proof. unfold effect, emitted. simpl. now rewrite !append_empty_r. Qed.

(** [flushAndExit] writes out both buffers and prints nothing new. *)
Lemma flushAndExit_eq {A} code s :
  @flushAndExit A code s =
  Exited code (flush_st Stderr (flush_st Stdout s))
         (flush_ev Stdout s ++ flush_ev Stderr (flush_st Stdout s)).
Proof.
  unfold flushAndExit, bind, catch, process_exit.
  rewrite flush_eq. simpl. rewrite flush_eq. simpl.
  now rewrite app_nil_r.
Qed.

Lemma flushAndExit_buf fd s : buf fd (flush_st Stderr (flush_st Stdout s)) = "".
Proof.
  destruct fd.
  - destruct (flush_other Stderr Stdout (flush_st Stdout s)) as [_ ->]; [discriminate|].
    apply flush_buf.
  - apply flush_buf.
Qed.

Lemma flushAndExit_flushed s : flushed (flush_st Stderr (flush_st Stdout s)).
Proof. split; [apply (flushAndExit_buf Stdout) | apply (flushAndExit_buf Stderr)]. Qed.

Lemma effect_flushAndExit {A} code s :
  effect (@flushAndExit A code s) s [] "" "".
Proof.
  rewrite flushAndExit_eq. unfold effect, emitted. cbn [events final].
  rewrite observations_app, !flush_ev_obs, !output_app, !flushAndExit_buf, !append_empty_r.
  rewrite !flush_output.
  destruct (flush_other Stdout Stderr s) as [-> ->]; [discriminate|].
  destruct (flush_other Stderr Stdout (flush_st Stdout s)) as [-> _]; [discriminate|].
  now rewrite !append_empty_r.
Qed.

(** ** Running the monad step by step *)

Lemma bind_assoc {A B C} (m : M A) (f : A -> M B) (g : B -> M C) s :
  bind (bind m f) g s = bind m (fun a => bind (f a) g) s.
Proof.
  unfold bind. destruct (m s) as [a s1 evs| | |]; try reflexivity.
  destruct (f a s1) as [b s2 evs2| | |]; simpl; try reflexivity.
  now rewrite prepend_prepend.
Qed.

Lemma bind_ret {A B} (a : A) (f : A -> M B) s : bind (ret a) f s = f a s.
Proof. unfold bind, ret. apply prepend_nil. Qed.

Lemma bind_throw {A B} e (f : A -> M B) s : bind (throw e) f s = Throw e s [].
Proof. reflexivity. Qed.

Lemma bind_print {B} fd text (f : unit -> M B) s :
  bind (print fd text) f s = prepend (print_ev fd text s) (f tt (print_st fd text s)).
Proof. unfold bind. now rewrite print_eq. Qed.

Lemma bind_flush {B} fd (f : unit -> M B) s :
  bind (flush fd) f s = prepend (flush_ev fd s) (f tt (flush_st fd s)).
Proof. unfold bind. now rewrite flush_eq. Qed.

Lemma bind_observe_Ok {A B} e (a : A) (f : A -> M B) s :
  bind (observe e (Ok a)) f s = prepend [e] (f a s).
Proof. reflexivity. Qed.

Lemma bind_observe_Err {A B} e x (f : A -> M B) s :
  bind (observe e (@Err A x)) f s = Throw x s [e].
Proof. reflexivity. Qed.

Lemma bind_attempt_observe {A B} e (r : result A) (f : result A -> M B) s :
  bind (attempt (observe e r)) f s = prepend [e] (f r s).
Proof. destruct r; reflexivity. Qed.

Lemma bind_flushAndExit {A B} code (f : A -> M B) s :
  bind (flushAndExit code) f s = flushAndExit code s.
Proof. unfold bind. now rewrite !flushAndExit_eq. Qed.

Lemma bind_catch_observe_Ok {A B} e (a : A) h (f : A -> M B) s :
  bind (catch (observe e (Ok a)) h) f s = prepend [e] (f a s).
Proof. reflexivity. Qed.

Lemma bind_catch_observe_Err {A B} e x (h : zig_error -> M A) (f : A -> M B) s :
  bind (catch (observe e (Err x)) h) f s = prepend [e] (bind (h x) f s).
Proof.
  unfold bind, catch, observe.
  destruct (h x s) as [a s1 evs| | |]; simpl; try reflexivity.
  now rewrite prepend_prepend.
Qed.

Lemma bind_defer {A B} (cleanup : M unit) (body : M A) (f : A -> M B) s :
  bind (defer cleanup body) f s =
  match body s with
  | Ret a s1 evs => prepend evs (bind cleanup (fun _ => f a) s1)
  | Throw e s1 evs => prepend evs (bind cleanup (fun _ => throw e) s1)
  | Exited c s1 evs => Exited c s1 evs
  | Pending s1 evs => Pending s1 evs
  end.
Proof.
  unfold defer, bind, ret, throw.
  destruct (body s) as [a s1 evs|e s1 evs| |]; try reflexivity.
  - destruct (cleanup s1) as [u s2 evs2| | |]; simpl; try reflexivity.
    rewrite app_nil_r. destruct (f a s2); simpl; now rewrite ?app_assoc.
  - destruct (cleanup s1) as [u s2 evs2| | |]; simpl; rewrite ?app_nil_r; reflexivity.
Qed.

Lemma bind_if {A B} (c : bool) (m1 m2 : M A) (f : A -> M B) s :
  bind (if c then m1 else m2) f s = if c then bind m1 f s else bind m2 f s.
Proof. now destruct c. Qed.

Lemma prepend_bind {A B} pre (r : Res A) (f : A -> M B) :
  match prepend pre r with
  | Ret a s1 evs => prepend evs (f a s1)
  | Throw e s1 evs => Throw e s1 evs
  | Exited c s1 evs => Exited c s1 evs
  | Pending s1 evs => Pending s1 evs
  end =
  prepend pre match r with
              | Ret a s1 evs => prepend evs (f a s1)
              | Throw e s1 evs => Throw e s1 evs
              | Exited c s1 evs => Exited c s1 evs
              | Pending s1 evs => Pending s1 evs
              end.
Proof. destruct r; simpl; try reflexivity. now rewrite prepend_prepend. Qed.

Create Rewrite HintDb exec.
#[local] Hint Rewrite @bind_if @bind_assoc @bind_ret @bind_throw @bind_print @bind_flush
  @bind_observe_Ok @bind_observe_Err @bind_attempt_observe @bind_flushAndExit
  @bind_catch_observe_Ok @bind_catch_observe_Err : exec.

Ltac exec := autorewrite with exec.

Lemma effect_observe_Ok {A} e (a : A) s :
  is_write e = false -> effect (observe e (Ok a) s) s [e] "" "".
Proof.
  intros He. unfold effect, emitted, observations. simpl. rewrite He.
  destruct e; try discriminate; simpl; now rewrite !append_empty_r.
Qed.

Lemma effect_observe_Err {A} e x s :
  is_write e = false -> effect (observe e (@Err A x) s) s [e] "" "".
Proof.
  intros He. unfold effect, emitted, observations. simpl. rewrite He.
  destruct e; try discriminate; simpl; now rewrite !append_empty_r.
Qed.

Lemma effect_eq {A} (r : Res A) s obs out err obs' out' err' :
  effect r s obs' out' err' -> obs' = obs -> out' = out -> err' = err ->
  effect r s obs out err.
Proof. now intros H <- <- <-. Qed.

(** Discharging an [effect] goal over a result in step form. *)
Ltac effects :=
  repeat first
    [ apply effect_flushAndExit
    | apply effect_Ret
    | apply effect_Throw
    | apply effect_Pending
    | eapply effect_print_stderr
    | eapply effect_print_stdout
    | eapply effect_observe; [reflexivity|]
    | eapply effect_observe_Ok; reflexivity
    | eapply effect_observe_Err; reflexivity ].

Ltac effects_done :=
  eapply effect_eq;
  [ effects
  | cbn [app]; rewrite ?app_nil_r; reflexivity
  | cbn [append]; rewrite ?append_empty_r; reflexivity
  | cbn [append]; rewrite ?append_empty_r; reflexivity ].


(** ** The liveness probe on Windows *)

Lemma bind_probe_windows {B} w k pid (f : bool -> M B) s :
  bind (parentProcessExistsWindows w k pid) f s =
  prepend [EvOpenProcess pid (OpenProcess w k pid)]
    (if OpenProcess w k pid then
       prepend [EvWaitForSingleObject pid (WaitForSingleObject w k pid)]
         (if (WaitForSingleObject w k pid =? WAIT_OBJECT_0)%Z
          then prepend [EvCloseHandle] (f false s)
          else if (WaitForSingleObject w k pid =? WAIT_TIMEOUT)%Z
               then prepend [EvCloseHandle] (f true s)
               else prepend (print_ev Stderr (wait_failed_line w k) s)
                      (prepend [EvCloseHandle]
                         (f false (print_st Stderr (wait_failed_line w k) s))))
     else f false s).
Proof.
  unfold parentProcessExistsWindows, wait_failed_line.
  rewrite bind_assoc, bind_observe_Ok.
  destruct (OpenProcess w k pid); simpl negb; cbv iota.
  - rewrite bind_defer.
    rewrite bind_observe_Ok.
    destruct (WaitForSingleObject w k pid =? WAIT_OBJECT_0)%Z;
      [|destruct (WaitForSingleObject w k pid =? WAIT_TIMEOUT)%Z].
    + unfold ret at 1. cbn [prepend app]. now rewrite bind_observe_Ok, prepend_prepend.
    + unfold ret at 1. cbn [prepend app]. now rewrite bind_observe_Ok, prepend_prepend.
    + rewrite bind_print. unfold ret at 1. cbn [prepend].
      rewrite app_nil_r, bind_observe_Ok.
      now rewrite <- !prepend_prepend.
  - now rewrite bind_ret.
Qed.

(** ** One iteration of the wait loop *)

Ltac split_ifs :=
  repeat match goal with
         | |- context [if ?c then _ else _] => destruct c eqn:?
         end.

Ltac signal_check w k path :=
  exec; destruct (accessAbsolute w k path) as [[]|?err]; exec;
  [ effects_done
  | match goal with
    | |- context [String.eqb ?e "FileNotFound"] =>
        destruct (String.eqb e "FileNotFound"); cbn [negb]; exec; effects_done
    end ].

Lemma tick_effect w path p start k s :
  effect (tick w path (ppid p) (win_ppid p) (parent_monitoring_active p) start k s) s
         (tick_observations w path p start k) ""
         (tick_diagnostics w path p start k).
Proof.
  unfold tick. exec.
  unfold tick_observations, tick_diagnostics, tick_verdict, elapsed_ms, parent_gone,
    signal_present, probe_observations, probe_diagnostics, parent_alive_windows,
    access_diagnostics, parent_gone_line, timeout_line, access_error_line.
  destruct (Z.quot (nanoTimestamp w (S k) - start) ns_per_ms >=? TOTAL_TIMEOUT_MS)%Z.
  { effects_done. }
  destruct (parent_monitoring_active p); cbn [andb].
  2:{ signal_check w k path. }
  destruct (is_windows (os_tag w)).
  - rewrite bind_probe_windows.
    destruct (OpenProcess w k (win_ppid p)); cbn [andb negb].
    + destruct (WaitForSingleObject w k (win_ppid p) =? WAIT_OBJECT_0)%Z eqn:E0.
      * apply Z.eqb_eq in E0. rewrite E0. cbn [Z.eqb WAIT_OBJECT_0 WAIT_TIMEOUT negb].
        exec. effects_done.
      * destruct (WaitForSingleObject w k (win_ppid p) =? WAIT_TIMEOUT)%Z eqn:E1;
          cbn [andb negb].
        -- signal_check w k path.
        -- exec. effects_done.
    + exec. effects_done.
  - exec. destruct (kill w k (ppid p) 0) as [[]|e].
    + signal_check w k path.
    + destruct (String.eqb e "NoSuchProcess").
      * exec. effects_done.
      * signal_check w k path.
Qed.

Ltac exits :=
  rewrite ?flushAndExit_eq; cbn [prepend observe];
  first [ do 2 eexists; reflexivity
        | do 3 eexists; split; [reflexivity | split; [reflexivity | apply flushAndExit_flushed]] ].

Ltac signal_check_exits w k path :=
  exec; destruct (accessAbsolute w k path) as [[]|?err]; exec;
  [ exits
  | match goal with
    | |- context [String.eqb ?e "FileNotFound"] =>
        destruct (String.eqb e "FileNotFound"); cbn [negb]; exec; exits
    end ].

(** An iteration ends in the sleep exactly when its verdict is [VSleep];
    otherwise the process exits, flushed, with the status of the verdict. *)
Lemma tick_result w path p start k s :
  match tick_verdict w path p start k with
  | VSleep =>
      exists s' evs,
        tick w path (ppid p) (win_ppid p) (parent_monitoring_active p) start k s
        = Ret tt s' evs
  | v =>
      exists c s' evs,
        tick w path (ppid p) (win_ppid p) (parent_monitoring_active p) start k s
        = Exited c s' evs
        /\ verdict_status v = Some c /\ flushed s'
  end.
Proof.
  unfold tick. exec.
  unfold tick_verdict, elapsed_ms, parent_gone, signal_present, parent_alive_windows.
  destruct (Z.quot (nanoTimestamp w (S k) - start) ns_per_ms >=? TOTAL_TIMEOUT_MS)%Z.
  { exits. }
  destruct (parent_monitoring_active p); cbn [andb].
  2:{ signal_check_exits w k path. }
  destruct (is_windows (os_tag w)).
  - rewrite bind_probe_windows.
    destruct (OpenProcess w k (win_ppid p)); cbn [andb negb].
    + destruct (WaitForSingleObject w k (win_ppid p) =? WAIT_OBJECT_0)%Z eqn:E0.
      * apply Z.eqb_eq in E0. rewrite E0. cbn [Z.eqb WAIT_OBJECT_0 WAIT_TIMEOUT negb].
        exec. exits.
      * destruct (WaitForSingleObject w k (win_ppid p) =? WAIT_TIMEOUT)%Z eqn:E1;
          cbn [andb negb].
        -- signal_check_exits w k path.
        -- exec. exits.
    + exec. exits.
  - exec. destruct (kill w k (ppid p) 0) as [[]|e].
    + signal_check_exits w k path.
    + destruct (String.eqb e "NoSuchProcess").
      * exec. exits.
      * signal_check_exits w k path.
Qed.

(** ** Sequencing and effects *)

Lemma effect_bind_Ret {A B} (m : M A) (f : A -> M B) s a s1 evs
    obs1 out1 err1 obs2 out2 err2 :
  m s = Ret a s1 evs ->
  effect (m s) s obs1 out1 err1 ->
  effect (f a s1) s1 obs2 out2 err2 ->
  effect (bind m f s) s (obs1 ++ obs2) (out1 ++ out2) (err1 ++ err2).
Proof.
  intros E H1 H2. unfold bind. rewrite E in *.
  destruct H1 as (O1 & O2 & O3). unfold emitted in O2, O3. cbn [events final] in *.
  eapply effect_prepend; eauto.
Qed.

Lemma effect_bind_Exited {A B} (m : M A) (f : A -> M B) s c s1 evs obs out err :
  m s = Exited c s1 evs ->
  effect (m s) s obs out err ->
  effect (bind m f s) s obs out err.
Proof. intros E H. unfold bind. now rewrite E in *. Qed.

Lemma effect_bind_Throw {A B} (m : M A) (f : A -> M B) s e s1 evs obs out err :
  m s = Throw e s1 evs ->
  effect (m s) s obs out err ->
  effect (bind m f s) s obs out err.
Proof. intros E H. unfold bind. now rewrite E in *. Qed.

(** ** The wait loop *)

Lemma wait_loop_effect w path p start fuel : forall k s,
  effect (wait_loop w path (ppid p) (win_ppid p) (parent_monitoring_active p) start fuel k s) s
         (loop_observations w path p start fuel k) ""
         (loop_diagnostics w path p start fuel k).
Proof.
  induction fuel as [|fuel IH]; intros k s.
  - apply effect_Pending.
  - cbn [wait_loop loop_observations loop_diagnostics].
    pose proof (tick_result w path p start k s) as R.
    pose proof (tick_effect w path p start k s) as E.
    destruct (tick_verdict w path p start k).
    1-3: destruct R as (c & s' & evs & R & _);
      eapply effect_eq;
      [ eapply effect_bind_Exited; [exact R | exact E]
      | now rewrite app_nil_r | reflexivity | now rewrite append_empty_r ].
    destruct R as (s' & evs & R).
    change "" with ("" ++ "") at 1.
    eapply effect_bind_Ret; [exact R | exact E | apply IH].
Qed.

Lemma wait_loop_result w path p start fuel : forall k s,
  match first_stop w path p start fuel k with
  | None =>
      exists s' evs,
        wait_loop w path (ppid p) (win_ppid p) (parent_monitoring_active p) start fuel k s
        = Pending s' evs
  | Some j =>
      exists c s' evs,
        wait_loop w path (ppid p) (win_ppid p) (parent_monitoring_active p) start fuel k s
        = Exited c s' evs
        /\ verdict_status (tick_verdict w path p start j) = Some c /\ flushed s'
  end.
Proof.
  induction fuel as [|fuel IH]; intros k s.
  - simpl. eauto.
  - cbn [wait_loop first_stop].
    pose proof (tick_result w path p start k s) as R.
    destruct (tick_verdict w path p start k) eqn:V.
    1-3: destruct R as (c & s' & evs & R & St & F); unfold bind; rewrite R;
      exists c, s', evs; rewrite V; auto.
    destruct R as (s' & evs & R). unfold bind. rewrite R.
    specialize (IH (S k) s').
    destruct (first_stop w path p start fuel (S k)).
    + destruct IH as (c & s2 & evs2 & -> & ? & ?). simpl. eauto 10.
    + destruct IH as (s2 & evs2 & ->). simpl. eauto.
Qed.

(** ** The identity announcer *)

Lemma print_args_eq args : forall s,
  print_args args s = Ret tt (print_args_st args s) (print_args_ev args s).
Proof.
  unfold print_args_st, print_args_ev.
  induction args as [|a args IH]; intros s; [reflexivity|].
  cbn [print_args]. rewrite bind_print, IH. reflexivity.
Qed.

Lemma print_args_effect args : forall s,
  effect (print_args args s) s [] (arg_lines args) "".
Proof.
  induction args as [|a args IH]; intros s.
  - apply effect_Ret.
  - cbn [print_args arg_lines]. rewrite bind_print.
    eapply effect_print_stdout. apply IH.
Qed.

Lemma bind_print_args {B} args (f : unit -> M B) s :
  bind (print_args args) f s = prepend (print_args_ev args s) (f tt (print_args_st args s)).
Proof. unfold bind. now rewrite print_args_eq. Qed.

Lemma effect_print_args {A} (r : Res A) s args obs out err :
  effect r (print_args_st args s) obs out err ->
  effect (prepend (print_args_ev args s) r) s obs (arg_lines args ++ out) err.
Proof.
  intros H.
  pose proof (print_args_effect args s) as (E1 & E2 & E3).
  rewrite print_args_eq in E1, E2, E3. unfold emitted in E2, E3. cbn [events final] in *.
  change obs with ([] ++ obs)%list. change err with ("" ++ err).
  eapply effect_prepend; eauto.
Qed.

#[local] Hint Rewrite @bind_print_args : exec.

Lemma effect_flush_stdout {A} (r : Res A) s obs out err :
  effect r (flush_st Stdout s) obs out err ->
  effect (prepend (flush_ev Stdout s) r) s obs out err.
Proof.
  intros H.
  change obs with ([] ++ obs)%list. change out with ("" ++ out). change err with ("" ++ err).
  eapply effect_prepend; eauto.
  - apply flush_ev_obs.
  - now rewrite flush_output, flush_buf, !append_empty_r.
  - destruct (flush_other Stdout Stderr s) as [-> ->]; [discriminate|].
    now rewrite append_empty_r.
Qed.

Lemma effect_Throw_after {A} e x s :
  is_write e = false -> effect (@Throw A x s [e]) s [e] "" "".
Proof. intros He. now apply (@effect_observe_Err A). Qed.

Ltac effects ::=
  repeat first
    [ apply effect_flushAndExit
    | apply effect_Ret
    | apply effect_Throw
    | apply effect_Throw_after; reflexivity
    | apply effect_Pending
    | eapply effect_print_stderr
    | eapply effect_print_stdout
    | eapply effect_print_args
    | eapply effect_flush_stdout
    | eapply effect_observe; [reflexivity|]
    | eapply effect_observe_Ok; reflexivity
    | eapply effect_observe_Err; reflexivity ].

Lemma announce_effect w s :
  effect (announce w s) s (announce_observations w) (announce_output w)
         (announce_diagnostics w).
Proof.
  unfold announce, announce_observations, announce_output, announce_diagnostics,
    env_error_line, sentinel_line.
  exec.
  destruct (getcwd w) as [cwd|e]; exec.
  2:{ effects_done. }
  destruct (argsAlloc w) as [args|e]; exec.
  2:{ effects_done. }
  destruct (getEnvVarOwned w envVarName) as [dir|e]; exec.
  - effects_done.
  - effects_done.
Qed.

Ltac returns :=
  rewrite ?flushAndExit_eq; cbn [prepend observe ret throw];
  repeat eexists; try reflexivity; try apply flushAndExit_flushed.

(** How the announcer ends: an error from [getcwd] or [argsAlloc]
    returns from [main]; a missing variable exits with status 1; else
    it hands over the signal directory with standard output flushed. *)
Lemma announce_result w s :
  match getcwd w with
  | Err e => exists s' evs, announce w s = Throw e s' evs
  | Ok _ =>
      match argsAlloc w with
      | Err e => exists s' evs, announce w s = Throw e s' evs
      | Ok _ =>
          match getEnvVarOwned w envVarName with
          | Err _ => exists s' evs, announce w s = Exited 1 s' evs /\ flushed s'
          | Ok dir => exists s' evs, announce w s = Ret dir s' evs /\ buf Stdout s' = ""
          end
      end
  end.
Proof.
  unfold announce. exec.
  destruct (getcwd w) as [cwd|e]; exec.
  2:{ returns. }
  destruct (argsAlloc w) as [args|e]; exec.
  2:{ returns. }
  destruct (getEnvVarOwned w envVarName) as [dir|e]; exec.
  - cbn [prepend ret]. do 2 eexists. split; [reflexivity|]. apply flush_buf.
  - rewrite flushAndExit_eq. cbn [prepend]. do 2 eexists. split; [reflexivity|].
    apply flushAndExit_flushed.
Qed.

(** ** The signal file path *)

Lemma signal_path_effect w dir s :
  effect (signal_path w dir s) s
         [EvPathJoin [dir; "0"] (path_join w [dir; "0"])] ""
         match path_join w [dir; "0"] with
         | Ok _ => ""
         | Err e => join_error_line w dir e
         end.
Proof.
  unfold signal_path, join_error_line, catch.
  destruct (path_join w [dir; "0"]) as [path|e]; cbn [observe].
  - effects_done.
  - rewrite bind_print. effects_done.
Qed.

Lemma signal_path_result w dir s :
  match path_join w [dir; "0"] with
  | Ok path =>
      signal_path w dir s = Ret path s [EvPathJoin [dir; "0"] (Ok path)]
  | Err _ => exists s' evs, signal_path w dir s = Exited 1 s' evs /\ flushed s'
  end.
Proof.
  unfold signal_path, catch.
  destruct (path_join w [dir; "0"]) as [path|e]; cbn [observe]; [reflexivity|].
  rewrite bind_print, flushAndExit_eq. cbn [prepend].
  do 2 eexists. split; [reflexivity | apply flushAndExit_flushed].
Qed.

(** ** Parent discovery on Windows *)

Lemma snapshot_walk_spec w rest : forall pe32 s,
  exists s' evs,
    snapshot_walk w (getpid w) pe32 rest s =
      match own_entry w (pe32 :: rest) with
      | Some e =>
          if (th32ParentProcessID e =? 0)%Z then Throw "ParentIsSystemIdleProcess" s' evs
          else Ret (th32ParentProcessID e) s' evs
      | None =>
          if (snapshot_last_error w =? ERROR_NO_MORE_FILES)%Z then Throw "ParentNotFound" s' evs
          else Throw "Process32NextFailed" s' evs
      end
    /\ effect (snapshot_walk w (getpid w) pe32 rest s) s [] ""
         match own_entry w (pe32 :: rest) with
         | Some e =>
             if (th32ParentProcessID e =? 0)%Z
             then "Error: Retrieved parent PID is 0 for process "
                  ++ fmt_int (getpid w) ++ ". This is unexpected." ++ nl
             else ""
         | None =>
             if (snapshot_last_error w =? ERROR_NO_MORE_FILES)%Z then ""
             else "Process32Next failed: " ++ fmt_int (snapshot_last_error w) ++ nl
         end.
Proof.
  induction rest as [|next rest IH]; intros pe32 s;
    unfold own_entry; cbn [snapshot_walk find];
    destruct (th32ProcessID pe32 =? getpid w)%Z.
  1,3: destruct (th32ParentProcessID pe32 =? 0)%Z;
    [ rewrite bind_print; do 2 eexists; split; [reflexivity | effects_done]
    | do 2 eexists; split; [reflexivity | effects_done] ].
  - destruct (snapshot_last_error w =? ERROR_NO_MORE_FILES)%Z;
      [ do 2 eexists; split; [reflexivity | effects_done]
      | rewrite bind_print; do 2 eexists; split; [reflexivity | effects_done] ].
  - apply IH.
Qed.

Lemma defer_observe_Ret {A} e (body : M A) s a s1 evs :
  body s = Ret a s1 evs -> defer (observe e (Ok tt)) body s = Ret a s1 (evs ++ [e]).
Proof. intros E. unfold defer. now rewrite E. Qed.

Lemma defer_observe_Throw {A} e (body : M A) s x s1 evs :
  body s = Throw x s1 evs -> defer (observe e (Ok tt)) body s = Throw x s1 (evs ++ [e]).
Proof. intros E. unfold defer. now rewrite E. Qed.

Lemma effect_Ret_then {A} (a : A) s s1 evs e obs out err :
  is_write e = false ->
  effect (Ret a s1 evs) s obs out err ->
  effect (Ret a s1 (evs ++ [e])) s (obs ++ [e]) out err.
Proof.
  intros He (E1 & E2 & E3). unfold effect, emitted in *. cbn [events final] in *.
  rewrite observations_app, !output_app, E1.
  assert (observations [e] = [e]) as -> by (unfold observations; simpl; now rewrite He).
  assert (forall fd, output fd [e] = "") as O by (intros fd; destruct e; try discriminate; reflexivity).
  now rewrite !O, !append_empty_r.
Qed.

Lemma effect_Throw_then {A} x s s1 evs e obs out err :
  is_write e = false ->
  effect (@Throw A x s1 evs) s obs out err ->
  effect (@Throw A x s1 (evs ++ [e])) s (obs ++ [e]) out err.
Proof.
  intros He (E1 & E2 & E3). unfold effect, emitted in *. cbn [events final] in *.
  rewrite observations_app, !output_app, E1.
  assert (observations [e] = [e]) as -> by (unfold observations; simpl; now rewrite He).
  assert (forall fd, output fd [e] = "") as O by (intros fd; destruct e; try discriminate; reflexivity).
  now rewrite !O, !append_empty_r.
Qed.

Lemma getParentPidWindows_spec w s :
  exists s' evs,
    getParentPidWindows w s =
      match discovery w with
      | Ok id => Ret id s' evs
      | Err e => Throw e s' evs
      end
    /\ effect (getParentPidWindows w s) s (discovery_observations w) ""
              (discovery_diagnostics w).
Proof.
  unfold getParentPidWindows, discovery, discovery_observations, discovery_diagnostics.
  destruct (CreateToolhelp32Snapshot w) as [[|pe32 rest]|].
  - rewrite bind_observe_Ok. erewrite defer_observe_Throw by (rewrite bind_print; reflexivity).
    do 2 eexists. split; [reflexivity|].
    apply effect_observe; [reflexivity|].
    change [EvCloseHandle] with ([] ++ [EvCloseHandle])%list.
    apply effect_Throw_then; [reflexivity|].
    eapply effect_eq;
      [ apply (effect_print_stderr (Throw _ _ [])); apply effect_Throw
      | reflexivity | reflexivity | apply append_empty_r ].
  - rewrite bind_observe_Ok.
    destruct (snapshot_walk_spec w rest pe32 s) as (s' & evs & R & E).
    rewrite R in E.
    destruct (own_entry w (pe32 :: rest)) as [e|];
      [destruct (th32ParentProcessID e =? 0)%Z
      |destruct (snapshot_last_error w =? ERROR_NO_MORE_FILES)%Z].
    all: first [ erewrite defer_observe_Ret by exact R
               | erewrite defer_observe_Throw by exact R ];
      do 2 eexists; (split; [reflexivity|]);
      (apply effect_observe; [reflexivity|]);
      change [EvCloseHandle] with ([] ++ [EvCloseHandle])%list;
      first [ apply effect_Ret_then; [reflexivity | exact E]
            | apply effect_Throw_then; [reflexivity | exact E] ].
  - exec. do 2 eexists. split; [reflexivity|]. effects_done.
Qed.

(** ** Parent resolution *)

Lemma effect_after {A B} (r1 : Res A) (r2 : Res B) s obs1 out1 err1 obs2 out2 err2 :
  effect r1 s obs1 out1 err1 ->
  effect r2 (final r1) obs2 out2 err2 ->
  effect (prepend (events r1) r2) s (obs1 ++ obs2) (out1 ++ out2) (err1 ++ err2).
Proof. intros (E1 & E2 & E3) H. eapply effect_prepend; eauto. Qed.

Lemma resolve_parent_spec w s :
  match resolved w with
  | Some p => exists s' evs, resolve_parent w s = Ret p s' evs
  | None => exists s' evs, resolve_parent w s = Exited 1 s' evs /\ flushed s'
  end
  /\ effect (resolve_parent w s) s (resolve_observations w) "" (resolve_diagnostics w).
Proof.
  unfold resolve_parent, resolved, resolve_observations, resolve_diagnostics,
    monitoring_disabled_line, reparented_line.
  destruct (is_windows (os_tag w)).
  - destruct (getParentPidWindows_spec w s) as (s' & evs & R & E).
    rewrite R in E.
    destruct (discovery w) as [id|e].
    + assert (X : (found <- catch (id <- getParentPidWindows w;; ret (id, true))
                     (fun err =>
                        print Stderr ("Warning: Failed to get parent PID on Windows: "
                                      ++ fmt_error err
                                      ++ ". Parent process monitoring will be disabled." ++ nl) ;;
                        ret (0, false)) ;;
                  ret {| ppid := 0; win_ppid := fst found;
                         parent_monitoring_active := snd found |}) s
                 = Ret {| ppid := 0; win_ppid := id; parent_monitoring_active := true |} s' evs).
      { unfold bind, catch. rewrite R. cbn. now rewrite !app_nil_r. }
      rewrite X. split; [eauto|].
      eapply effect_eq; [exact E | reflexivity | reflexivity | now rewrite append_empty_r].
    + assert (X : (found <- catch (id <- getParentPidWindows w;; ret (id, true))
                     (fun err =>
                        print Stderr ("Warning: Failed to get parent PID on Windows: "
                                      ++ fmt_error err
                                      ++ ". Parent process monitoring will be disabled." ++ nl) ;;
                        ret (0, false)) ;;
                  ret {| ppid := 0; win_ppid := fst found;
                         parent_monitoring_active := snd found |}) s
                 = prepend evs
                     (prepend (print_ev Stderr (monitoring_disabled_line e) s')
                        (Ret {| ppid := 0; win_ppid := 0; parent_monitoring_active := false |}
                             (print_st Stderr (monitoring_disabled_line e) s') []))).
      { unfold bind, catch. rewrite R, print_eq. cbn. now rewrite !app_nil_r. }
      rewrite X. split; [cbn [prepend]; eauto|].
      eapply effect_eq;
        [ apply (effect_after (@Throw Z e s' evs)); [exact E|]; cbn [final]; effects
        | now rewrite app_nil_r | reflexivity | now rewrite append_empty_r ].
  - exec. destruct (getppid w =? 1)%Z; exec.
    + split.
      * rewrite flushAndExit_eq. cbn [prepend].
        do 2 eexists. split; [reflexivity | apply flushAndExit_flushed].
      * effects_done.
    + cbn [prepend ret]. split; [eauto|]. effects_done.
Qed.

(** ** The whole run *)

Ltac effect_by_eq :=
  eapply effect_eq;
  [
  | cbn [app]; rewrite ?app_nil_r; reflexivity
  | cbn [append]; rewrite ?append_empty_r; reflexivity
  | cbn [append]; rewrite ?append_empty_r; reflexivity ].

Lemma run_effect w fuel :
  effect (run w fuel) init (run_observations w fuel) (announce_output w)
         (run_diagnostics w fuel).
Proof.
  unfold run, main, run_observations, run_diagnostics, startup.
  pose proof (announce_result w init) as R.
  pose proof (announce_effect w init) as E.
  unfold announced.
  destruct (getcwd w) as [cwd|e] eqn:Hcwd.
  2:{ destruct R as (s' & evs & R).
      eapply effect_eq; [eapply effect_bind_Throw; [exact R | exact E] | | reflexivity | ];
        [now rewrite app_nil_r | now rewrite append_empty_r]. }
  destruct (argsAlloc w) as [args|e] eqn:Hargs.
  2:{ destruct R as (s' & evs & R).
      eapply effect_eq; [eapply effect_bind_Throw; [exact R | exact E] | | reflexivity | ];
        [now rewrite app_nil_r | now rewrite append_empty_r]. }
  destruct (getEnvVarOwned w envVarName) as [dir|e] eqn:Henv.
  2:{ destruct R as (s' & evs & R & _).
      eapply effect_eq; [eapply effect_bind_Exited; [exact R | exact E] | | reflexivity | ];
        [now rewrite app_nil_r | now rewrite append_empty_r]. }
  destruct R as (s1 & evs1 & R & _).
  eapply effect_eq; [eapply effect_bind_Ret; [exact R | exact E |] | reflexivity | | reflexivity].
  2: apply append_empty_r.
  rewrite bind_observe_Ok. unfold setup_observations, setup_diagnostics.
  apply effect_observe; [reflexivity|].
  pose proof (signal_path_result w dir s1) as R2.
  pose proof (signal_path_effect w dir s1) as E2.
  destruct (path_join w [dir; "0"]) as [path|e] eqn:Hjoin.
  2:{ destruct R2 as (s' & evs & R2 & _).
      eapply effect_eq; [eapply effect_bind_Exited; [exact R2 | exact E2] | | reflexivity | ];
        [reflexivity | now rewrite append_empty_r]. }
  destruct (resolve_parent_spec w s1) as (R3 & E3).
  destruct (resolved w) as [p|].
  - destruct R3 as (s3 & evs3 & R3).
    eapply effect_eq;
      [ eapply effect_bind_Ret; [exact R2 | exact E2 |];
        eapply effect_bind_Ret; [exact R3 | exact E3 | apply wait_loop_effect]
      | reflexivity.. ].
  - destruct R3 as (s3 & evs3 & R3 & _).
    eapply effect_eq;
      [ eapply effect_bind_Ret; [exact R2 | exact E2 |];
        eapply effect_bind_Exited; [exact R3 | exact E3]
      | cbn [app]; f_equal; symmetry; apply app_nil_r
      | reflexivity
      | cbn [append]; now rewrite append_empty_r ].
Qed.

Lemma prepend_Exited {A} pre (r : Res A) c s evs :
  r = Exited c s evs -> prepend pre r = Exited c s (pre ++ evs).
Proof. now intros ->. Qed.

Lemma bind_eq_Ret {A B} (m : M A) (f : A -> M B) s a s1 evs :
  m s = Ret a s1 evs -> bind m f s = prepend evs (f a s1).
Proof. intros E. unfold bind. now rewrite E. Qed.

Lemma bind_eq_Throw {A B} (m : M A) (f : A -> M B) s e s1 evs :
  m s = Throw e s1 evs -> bind m f s = Throw e s1 evs.
Proof. intros E. unfold bind. now rewrite E. Qed.

Lemma bind_eq_Exited {A B} (m : M A) (f : A -> M B) s c s1 evs :
  m s = Exited c s1 evs -> bind m f s = Exited c s1 evs.
Proof. intros E. unfold bind. now rewrite E. Qed.

(** How a run ends, case by case. *)
Lemma run_result w fuel :
  match getcwd w with
  | Err e => exists s' evs, run w fuel = Throw e s' evs
  | Ok _ =>
      match argsAlloc w with
      | Err e => exists s' evs, run w fuel = Throw e s' evs
      | Ok _ =>
          match startup w with
          | None => exists s' evs, run w fuel = Exited 1 s' evs /\ flushed s'
          | Some (path, p) =>
              match first_stop w path p (nanoTimestamp w 0) fuel 0 with
              | None => exists s' evs, run w fuel = Pending s' evs
              | Some j =>
                  exists c s' evs,
                    run w fuel = Exited c s' evs
                    /\ verdict_status (tick_verdict w path p (nanoTimestamp w 0) j) = Some c
                    /\ flushed s'
              end
          end
      end
  end.
Proof.
  unfold run, main, startup, announced.
  pose proof (announce_result w init) as R.
  destruct (getcwd w) as [cwd|e].
  2:{ destruct R as (s' & evs & R). rewrite (bind_eq_Throw _ _ _ _ _ _ R). eauto. }
  destruct (argsAlloc w) as [args|e].
  2:{ destruct R as (s' & evs & R). rewrite (bind_eq_Throw _ _ _ _ _ _ R). eauto. }
  destruct (getEnvVarOwned w envVarName) as [dir|e].
  2:{ destruct R as (s' & evs & R & F). rewrite (bind_eq_Exited _ _ _ _ _ _ R). eauto. }
  destruct R as (s1 & evs1 & R & _). rewrite (bind_eq_Ret _ _ _ _ _ _ R).
  rewrite bind_observe_Ok.
  pose proof (signal_path_result w dir s1) as R2.
  destruct (path_join w [dir; "0"]) as [path|e].
  2:{ destruct R2 as (s' & evs & R2 & F). rewrite (bind_eq_Exited _ _ _ _ _ _ R2).
      cbn [prepend]. eauto. }
  rewrite (bind_eq_Ret _ _ _ _ _ _ R2).
  destruct (resolve_parent_spec w s1) as (R3 & _).
  destruct (resolved w) as [p|].
  2:{ destruct R3 as (s' & evs & R3 & F). rewrite (bind_eq_Exited _ _ _ _ _ _ R3).
      cbn [prepend]. eauto. }
  destruct R3 as (s3 & evs3 & R3). rewrite (bind_eq_Ret _ _ _ _ _ _ R3).
  pose proof (wait_loop_result w path p (nanoTimestamp w 0) fuel 0 s3) as L.
  destruct (first_stop w path p (nanoTimestamp w 0) fuel 0) as [j|].
  - destruct L as (c & s' & evs & -> & V & F). cbn [prepend]. eauto 10.
  - destruct L as (s' & evs & ->). cbn [prepend]. eauto.
Qed.

(** ** Exit status and outcome of a run *)

Lemma run_status w fuel : exit_status (run w fuel) = expected_status w fuel.
Proof.
  pose proof (run_result w fuel) as R.
  unfold expected_status, stop_verdict.
  unfold startup, announced in *.
  destruct (getcwd w); [|destruct R as (? & ? & ->); reflexivity].
  destruct (argsAlloc w); [|destruct R as (? & ? & ->); reflexivity].
  destruct (getEnvVarOwned w envVarName) as [dir|];
    [|destruct R as (? & ? & -> & _); reflexivity].
  destruct (path_join w [dir; "0"]) as [path|];
    [|destruct R as (? & ? & -> & _); reflexivity].
  destruct (resolved w) as [p|]; [|destruct R as (? & ? & -> & _); reflexivity].
  destruct (first_stop w path p (nanoTimestamp w 0) fuel 0).
  - destruct R as (c & ? & ? & -> & -> & _). reflexivity.
  - destruct R as (? & ? & ->). reflexivity.
Qed.

(** A run never leaves [main] by a plain return, and when it leaves by
    [std.process.exit] both buffers are empty. *)
Lemma run_exit_flushed w fuel c s evs : run w fuel = Exited c s evs -> flushed s.
Proof.
  intros E. pose proof (run_result w fuel) as R. rewrite E in R.
  destruct (getcwd w); [|destruct R as (? & ? & R); discriminate].
  destruct (argsAlloc w); [|destruct R as (? & ? & R); discriminate].
  destruct (startup w) as [[path p]|].
  - destruct (first_stop w path p (nanoTimestamp w 0) fuel 0).
    + destruct R as (? & ? & ? & R & _ & F). now inversion R; subst.
    + destruct R as (? & ? & R). discriminate.
  - destruct R as (? & ? & R & F). now inversion R; subst.
Qed.

Lemma last_event_app l e : last_event (l ++ [e]) = Some e.
Proof. unfold last_event. rewrite map_app. cbn [map]. apply last_last. Qed.

Lemma last_event_app_r l1 l2 : l2 <> [] -> last_event (l1 ++ l2) = last_event l2.
Proof.
  intros H. destruct (exists_last H) as (l & e & ->).
  now rewrite app_assoc, !last_event_app.
Qed.

Lemma last_event_cons e l : l <> [] -> last_event (e :: l) = last_event l.
Proof. intros H. now apply (last_event_app_r [e]). Qed.

Lemma tick_observations_nonempty w path p start k :
  tick_observations w path p start k <> [].
Proof. unfold tick_observations. destruct (tick_verdict w path p start k); discriminate. Qed.

(** The last system call of an iteration that stops is the one its
    verdict was decided on. *)
Lemma tick_last_observation w path p start k :
  tick_verdict w path p start k <> VSleep ->
  exists e,
    last_event (tick_observations w path p start k) = Some e
    /\ classify e = verdict_outcome (tick_verdict w path p start k).
Proof.
  unfold tick_observations, tick_verdict, parent_gone, probe_observations,
    signal_present, parent_alive_windows.
  destruct (elapsed_ms w start k >=? TOTAL_TIMEOUT_MS)%Z.
  { intros _. eexists. split; reflexivity. }
  destruct (parent_monitoring_active p); cbn [andb].
  - destruct (is_windows (os_tag w)).
    + destruct (OpenProcess w k (win_ppid p)); cbn [andb negb].
      * destruct (WaitForSingleObject w k (win_ppid p) =? WAIT_TIMEOUT)%Z; cbn [negb].
        -- destruct (accessAbsolute w k path) as [[]|e]; [|congruence].
           intros _. eexists. split; reflexivity.
        -- intros _. eexists. split; reflexivity.
      * intros _. eexists. split; reflexivity.
    + destruct (kill w k (ppid p) 0) as [[]|e].
      * destruct (accessAbsolute w k path) as [[]|e]; [|congruence].
        intros _. eexists. split; reflexivity.
      * destruct (String.eqb e "NoSuchProcess").
        -- intros _. eexists. split; reflexivity.
        -- destruct (accessAbsolute w k path) as [[]|e']; [|congruence].
           intros _. eexists. split; reflexivity.
  - destruct (accessAbsolute w k path) as [[]|e]; [|congruence].
    intros _. eexists. split; reflexivity.
Qed.

Lemma loop_last_observation w path p start fuel : forall k j,
  first_stop w path p start fuel k = Some j ->
  last_event (loop_observations w path p start fuel k)
  = last_event (tick_observations w path p start j)
  /\ tick_verdict w path p start j <> VSleep
  /\ loop_observations w path p start fuel k <> [].
Proof.
  induction fuel as [|fuel IH]; intros k j H; [discriminate|].
  cbn [first_stop loop_observations] in *.
  assert (N : forall l, (tick_observations w path p start k ++ l)%list <> []).
  { intros l E. apply app_eq_nil in E. now apply (tick_observations_nonempty w path p start k). }
  destruct (tick_verdict w path p start k) eqn:V.
  1-3: inversion H; subst j; rewrite app_nil_r, V;
    repeat split; try discriminate; apply tick_observations_nonempty.
  destruct (IH _ _ H) as (L & NS & NE).
  repeat split; auto.
  rewrite last_event_app_r by exact NE. exact L.
Qed.

Lemma run_observed w fuel : observations (events (run w fuel)) = run_observations w fuel.
Proof. apply run_effect. Qed.

(** The outcome read off the trace of a run is the one the lifecycle
    assigns to it. *)
Lemma run_outcome w fuel : outcome (run w fuel) = expected_outcome w fuel.
Proof.
  pose proof (run_result w fuel) as R.
  unfold outcome, last_observation. rewrite run_observed.
  unfold expected_outcome, run_observations, announce_observations, setup_observations,
    stop_verdict, startup, announced in *.
  destruct (getcwd w); [|destruct R as (? & ? & ->); reflexivity].
  destruct (argsAlloc w); [|destruct R as (? & ? & ->); reflexivity].
  destruct (getEnvVarOwned w envVarName) as [dir|];
    [|destruct R as (? & ? & -> & _); reflexivity].
  destruct (path_join w [dir; "0"]) as [path|];
    [|destruct R as (? & ? & -> & _); reflexivity].
  unfold resolve_observations, resolved in *.
  destruct (is_windows (os_tag w)) eqn:W.
  - assert (exists p, match discovery w with
                      | Ok id => Some {| ppid := 0; win_ppid := id; parent_monitoring_active := true |}
                      | Err _ => Some {| ppid := 0; win_ppid := 0; parent_monitoring_active := false |}
                      end = Some p) as (p & Hp) by (destruct (discovery w); eauto).
    rewrite Hp in *.
    pose proof (loop_last_observation w path p (nanoTimestamp w 0) fuel 0) as L.
    destruct (first_stop w path p (nanoTimestamp w 0) fuel 0) as [j|].
    + destruct R as (c & ? & ? & -> & _ & _).
      destruct (L j eq_refl) as (L1 & NS & NE).
      destruct (tick_last_observation w path p (nanoTimestamp w 0) j NS) as (e & E1 & E2).
      rewrite last_event_app_r by (intros X; apply app_eq_nil in X; tauto).
      rewrite last_event_app_r by exact NE.
      rewrite L1, E1. exact E2.
    + destruct R as (? & ? & ->). reflexivity.
  - destruct (getppid w =? 1)%Z.
    + destruct R as (? & ? & -> & _). reflexivity.
    + set (p := {| ppid := getppid w; win_ppid := 0; parent_monitoring_active := true |}) in *.
      pose proof (loop_last_observation w path p (nanoTimestamp w 0) fuel 0) as L.
      destruct (first_stop w path p (nanoTimestamp w 0) fuel 0) as [j|].
      * destruct R as (c & ? & ? & -> & _ & _).
        destruct (L j eq_refl) as (L1 & NS & NE).
        destruct (tick_last_observation w path p (nanoTimestamp w 0) j NS) as (e & E1 & E2).
        rewrite last_event_app_r by (intros X; apply app_eq_nil in X; tauto).
        rewrite last_event_app_r by exact NE.
        rewrite L1, E1. exact E2.
      * destruct R as (? & ? & ->). reflexivity.
Qed.

(** ** Runs that end before the loop, runs that enter it *)

Lemma run_without_loop w fuel : startup w = None -> run w fuel = run w 0.
Proof.
  unfold startup, announced, run, main.
  pose proof (announce_result w init) as R.
  destruct (getcwd w) as [cwd|e].
  2:{ destruct R as (s' & evs & R). now rewrite !(bind_eq_Throw _ _ _ _ _ _ R). }
  destruct (argsAlloc w) as [args|e].
  2:{ destruct R as (s' & evs & R). now rewrite !(bind_eq_Throw _ _ _ _ _ _ R). }
  destruct (getEnvVarOwned w envVarName) as [dir|e].
  2:{ destruct R as (s' & evs & R & F). now rewrite !(bind_eq_Exited _ _ _ _ _ _ R). }
  destruct R as (s1 & evs1 & R & _). rewrite !(bind_eq_Ret _ _ _ _ _ _ R).
  rewrite !bind_observe_Ok.
  pose proof (signal_path_result w dir s1) as R2.
  destruct (path_join w [dir; "0"]) as [path|e].
  2:{ destruct R2 as (s' & evs & R2 & F). now rewrite !(bind_eq_Exited _ _ _ _ _ _ R2). }
  rewrite !(bind_eq_Ret _ _ _ _ _ _ R2).
  destruct (resolve_parent_spec w s1) as (R3 & _).
  destruct (resolved w) as [p|]; [discriminate|].
  destruct R3 as (s' & evs & R3 & F). now rewrite !(bind_eq_Exited _ _ _ _ _ _ R3).
Qed.

(** A run whose startup succeeds is a fixed prefix followed by the wait
    loop; at the start of the loop standard output is flushed and
    holds the whole identity block. *)
Lemma run_enters_loop w path p :
  startup w = Some (path, p) ->
  exists pre s0 dir,
    (forall fuel,
        run w fuel
        = prepend pre
            (wait_loop w path (ppid p) (win_ppid p) (parent_monitoring_active p)
               (nanoTimestamp w 0) fuel 0 s0))
    /\ getEnvVarOwned w envVarName = Ok dir
    /\ path_join w [dir; "0"] = Ok path
    /\ observations pre
       = (announce_observations w
          ++ EvClock (nanoTimestamp w 0) :: EvPathJoin [dir; "0"] (Ok path)
          :: resolve_observations w)%list
    /\ output Stdout pre = announce_output w
    /\ buf Stdout s0 = ""
    /\ output Stderr pre ++ buf Stderr s0 = resolve_diagnostics w.
Proof.
  unfold startup, announced, run, main.
  pose proof (announce_result w init) as R.
  pose proof (announce_effect w init) as E.
  unfold announce_diagnostics in E.
  destruct (getcwd w) as [cwd|e]; [|discriminate].
  destruct (argsAlloc w) as [args|e]; [|discriminate].
  destruct (getEnvVarOwned w envVarName) as [dir|e] eqn:Henv; [|discriminate].
  destruct R as (s1 & evs1 & R & B1).
  rewrite R in E. destruct E as (E1 & E2 & E3).
  unfold emitted in E2, E3.
  cbn [events final buf init append stdout_buffer stderr_buffer] in E2, E3.
  change (stdout_buffer s1) with (buf Stdout s1) in E2.
  change (stderr_buffer s1) with (buf Stderr s1) in E3.
  rewrite B1, append_empty_r in E2.
  apply append_eq_empty in E3. destruct E3 as (E3 & B1').
  pose proof (signal_path_result w dir s1) as R2.
  destruct (path_join w [dir; "0"]) as [path'|e] eqn:Hjoin; [|discriminate].
  destruct (resolve_parent_spec w s1) as (R3 & E4).
  destruct (resolved w) as [p'|]; [|discriminate].
  intros [= <- <-].
  destruct R3 as (s3 & evs3 & R3).
  rewrite R3 in E4. destruct E4 as (E5 & E6 & E7).
  unfold emitted in E6, E7. cbn [events final] in E6, E7.
  rewrite B1, append_empty_r in E6. apply append_eq_empty in E6. destruct E6 as (E6 & B3).
  rewrite B1' in E7. cbn [append] in E7.
  exists (evs1 ++ [EvClock (nanoTimestamp w 0)] ++ [EvPathJoin [dir; "0"] (Ok path')] ++ evs3)%list,
    s3, dir.
  split; [|split; [reflexivity|split; [exact Hjoin|split; [|split; [|split]]]]].
  - intros fuel.
    rewrite (bind_eq_Ret _ _ _ _ _ _ R), bind_observe_Ok, (bind_eq_Ret _ _ _ _ _ _ R2),
      (bind_eq_Ret _ _ _ _ _ _ R3).
    rewrite !prepend_prepend. f_equal. now rewrite <- !app_assoc.
  - cbn [events] in E1, E5. rewrite !observations_app, E1, E5. reflexivity.
  - rewrite !output_app, E2, E6. cbn [output append]. now rewrite append_empty_r.
  - exact B3.
  - rewrite !output_app, E3. cbn [output append]. exact E7.
Qed.

(** ** The timeout as backstop *)

Lemma first_stop_exists w path p start k : forall fuel k0,
  tick_verdict w path p start k <> VSleep ->
  (k0 <= k < k0 + fuel)%nat ->
  exists j, first_stop w path p start fuel k0 = Some j /\ (j <= k)%nat.
Proof.
  induction fuel as [|fuel IH]; intros k0 Hk Hr; [lia|].
  cbn [first_stop].
  destruct (tick_verdict w path p start k0) eqn:V; try (exists k0; split; [reflexivity | lia]).
  destruct (Nat.eq_dec k0 k) as [->|Hne]; [congruence|].
  apply IH; [exact Hk | lia].
Qed.

(** Once the clock of some iteration shows the budget used up, every
    run with fuel for that iteration has terminated. *)
Lemma run_terminates_by_timeout w k fuel :
  elapsed_ms w (nanoTimestamp w 0) k >= TOTAL_TIMEOUT_MS ->
  (k < fuel)%nat ->
  exists code, exit_status (run w fuel) = Some code.
Proof.
  intros T Hf. rewrite run_status. unfold expected_status, stop_verdict.
  destruct (startup w) as [[path p]|]; [|eauto].
  assert (V : tick_verdict w path p (nanoTimestamp w 0) k <> VSleep).
  { unfold tick_verdict.
    assert ((elapsed_ms w (nanoTimestamp w 0) k >=? TOTAL_TIMEOUT_MS)%Z = true) as ->
      by (rewrite Z.geb_leb; apply Z.leb_le; lia).
    discriminate. }
  destruct (first_stop_exists w path p (nanoTimestamp w 0) k fuel 0 V) as (j & E & _); [lia|].
  destruct (loop_last_observation w path p (nanoTimestamp w 0) fuel 0 j E) as (_ & NS & _).
  rewrite E.
  destruct (tick_verdict w path p (nanoTimestamp w 0) j); cbn [verdict_status]; eauto.
  contradiction.
Qed.

(** ** The iteration the loop stops in *)

Lemma first_stop_at w path p start k : forall fuel k0,
  (forall j, (k0 <= j < k)%nat -> tick_verdict w path p start j = VSleep) ->
  tick_verdict w path p start k <> VSleep ->
  (k0 <= k < k0 + fuel)%nat ->
  first_stop w path p start fuel k0 = Some k.
Proof.
  induction fuel as [|fuel IH]; intros k0 Hs Hk Hr; [lia|].
  cbn [first_stop].
  destruct (Nat.eq_dec k0 k) as [->|Hne].
  - destruct (tick_verdict w path p start k); congruence.
  - rewrite (Hs k0) by lia. apply IH; auto; [|lia].
    intros j Hj. apply Hs. lia.
Qed.

Lemma first_stop_spec w path p start : forall fuel k0 j,
  first_stop w path p start fuel k0 = Some j ->
  (k0 <= j < k0 + fuel)%nat
  /\ (forall i, (k0 <= i < j)%nat -> tick_verdict w path p start i = VSleep)
  /\ tick_verdict w path p start j <> VSleep.
Proof.
  induction fuel as [|fuel IH]; intros k0 j; [discriminate|].
  cbn [first_stop].
  destruct (tick_verdict w path p start k0) eqn:V.
  1-3: intros [= <-]; repeat split; try lia; try congruence; intros i Hi; lia.
  intros H. destruct (IH _ _ H) as (R & Sl & N).
  repeat split; try lia; auto.
  intros i Hi. destruct (Nat.eq_dec i k0) as [->|Hne]; [exact V|]. apply Sl. lia.
Qed.

Lemma quiet_resolution w p :
  resolved w = Some p -> parent_monitoring_active p = true -> resolve_diagnostics w = "".
Proof.
  unfold resolved, resolve_diagnostics, discovery, discovery_diagnostics.
  destruct (is_windows (os_tag w)).
  - destruct (CreateToolhelp32Snapshot w) as [[|pe rest]|];
      try (intros [= <-]; discriminate).
    destruct (own_entry w (pe :: rest)) as [e|].
    + destruct (th32ParentProcessID e =? 0)%Z; [intros [= <-]; discriminate | reflexivity].
    + destruct (snapshot_last_error w =? ERROR_NO_MORE_FILES)%Z; intros [= <-]; discriminate.
  - destruct (getppid w =? 1)%Z; [discriminate | reflexivity].
Qed.

(** ** Verdicts and the answers of the system *)

Lemma tick_verdict_cases w path p start k :
  match tick_verdict w path p start k with
  | VTimeout => elapsed_ms w start k >= TOTAL_TIMEOUT_MS
  | VParentGone => elapsed_ms w start k < TOTAL_TIMEOUT_MS /\ parent_gone w p k = true
  | VCompleted =>
      elapsed_ms w start k < TOTAL_TIMEOUT_MS /\ parent_gone w p k = false
      /\ accessAbsolute w k path = Ok tt
  | VSleep =>
      elapsed_ms w start k < TOTAL_TIMEOUT_MS /\ parent_gone w p k = false
      /\ exists e, accessAbsolute w k path = Err e
  end.
Proof.
  unfold tick_verdict, signal_present.
  destruct (elapsed_ms w start k >=? TOTAL_TIMEOUT_MS)%Z eqn:E.
  - rewrite Z.geb_leb in E. apply Z.leb_le in E. lia.
  - rewrite Z.geb_leb in E. apply Z.leb_gt in E.
    destruct (parent_gone w p k); [auto|].
    destruct (accessAbsolute w k path) as [[]|e]; eauto.
Qed.

Lemma verdict_of_answers w path p start k :
  elapsed_ms w start k < TOTAL_TIMEOUT_MS ->
  parent_gone w p k = false ->
  tick_verdict w path p start k
  = match accessAbsolute w k path with Ok _ => VCompleted | Err _ => VSleep end.
Proof.
  intros T G. unfold tick_verdict, signal_present.
  assert ((elapsed_ms w start k >=? TOTAL_TIMEOUT_MS)%Z = false) as ->
    by (rewrite Z.geb_leb; now apply Z.leb_gt).
  rewrite G. now destruct (accessAbsolute w k path).
Qed.

Lemma reaches_loop_startup w path p :
  reaches_loop w path p <-> startup w = Some (path, p).
Proof.
  unfold reaches_loop, startup, announced. split.
  - intros (cwd & args & dir & -> & -> & -> & -> & ->). reflexivity.
  - destruct (getcwd w) as [cwd|]; [|discriminate].
    destruct (argsAlloc w) as [args|]; [|discriminate].
    destruct (getEnvVarOwned w envVarName) as [dir|]; [|discriminate].
    destruct (path_join w [dir; "0"]) as [path'|] eqn:J; [|discriminate].
    destruct (resolved w) as [p'|]; [|discriminate].
    intros [= -> ->]. exists cwd, args, dir. rewrite J. auto.
Qed.

Lemma resolved_none w : resolved w = None -> is_windows (os_tag w) = false /\ getppid w = 1.
Proof.
  unfold resolved. destruct (is_windows (os_tag w)).
  - destruct (discovery w); discriminate.
  - destruct (getppid w =? 1)%Z eqn:P; [|discriminate].
    apply Z.eqb_eq in P. auto.
Qed.

Lemma sleeping_iterations w path p k :
  (forall j, (j < k)%nat -> tick_verdict w path p (nanoTimestamp w 0) j = VSleep)
  <-> iterations_sleep w path p k.
Proof.
  unfold iterations_sleep. split; intros H j Hj.
  - pose proof (tick_verdict_cases w path p (nanoTimestamp w 0) j) as C.
    now rewrite (H j Hj) in C.
  - destruct (H j Hj) as (T & G & e & A).
    rewrite (verdict_of_answers w path p _ j T G). now rewrite A.
Qed.

(** A loop that has stopped did so for what the system answered in the
    iteration it stopped in, after iterations that all slept. *)
Lemma stop_cause w path p fuel j :
  startup w = Some (path, p) ->
  first_stop w path p (nanoTimestamp w 0) fuel 0 = Some j ->
  match tick_verdict w path p (nanoTimestamp w 0) j with
  | VTimeout => outcome_cause w fuel Timeout
  | VParentGone => outcome_cause w fuel ParentGone
  | VCompleted => outcome_cause w fuel Completed
  | VSleep => False
  end.
Proof.
  intros S0 F.
  destruct (first_stop_spec w path p _ fuel 0 j F) as (R & Sl & N).
  assert (I : iterations_sleep w path p j).
  { apply sleeping_iterations. intros i Hi. apply Sl. lia. }
  apply reaches_loop_startup in S0.
  pose proof (tick_verdict_cases w path p (nanoTimestamp w 0) j) as C.
  destruct (tick_verdict w path p (nanoTimestamp w 0) j); cbn [outcome_cause].
  - exists path, p, j.
    split; [exact S0|]. split; [lia|]. split; [exact I|]. exact C.
  - right. exists path, p, j. destruct C as (T & G).
    split; [exact S0|]. split; [lia|]. split; [exact I|]. split; assumption.
  - exists path, p, j. destruct C as (T & G & A).
    split; [exact S0|]. split; [lia|]. split; [exact I|]. repeat split; assumption.
  - congruence.
Qed.

Lemma completed_cause_status w fuel :
  outcome_cause w fuel Completed -> exit_status (run w fuel) = Some 0.
Proof.
  intros (path & p & k & L & Hk & I & T & G & A).
  apply reaches_loop_startup in L.
  assert (V : tick_verdict w path p (nanoTimestamp w 0) k = VCompleted).
  { rewrite (verdict_of_answers w path p _ k T G). now rewrite A. }
  assert (F : first_stop w path p (nanoTimestamp w 0) fuel 0 = Some k).
  { apply first_stop_at; [|congruence|lia].
    intros j Hj. apply (proj2 (sleeping_iterations w path p k) I). lia. }
  rewrite run_status. unfold expected_status, stop_verdict. now rewrite L, F, V.
Qed.

(** * The claims of the specification *)

Lemma completed_tick_access w path p start k :
  tick_verdict w path p start k = VCompleted ->
  last_event (tick_observations w path p start k) = Some (EvAccess path (Ok tt)).
Proof.
  intros V. unfold tick_observations. rewrite V.
  assert (accessAbsolute w k path = Ok tt) as ->.
  { unfold tick_verdict, signal_present in V.
    destruct (elapsed_ms w start k >=? TOTAL_TIMEOUT_MS)%Z; [discriminate|].
    destruct (parent_gone w p k); [discriminate|].
    destruct (accessAbsolute w k path) as [[]|]; [reflexivity | discriminate]. }
  change (EvClock (nanoTimestamp w (S k)) :: probe_observations w p k ++ [EvAccess path (Ok tt)])%list
    with ((EvClock (nanoTimestamp w (S k)) :: probe_observations w p k) ++ [EvAccess path (Ok tt)])%list.
  apply last_event_app.
Qed.

(** C1.  A run that terminates has one of the four outcomes, and its
    exit status is 0 exactly when that outcome is [Completed]; every
    other outcome exits with status 1.  The outcome is the one the
    answers of the system call for: [Completed] only when, after
    iterations whose access all failed within the budget and with the
    parent there, the access to the path joined from the signal
    directory and "0" succeeded, and status 0 exactly in that case;
    [Timeout] only when the clock showed the budget used up;
    [ParentGone] only when the parent id was 1 at startup or a probe
    found the parent gone; [SetupError] only when a startup call
    failed. *)
Theorem exit_status_zero_iff_completed (w : World) (fuel : nat) (code : Z) :
  exit_status (run w fuel) = Some code ->
  exists o,
    outcome (run w fuel) = Some o
    /\ (code = 0 <-> o = Completed)
    /\ (o <> Completed -> code = 1)
    /\ outcome_cause w fuel o
    /\ (code = 0 <-> outcome_cause w fuel Completed)
    /\ (o = Completed ->
        exists dir path,
          getEnvVarOwned w envVarName = Ok dir
          /\ path_join w [dir; "0"] = Ok path
          /\ last_observation (events (run w fuel)) = Some (EvAccess path (Ok tt))).
Proof.
  intros St.
  assert (Conv : outcome_cause w fuel Completed -> code = 0).
  { intros Cz. apply completed_cause_status in Cz. congruence. }
  revert St.
  rewrite run_status, run_outcome.
  unfold last_observation. rewrite run_observed.
  unfold expected_status, expected_outcome, run_observations.
  pose proof (stop_cause w) as SC. pose proof (@resolved_none w) as RN.
  unfold startup in *. unfold announced in *.
  destruct (getcwd w) as [cwd|e0] eqn:Hcwd.
  2:{ intros [= <-]. exists SetupError.
      split; [reflexivity|]. split; [split; discriminate|]. split; [reflexivity|].
      split; [left; eauto|]. split; [split; [discriminate | exact Conv]|]. discriminate. }
  destruct (argsAlloc w) as [args|e0] eqn:Hargs.
  2:{ intros [= <-]. exists SetupError.
      split; [reflexivity|]. split; [split; discriminate|]. split; [reflexivity|].
      split; [right; left; eauto|]. split; [split; [discriminate | exact Conv]|]. discriminate. }
  destruct (getEnvVarOwned w envVarName) as [dir|e0] eqn:Henv.
  2:{ intros [= <-]. exists SetupError.
      split; [reflexivity|]. split; [split; discriminate|]. split; [reflexivity|].
      split; [right; right; left; eauto 6|].
      split; [split; [discriminate | exact Conv]|]. discriminate. }
  unfold setup_observations.
  destruct (path_join w [dir; "0"]) as [path|e0] eqn:Hjoin.
  2:{ intros [= <-]. exists SetupError.
      split; [reflexivity|]. split; [split; discriminate|]. split; [reflexivity|].
      split; [right; right; right; eauto 8|].
      split; [split; [discriminate | exact Conv]|]. discriminate. }
  destruct (resolved w) as [p|] eqn:Hres.
  2:{ intros [= <-]. exists ParentGone. destruct (RN eq_refl) as (W & P).
      split; [reflexivity|]. split; [split; discriminate|]. split; [reflexivity|].
      split; [left; exists cwd, args, dir, path; auto 8|].
      split; [split; [discriminate | exact Conv]|]. discriminate. }
  unfold stop_verdict.
  pose proof (loop_last_observation w path p (nanoTimestamp w 0) fuel 0) as L.
  specialize (SC path p fuel).
  destruct (first_stop w path p (nanoTimestamp w 0) fuel 0) as [j|]; [|discriminate].
  destruct (L j eq_refl) as (L1 & NS & NE). clear L.
  specialize (SC j eq_refl eq_refl).
  destruct (tick_verdict w path p (nanoTimestamp w 0) j) eqn:V;
    cbn [verdict_status verdict_outcome]; try congruence; intros [= <-].
  - exists Timeout.
    split; [reflexivity|]. split; [split; discriminate|]. split; [reflexivity|].
    split; [exact SC|]. split; [split; [discriminate | exact Conv]|]. discriminate.
  - exists ParentGone.
    split; [reflexivity|]. split; [split; discriminate|]. split; [reflexivity|].
    split; [exact SC|]. split; [split; [discriminate | exact Conv]|]. discriminate.
  - exists Completed.
    split; [reflexivity|]. split; [split; reflexivity|]. split; [congruence|].
    split; [exact SC|]. split; [split; [intros _; exact SC | reflexivity]|].
    intros _. exists dir, path. split; [reflexivity|split; [exact Hjoin|]].
    rewrite last_event_app_r by (intros X; apply app_eq_nil in X; tauto).
    rewrite last_event_app_r by exact NE.
    rewrite L1. now apply completed_tick_access.
Qed.

Lemma exit_status_zero_iff_completed_witness :
  exit_status (run scenario_world 10) = Some 0
  /\ outcome_cause scenario_world 10 Completed.
Proof.
  split; [reflexivity|].
  destruct (exit_status_zero_iff_completed scenario_world 10 0 eq_refl)
    as (o & _ & _ & _ & _ & H & _).
  exact (proj1 H eq_refl).
Defined.

Lemma tick_exit_code w path p start k s :
  exit_code (tick w path (ppid p) (win_ppid p) (parent_monitoring_active p) start k s)
  = verdict_status (tick_verdict w path p start k).
Proof.
  pose proof (tick_result w path p start k s) as R.
  destruct (tick_verdict w path p start k).
  1-3: destruct R as (c & s' & evs & -> & V & _); now rewrite V.
  destruct R as (s' & evs & ->). reflexivity.
Qed.

Lemma tick_continues w path p start k s :
  tick_verdict w path p start k = VSleep ->
  exists s' evs,
    tick w path (ppid p) (win_ppid p) (parent_monitoring_active p) start k s = Ret tt s' evs
    /\ forall fuel,
        wait_loop w path (ppid p) (win_ppid p) (parent_monitoring_active p) start (S fuel) k s
        = prepend evs
            (wait_loop w path (ppid p) (win_ppid p) (parent_monitoring_active p)
               start fuel (S k) s').
Proof.
  intros V. pose proof (tick_result w path p start k s) as R. rewrite V in R.
  destruct R as (s' & evs & R). exists s', evs. split; [exact R|].
  intros fuel. cbn [wait_loop]. now rewrite (bind_eq_Ret _ _ _ _ _ _ R).
Qed.

(** C4.  One pass of the wait loop makes its checks in the order of
    [tick_verdict]: the elapsed time against the 5000 ms budget, then
    the liveness probe (only when monitoring is enabled), then the
    signal file.  Its system calls are exactly [tick_observations]: the
    clock; the probe when the budget is left; the access when the
    parent is not gone; one sleep of 50 ms when nothing fired, after
    which the loop goes into its next iteration.  A pass that stops
    exits with the status of its verdict. *)
Theorem tick_checks_in_order (w : World) (path : string) (p : Parent)
    (start : Z) (k : nat) (s : State) :
  let r := tick w path (ppid p) (win_ppid p) (parent_monitoring_active p) start k s in
  TOTAL_TIMEOUT_MS = 5000
  /\ POLLING_INTERVAL_MS * ns_per_ms = 50 * 1000000
  /\ observations (events r) = tick_observations w path p start k
  /\ exit_code r = verdict_status (tick_verdict w path p start k)
  /\ match tick_verdict w path p start k with
     | VSleep =>
         exists s' evs,
           r = Ret tt s' evs
           /\ forall fuel,
               wait_loop w path (ppid p) (win_ppid p) (parent_monitoring_active p)
                 start (S fuel) k s
               = prepend evs
                   (wait_loop w path (ppid p) (win_ppid p) (parent_monitoring_active p)
                      start fuel (S k) s')
     | _ => exists c s' evs, r = Exited c s' evs
     end.
Proof.
  intros r. split; [reflexivity|]. split; [reflexivity|].
  split; [apply tick_effect|]. split; [apply tick_exit_code|].
  pose proof (tick_result w path p start k s) as R.
  destruct (tick_verdict w path p start k) eqn:V.
  1-3: destruct R as (c & s' & evs & R & _); eauto.
  now apply tick_continues.
Qed.

Lemma within_budget w start k :
  elapsed_ms w start k < TOTAL_TIMEOUT_MS ->
  (elapsed_ms w start k >=? TOTAL_TIMEOUT_MS)%Z = false.
Proof. intros H. rewrite Z.geb_leb. now apply Z.leb_gt. Qed.

(** The probe logs nothing unless it finds the parent gone. *)
Lemma quiet_probe w p k : parent_gone w p k = false -> probe_diagnostics w p k = "".
Proof.
  unfold parent_gone, probe_diagnostics, parent_alive_windows.
  destruct (parent_monitoring_active p); cbn [andb]; [|reflexivity].
  destruct (is_windows (os_tag w)); cbn [andb]; [|reflexivity].
  destruct (OpenProcess w k (win_ppid p)); cbn [andb negb]; [|discriminate].
  destruct (WaitForSingleObject w k (win_ppid p) =? WAIT_TIMEOUT)%Z; cbn [negb andb].
  - now rewrite andb_false_r.
  - discriminate.
Qed.






(** C10.  On Windows, with monitoring enabled, an iteration whose
    parent handle opens but whose non-blocking wait returns neither
    "signaled" nor "timeout" logs the failure, reports the parent as
    gone and exits with status 1, without looking at the signal file. *)
Theorem windows_wait_failure_is_fatal (w : World) (path : string) (p : Parent)
    (start : Z) (k : nat) (s : State) :
  is_windows (os_tag w) = true ->
  parent_monitoring_active p = true ->
  elapsed_ms w start k < TOTAL_TIMEOUT_MS ->
  OpenProcess w k (win_ppid p) = true ->
  WaitForSingleObject w k (win_ppid p) <> WAIT_OBJECT_0 ->
  WaitForSingleObject w k (win_ppid p) <> WAIT_TIMEOUT ->
  let r := tick w path (ppid p) (win_ppid p) (parent_monitoring_active p) start k s in
  exit_code r = Some 1
  /\ tick_verdict w path p start k = VParentGone
  /\ emitted Stderr r
     = buf Stderr s ++ wait_failed_line w k
       ++ "Parent process (PID: " ++ fmt_int (win_ppid p)
       ++ ") no longer exists (Windows). Exiting." ++ nl
  /\ observations (events r)
     = [EvClock (nanoTimestamp w (S k));
        EvOpenProcess (win_ppid p) true;
        EvWaitForSingleObject (win_ppid p) (WaitForSingleObject w k (win_ppid p));
        EvCloseHandle].
Proof.
  intros W A T O N0 N1 r.
  pose proof (tick_effect w path p start k s) as (Ob & _ & D).
  pose proof (tick_exit_code w path p start k s) as X.
  fold r in Ob, D, X. rewrite Ob, D, X.
  apply Z.eqb_neq in N0, N1.
  assert (V : tick_verdict w path p start k = VParentGone).
  { unfold tick_verdict, parent_gone, parent_alive_windows.
    now rewrite within_budget, A, W, O, N1. }
  unfold tick_observations, tick_diagnostics, probe_observations, probe_diagnostics,
    parent_gone_line.
  rewrite V, A, W, O, N0, N1. cbn [andb negb].
  repeat split.
Qed.

Lemma windows_wait_failure_is_fatal_witness :
  exit_code (tick windows_world "C:\sig42\0" 0 977 true 1000000000 0 init) = Some 1
  /\ emitted Stderr (tick windows_world "C:\sig42\0" 0 977 true 1000000000 0 init)
     = "WaitForSingleObject failed: 6" ++ nl
       ++ "Parent process (PID: 977) no longer exists (Windows). Exiting." ++ nl.
Proof.
  pose proof (windows_wait_failure_is_fatal windows_world "C:\sig42\0" windows_parent
                1000000000 0 init eq_refl eq_refl eq_refl eq_refl) as H.
  assert (N0 : WaitForSingleObject windows_world 0 (win_ppid windows_parent) <> WAIT_OBJECT_0)
    by discriminate.
  assert (N1 : WaitForSingleObject windows_world 0 (win_ppid windows_parent) <> WAIT_TIMEOUT)
    by discriminate.
  destruct (H N0 N1) as (H1 & _ & H3 & _).
  split; [exact H1 | exact H3].
Defined.

(** The POSIX probe of an iteration, by the error it fails with.  On
    POSIX, with monitoring enabled, an iteration probes the recorded
    parent id with signal 0.  When the probe fails with the error
    named [NoSuchProcess], the iteration logs that the parent is gone
    and exits with status 1.  On any other probe error nothing is
    printed for the probe: the iteration goes on to the signal check,
    and the only line it may add to the diagnostic stream is that of
    the signal check. *)
Lemma posix_probe_errors (w : World) (path : string) (p : Parent)
    (start : Z) (k : nat) (s : State) (e : zig_error) :
  is_windows (os_tag w) = false ->
  parent_monitoring_active p = true ->
  elapsed_ms w start k < TOTAL_TIMEOUT_MS ->
  kill w k (ppid p) 0 = Err e ->
  let r := tick w path (ppid p) (win_ppid p) (parent_monitoring_active p) start k s in
  if String.eqb e "NoSuchProcess" then
    exit_code r = Some 1
    /\ tick_verdict w path p start k = VParentGone
    /\ observations (events r)
       = [EvClock (nanoTimestamp w (S k)); EvKill (ppid p) 0 (Err e)]
    /\ emitted Stderr r
       = buf Stderr s ++ "Parent process (PID: " ++ fmt_int (ppid p)
         ++ ") no longer exists (POSIX). Exiting." ++ nl
  else
    tick_verdict w path p start k
    = (if signal_present w path k then VCompleted else VSleep)
    /\ exit_code r = (if signal_present w path k then Some 0 else None)
    /\ observations (events r)
       = (EvClock (nanoTimestamp w (S k)) :: EvKill (ppid p) 0 (Err e)
          :: EvAccess path (accessAbsolute w k path)
          :: (if signal_present w path k then []
              else [EvSleep (POLLING_INTERVAL_MS * ns_per_ms)]))%list
    /\ emitted Stderr r = buf Stderr s ++ access_diagnostics w path k.
Proof.
  intros W A T K r.
  pose proof (tick_effect w path p start k s) as (Ob & _ & D).
  pose proof (tick_exit_code w path p start k s) as X.
  fold r in Ob, D, X. rewrite Ob, D, X.
  unfold tick_observations, tick_diagnostics, probe_observations, probe_diagnostics,
    parent_gone_line, tick_verdict, parent_gone.
  rewrite within_budget by exact T. rewrite A, W, K. cbn [andb].
  destruct (String.eqb e "NoSuchProcess").
  - repeat split.
  - unfold signal_present, access_diagnostics.
    destruct (accessAbsolute w k path) as [[]|e']; repeat split.
Qed.

Lemma vanished_parent_verdicts k :
  tick_verdict vanished_parent_world "/tmp/sig42/0" scenario_parent 1000000000 k = VTimeout
  \/ tick_verdict vanished_parent_world "/tmp/sig42/0" scenario_parent 1000000000 k = VSleep.
Proof.
  pose proof (tick_verdict_cases vanished_parent_world "/tmp/sig42/0" scenario_parent
                1000000000 k) as C.
  destruct (tick_verdict vanished_parent_world "/tmp/sig42/0" scenario_parent 1000000000 k);
    auto.
  - destruct C as (_ & G). discriminate G.
  - destruct C as (_ & _ & A). discriminate A.
Qed.

(** C6.  The code at two probe errors, each in the scenario of the test
    suite.  A parent the process may not signal, every probe answering
    [error.PermissionDenied]: the first iteration sleeps and leaves the
    diagnostic stream empty; the run probes four times, completes with
    status 0 and has written nothing to the diagnostic stream, so no
    probe error was logged.  A parent that has exited, every probe
    answering [error.ProcessNotFound] and the signal file never there:
    the first iteration sleeps and logs nothing; whatever the fuel, a
    run that ends does so as [Timeout], never as [ParentGone]: after
    99 failed probes the run is still waiting, and the hundredth
    iteration ends it by the timeout with status 1, the timeout line
    being all the diagnostic stream received. *)
Theorem probe_errors_go_unreported :
  tick_verdict denied_probe_world "/tmp/sig42/0" scenario_parent 1000000000 0 = VSleep
  /\ emitted Stderr (tick denied_probe_world "/tmp/sig42/0" 977 0 true 1000000000 0 init) = ""
  /\ probes (events (run denied_probe_world 10))
     = repeat (977, 0, Err "PermissionDenied") 4
  /\ emitted Stderr (run denied_probe_world 10) = ""
  /\ exit_status (run denied_probe_world 10) = Some 0
  /\ tick_verdict vanished_parent_world "/tmp/sig42/0" scenario_parent 1000000000 0 = VSleep
  /\ emitted Stderr (tick vanished_parent_world "/tmp/sig42/0" 977 0 true 1000000000 0 init) = ""
  /\ (forall fuel,
        outcome (run vanished_parent_world fuel) = None
        \/ outcome (run vanished_parent_world fuel) = Some Timeout)
  /\ probes (events (run vanished_parent_world 99))
     = repeat (977, 0, Err "ProcessNotFound") 99
  /\ exit_status (run vanished_parent_world 99) = None
  /\ probes (events (run vanished_parent_world 100))
     = repeat (977, 0, Err "ProcessNotFound") 99
  /\ exit_status (run vanished_parent_world 100) = Some 1
  /\ outcome (run vanished_parent_world 100) = Some Timeout
  /\ emitted Stderr (run vanished_parent_world 100)
     = "Error: Timeout (5000ms) reached in fakeeditor. Exiting." ++ nl.
Proof.
  pose proof (posix_probe_errors denied_probe_world "/tmp/sig42/0" scenario_parent
                1000000000 0 init "PermissionDenied" eq_refl eq_refl eq_refl eq_refl)
    as (D1 & _ & _ & D4).
  pose proof (posix_probe_errors vanished_parent_world "/tmp/sig42/0" scenario_parent
                1000000000 0 init "ProcessNotFound" eq_refl eq_refl eq_refl eq_refl)
    as (V1 & _ & _ & V4).
  split; [exact D1|]. split; [exact D4|].
  split; [vm_compute; reflexivity|]. split; [vm_compute; reflexivity|].
  split; [vm_compute; reflexivity|].
  split; [exact V1|]. split; [exact V4|].
  split.
  { intros fuel. rewrite run_outcome. unfold expected_outcome, stop_verdict.
    change (announced vanished_parent_world) with (Some "/tmp/sig42"). cbv iota beta.
    change (path_join vanished_parent_world ["/tmp/sig42"; "0"])
      with (@Ok string "/tmp/sig42/0").
    cbv iota beta.
    change (resolved vanished_parent_world) with (Some scenario_parent). cbv iota beta.
    change (nanoTimestamp vanished_parent_world 0) with 1000000000.
    destruct (first_stop vanished_parent_world "/tmp/sig42/0" scenario_parent 1000000000 fuel 0)
      as [j|] eqn:F; [|left; reflexivity].
    destruct (first_stop_spec _ _ _ _ _ _ _ F) as (_ & _ & N).
    destruct (vanished_parent_verdicts j) as [T|T]; [|contradiction].
    rewrite T. right. reflexivity. }
  repeat split; vm_compute; reflexivity.
Qed.

(** C7.  On POSIX, when the parent id read at startup is 1, the run
    logs that it was reparented and exits with status 1 as
    [ParentGone]; the parent id query is its last system call, so the
    wait loop is never entered, whatever fuel the loop is given. *)
Theorem reparented_at_startup (w : World) (fuel : nat)
    (cwd : string) (args : list string) (dir path : string) :
  is_windows (os_tag w) = false ->
  getppid w = 1 ->
  getcwd w = Ok cwd ->
  argsAlloc w = Ok args ->
  getEnvVarOwned w envVarName = Ok dir ->
  path_join w [dir; "0"] = Ok path ->
  exit_status (run w fuel) = Some 1
  /\ outcome (run w fuel) = Some ParentGone
  /\ run w fuel = run w 0
  /\ observations (events (run w fuel))
     = [EvGetPid (getpid w); EvGetCwd (Ok cwd); EvArgsAlloc (Ok args);
        EvGetEnv envVarName (Ok dir); EvClock (nanoTimestamp w 0);
        EvPathJoin [dir; "0"] (Ok path); EvGetPpid 1]
  /\ emitted Stderr (run w fuel) = reparented_line
  /\ flushed (final (run w fuel)).
Proof.
  intros W P C A E J.
  assert (R : resolved w = None) by (unfold resolved; now rewrite W, P).
  assert (S0 : startup w = None).
  { unfold startup, announced. now rewrite C, A, E, J, R. }
  split; [|split; [|split; [|split; [|split]]]].
  - rewrite run_status. unfold expected_status. now rewrite S0.
  - rewrite run_outcome. unfold expected_outcome, announced. now rewrite C, A, E, J, R.
  - now apply run_without_loop.
  - rewrite run_observed.
    unfold run_observations, announce_observations, setup_observations, announced,
      resolve_observations.
    now rewrite S0, C, A, E, J, W, P.
  - destruct (run_effect w fuel) as (_ & _ & D). rewrite D.
    unfold run_diagnostics, announce_diagnostics, setup_diagnostics, announced,
      resolve_diagnostics.
    rewrite S0, C, A, E, J, W, P. cbn [Z.eqb Pos.eqb buf init stderr_buffer append].
    now rewrite append_empty_r.
  - pose proof (run_result w fuel) as X. rewrite C, A, S0 in X.
    destruct X as (s' & evs & -> & F). exact F.
Qed.

Lemma reparented_at_startup_witness :
  exit_status (run orphan_world 7) = Some 1
  /\ outcome (run orphan_world 7) = Some ParentGone
  /\ run orphan_world 7 = run orphan_world 0.
Proof.
  pose proof (reparented_at_startup orphan_world 7 "/repo"
                ["/bin/fakeeditor"; "--edit"; "msg.txt"] "/tmp/sig42" "/tmp/sig42/0"
                eq_refl eq_refl eq_refl eq_refl eq_refl eq_refl) as (H1 & H2 & H3 & _).
  split; [exact H1 | split; [exact H2 | exact H3]].
Defined.

Lemma loop_observations_in w path p start fuel e : forall k,
  In e (loop_observations w path p start fuel k) ->
  exists j, In e (tick_observations w path p start j).
Proof.
  induction fuel as [|fuel IH]; intros k; cbn [loop_observations]; [intros []|].
  rewrite in_app_iff. intros [H|H]; [eauto|].
  destruct (tick_verdict w path p start k); try contradiction. eauto.
Qed.

(** C8.  On Windows, parent discovery fails when the snapshot cannot be
    taken, when the snapshot has no entry for this process, and when
    that entry names parent 0.  Whenever it fails, the failure and a
    warning are logged, the run goes on into the wait loop with
    monitoring disabled, no iteration opens or waits on a parent
    handle, and only the timeout and the signal file end the run. *)
Theorem windows_discovery_failure_disables_monitoring (w : World) :
  ((CreateToolhelp32Snapshot w = None -> discovery w = Err "SnapshotFailed")
   /\ (forall entries,
          CreateToolhelp32Snapshot w = Some entries ->
          own_entry w entries = None ->
          exists e, discovery w = Err e)
   /\ (forall entries pe,
          CreateToolhelp32Snapshot w = Some entries ->
          own_entry w entries = Some pe ->
          th32ParentProcessID pe = 0 ->
          discovery w = Err "ParentIsSystemIdleProcess"))
  /\ (forall e cwd args dir path,
         is_windows (os_tag w) = true ->
         getcwd w = Ok cwd ->
         argsAlloc w = Ok args ->
         getEnvVarOwned w envVarName = Ok dir ->
         path_join w [dir; "0"] = Ok path ->
         discovery w = Err e ->
         (forall s, exists s' evs, getParentPidWindows w s = Throw e s' evs)
         /\ (exists pre s0,
                (forall fuel,
                    run w fuel
                    = prepend pre
                        (wait_loop w path 0 0 false (nanoTimestamp w 0) fuel 0 s0))
                /\ output Stderr pre ++ buf Stderr s0
                   = discovery_diagnostics w ++ monitoring_disabled_line e)
         /\ (forall k, parent_gone w monitoring_disabled k = false)
         /\ (forall fuel pid opened status,
                ~ In (EvOpenProcess pid opened) (events (run w fuel))
                /\ ~ In (EvWaitForSingleObject pid status) (events (run w fuel)))
         /\ (forall fuel,
                exit_status (run w fuel)
                = match stop_verdict w path monitoring_disabled fuel with
                  | None => None
                  | Some v => verdict_status v
                  end)).
Proof.
  split.
  - unfold discovery. repeat split.
    + now intros ->.
    + intros entries -> O. destruct entries as [|pe rest]; [eauto|].
      rewrite O. destruct (snapshot_last_error w =? ERROR_NO_MORE_FILES)%Z; eauto.
    + intros entries pe -> O P. destruct entries as [|pe0 rest]; [discriminate|].
      rewrite O, P. reflexivity.
  - intros e cwd args dir path W C A E J D.
    assert (R : resolved w = Some monitoring_disabled).
    { unfold resolved. now rewrite W, D. }
    assert (S0 : startup w = Some (path, monitoring_disabled)).
    { unfold startup, announced. now rewrite C, A, E, J, R. }
    split; [|split; [|split; [|split]]].
    + intros s. destruct (getParentPidWindows_spec w s) as (s' & evs & H & _).
      rewrite D in H. eauto.
    + destruct (run_enters_loop w path monitoring_disabled S0)
        as (pre & s0 & dir' & H & _ & _ & _ & _ & _ & Herr).
      exists pre, s0. split; [exact H|].
      rewrite Herr. unfold resolve_diagnostics. now rewrite W, D.
    + reflexivity.
    + intros fuel pid opened status.
      assert (N : forall ev,
                 is_write ev = false ->
                 In ev (events (run w fuel)) ->
                 In ev (run_observations w fuel)).
      { intros ev Hw Hin. rewrite <- run_observed. apply filter_In. now rewrite Hw. }
      assert (T : forall ev j,
                 In ev (tick_observations w path monitoring_disabled (nanoTimestamp w 0) j) ->
                 match ev with
                 | EvOpenProcess _ _ | EvWaitForSingleObject _ _ => False
                 | _ => True
                 end).
      { intros ev j. unfold tick_observations, probe_observations. cbn [monitoring_disabled
          parent_monitoring_active app].
        destruct (tick_verdict w path monitoring_disabled (nanoTimestamp w 0) j);
          simpl; intuition (subst; exact I). }
      assert (B : forall ev,
                 In ev (run_observations w fuel) ->
                 match ev with
                 | EvOpenProcess _ _ | EvWaitForSingleObject _ _ => False
                 | _ => True
                 end).
      { intros ev. unfold run_observations, announce_observations, setup_observations,
          resolve_observations, discovery_observations, announced.
        rewrite S0, C, A, E, J, W. rewrite !in_app_iff.
        intros [H|[H|H]].
        - simpl in H. intuition (subst; exact I).
        - destruct (CreateToolhelp32Snapshot w); simpl in H; intuition (subst; exact I).
        - apply loop_observations_in in H. destruct H as (j & H). exact (T ev j H). }
      split; intros H; apply N in H; try reflexivity; apply B in H; exact H.
    + intros fuel. rewrite run_status. unfold expected_status. now rewrite S0.
Qed.

Lemma windows_discovery_failure_disables_monitoring_witness :
  discovery windows_blind_world = Err "SnapshotFailed"
  /\ forall fuel,
      exit_status (run windows_blind_world fuel)
      = match stop_verdict windows_blind_world "C:\sig42\0" monitoring_disabled fuel with
        | None => None
        | Some v => verdict_status v
        end.
Proof.
  split; [reflexivity|].
  pose proof (proj2 (windows_discovery_failure_disables_monitoring windows_blind_world)
                "SnapshotFailed" "C:\repo" ["fakeeditor.exe"; "--edit"; "msg.txt"]
                "C:\sig42" "C:\sig42\0" eq_refl eq_refl eq_refl eq_refl eq_refl eq_refl)
    as (_ & _ & _ & _ & H).
  exact H.
Defined.

(** ** The identity block and the rest of the run *)

Lemma append_cancel_l (a x y : string) : a ++ x = a ++ y -> x = y.
Proof. induction a as [|c a IH]; simpl; [auto|]. intros [= H]. auto. Qed.

Lemma append_eq_self (a x : string) : a ++ x = a -> x = "".
Proof. intros H. apply (append_cancel_l a). now rewrite append_empty_r. Qed.

Lemma announce_output_block w cwd args dir :
  getcwd w = Ok cwd ->
  argsAlloc w = Ok args ->
  getEnvVarOwned w envVarName = Ok dir ->
  announce_output w = identity_block (getpid w) cwd args.
Proof.
  intros C A E. unfold announce_output, identity_block, identity_lines.
  rewrite C, A, E. now rewrite !append_assoc.
Qed.

Lemma announce_output_lines w cwd args e :
  getcwd w = Ok cwd ->
  argsAlloc w = Ok args ->
  getEnvVarOwned w envVarName = Err e ->
  announce_output w = identity_lines (getpid w) cwd args.
Proof.
  intros C A E. unfold announce_output, identity_lines.
  rewrite C, A, E. now rewrite !append_empty_r.
Qed.

(** When the announcer completes, the events of the run are those of
    the announcer, by which the whole block is written, and then
    events that write nothing to standard output. *)
Lemma run_after_announce w fuel cwd args dir :
  getcwd w = Ok cwd ->
  argsAlloc w = Ok args ->
  getEnvVarOwned w envVarName = Ok dir ->
  exists evs1 rest,
    events (run w fuel) = (evs1 ++ rest)%list
    /\ observations evs1
       = [EvGetPid (getpid w); EvGetCwd (Ok cwd); EvArgsAlloc (Ok args);
          EvGetEnv envVarName (Ok dir)]
    /\ output Stdout evs1 = identity_block (getpid w) cwd args
    /\ output Stdout rest = "".
Proof.
  intros C A E.
  pose proof (announce_result w init) as R.
  pose proof (announce_effect w init) as (E1 & E2 & _).
  pose proof (run_effect w fuel) as (_ & O & _).
  rewrite (announce_output_block w cwd args dir C A E) in E2, O.
  unfold announce_observations in E1.
  rewrite C, A, E in R, E1.
  destruct R as (s1 & evs1 & R & B1).
  rewrite R in E1, E2. unfold emitted in E2. cbn [events final] in E1, E2.
  rewrite B1, append_empty_r in E2. cbn [buf init stdout_buffer append] in E2.
  unfold run, main in *. rewrite (bind_eq_Ret _ _ _ _ _ _ R) in *.
  unfold emitted in O. rewrite events_prepend, final_prepend, output_app, E2 in O.
  cbn [buf init stdout_buffer append] in O.
  rewrite append_assoc in O.
  eexists evs1, _. split; [apply events_prepend|]. split; [exact E1|]. split; [exact E2|].
  apply append_eq_self, append_eq_empty in O. exact (proj1 O).
Qed.

Lemma flushed_before_split sel block evs1 rest :
  (forall e, In e evs1 -> sel e = false) ->
  output Stdout evs1 = block ->
  output Stdout rest = "" ->
  flushed_before sel block (evs1 ++ rest).
Proof.
  intros N B Q pre e post H S.
  apply app_eq_app in H. destruct H as (l & [(H1 & H2)|(H1 & H2)]).
  - destruct l as [|e' l].
    + rewrite app_nil_r in H1. now subst.
    + injection H2 as <- _.
      assert (In e evs1) as I by (rewrite H1, in_app_iff; right; now left).
      apply N in I. congruence.
  - subst pre. rewrite output_app, B.
    rewrite H2, output_app in Q. apply append_eq_empty in Q. destruct Q as (-> & _).
    apply append_empty_r.
Qed.

Lemma announcer_events_only w cwd args dir evs1 :
  observations evs1
  = [EvGetPid (getpid w); EvGetCwd (Ok cwd); EvArgsAlloc (Ok args);
     EvGetEnv envVarName (Ok dir)] ->
  forall e, In e evs1 -> after_announcer e = false.
Proof.
  intros O e I.
  destruct (is_write e) eqn:Wr.
  - destruct e; try discriminate; reflexivity.
  - assert (In e (observations evs1)) as I'.
    { unfold observations. apply filter_In. now rewrite Wr. }
    rewrite O in I'. simpl in I'. intuition (subst; reflexivity).
Qed.

(** C2, as stated, fails: the environment variable is read while
    standard output has received nothing of the block. *)
Lemma environment_read_before_flush :
  ~ flushed_before other_component
      (identity_block 4242 "/repo" ["/bin/fakeeditor"; "--edit"; "msg.txt"])
      (events (run scenario_world 1)).
Proof.
  intros H.
  specialize (H [EvGetPid 4242; EvGetCwd (Ok "/repo");
                 EvArgsAlloc (Ok ["/bin/fakeeditor"; "--edit"; "msg.txt"])]
                (EvGetEnv envVarName (Ok "/tmp/sig42"))
                (skipn 4 (events (run scenario_world 1)))
                eq_refl eq_refl).
  discriminate H.
Qed.

(** C2, amended.  The identity block is pid line, working-directory
    line, one line per element of the argument vector and the sentinel
    line, in this order.  The environment variable is read after the
    argument lines are printed and before the sentinel: when it is
    set, the whole block has reached standard output before the start
    time is taken, the signal path is built, the parent is resolved
    and the wait loop runs, and nothing else is ever written to
    standard output; when it is missing, the run exits with status 1
    before the loop, with the block flushed up to its last argument
    line and no sentinel. *)
Theorem identity_block_flushed_after_environment (w : World) (fuel : nat)
    (cwd : string) (args : list string) :
  getcwd w = Ok cwd ->
  argsAlloc w = Ok args ->
  match getEnvVarOwned w envVarName with
  | Ok dir =>
      flushed_before after_announcer (identity_block (getpid w) cwd args)
        (events (run w fuel))
      /\ exists evs1 rest,
          events (run w fuel) = (evs1 ++ rest)%list
          /\ observations evs1
             = [EvGetPid (getpid w); EvGetCwd (Ok cwd); EvArgsAlloc (Ok args);
                EvGetEnv envVarName (Ok dir)]
          /\ output Stdout evs1
             = (fmt_int (getpid w) ++ nl) ++ (cwd ++ nl) ++ arg_lines args
               ++ "FAKEEDITOR_OUTPUT_END" ++ nl
          /\ output Stdout rest = ""
  | Err e =>
      exit_status (run w fuel) = Some 1
      /\ run w fuel = run w 0
      /\ flushed (final (run w fuel))
      /\ output Stdout (events (run w fuel))
         = (fmt_int (getpid w) ++ nl) ++ (cwd ++ nl) ++ arg_lines args
  end.
Proof.
  intros C A.
  destruct (getEnvVarOwned w envVarName) as [dir|e] eqn:E.
  - destruct (run_after_announce w fuel cwd args dir C A E) as (evs1 & rest & H & O & B & Q).
    split.
    + rewrite H. apply flushed_before_split; auto.
      now apply (announcer_events_only w cwd args dir).
    + exists evs1, rest. repeat split; auto.
      rewrite B. unfold identity_block, identity_lines, sentinel_line.
      now rewrite !append_assoc.
  - assert (S0 : startup w = None).
    { unfold startup, announced. now rewrite C, A, E. }
    pose proof (run_result w fuel) as X. rewrite C, A, S0 in X.
    destruct X as (s' & evs & R & F).
    split; [rewrite run_status; unfold expected_status; now rewrite S0|].
    split; [now apply run_without_loop|].
    split; [now rewrite R|].
    destruct (run_effect w fuel) as (_ & O & _).
    rewrite (announce_output_lines w cwd args e C A E) in O.
    unfold emitted in O. rewrite R in *. cbn [events final buf init stdout_buffer append] in O.
    destruct F as (F & _). change (stdout_buffer s') with (buf Stdout s') in F.
    cbn [buf] in F. rewrite F, append_empty_r in O. exact O.
Qed.

Lemma identity_block_flushed_after_environment_witness :
  flushed_before after_announcer
    (identity_block 4242 "/repo" ["/bin/fakeeditor"; "--edit"; "msg.txt"])
    (events (run scenario_world 10)).
Proof.
  exact (proj1 (identity_block_flushed_after_environment scenario_world 10 "/repo"
                  ["/bin/fakeeditor"; "--edit"; "msg.txt"] eq_refl eq_refl)).
Defined.

(** C9, as stated, fails: in the scenario the block lists the program
    name before the two arguments. *)
Lemma scenario_lists_program_name :
  argsAlloc scenario_world = Ok ["/bin/fakeeditor"; "--edit"; "msg.txt"]
  /\ exit_status (run scenario_world 10) = Some 0
  /\ argument_lines (output Stdout (events (run scenario_world 10)))
     = ["/bin/fakeeditor"; "--edit"; "msg.txt"]
  /\ argument_lines (output Stdout (events (run scenario_world 10)))
     <> ["--edit"; "msg.txt"].
Proof. repeat split. discriminate. Qed.

(** C9, amended.  For the invocation with arguments ["--edit";
    "msg.txt"], whose argument vector starts with the program name,
    and a signal file that an iteration finds before the budget is used
    up and while the parent is there, every run long enough to reach
    that iteration exits with status 0, and its standard output is the
    pid line, the working-directory line, the program-name line, the
    two argument lines and the sentinel line. *)
Theorem edit_invocation_completes (w : World) (argv0 cwd path : string)
    (p : Parent) (k fuel : nat) :
  argsAlloc w = Ok [argv0; "--edit"; "msg.txt"] ->
  getcwd w = Ok cwd ->
  startup w = Some (path, p) ->
  (forall j, (j < k)%nat -> tick_verdict w path p (nanoTimestamp w 0) j = VSleep) ->
  tick_verdict w path p (nanoTimestamp w 0) k = VCompleted ->
  (k < fuel)%nat ->
  exit_status (run w fuel) = Some 0
  /\ outcome (run w fuel) = Some Completed
  /\ output Stdout (events (run w fuel))
     = (fmt_int (getpid w) ++ nl) ++ (cwd ++ nl) ++ (argv0 ++ nl)
       ++ ("--edit" ++ nl) ++ ("msg.txt" ++ nl) ++ "FAKEEDITOR_OUTPUT_END" ++ nl.
Proof.
  intros A C S0 Hs Hk Hf.
  assert (F : first_stop w path p (nanoTimestamp w 0) fuel 0 = Some k).
  { apply first_stop_at; [|congruence|lia]. intros j Hj. apply Hs. lia. }
  assert (St : exit_status (run w fuel) = Some 0).
  { rewrite run_status. unfold expected_status, stop_verdict. now rewrite S0, F, Hk. }
  split; [exact St|]. split.
  - rewrite run_outcome. unfold expected_outcome, stop_verdict.
    unfold startup in S0.
    destruct (announced w) as [dir|]; [|discriminate].
    destruct (path_join w [dir; "0"]) as [path'|]; [|discriminate].
    destruct (resolved w) as [p'|]; [|discriminate].
    injection S0 as -> ->. now rewrite F, Hk.
  - destruct (run_effect w fuel) as (_ & O & _).
    pose proof (run_result w fuel) as X. rewrite C, A, S0, F in X.
    destruct X as (c & s & evs & R & _ & (B & _)).
    rewrite R in *.
    unfold emitted in O. cbn [events final buf init stdout_buffer append] in O.
    rewrite B, append_empty_r in O. cbn [events]. rewrite O.
    unfold startup, announced in S0. unfold announce_output, sentinel_line.
    rewrite C, A in *.
    destruct (getEnvVarOwned w envVarName); [|discriminate].
    cbn [arg_lines]. now rewrite !append_assoc.
Qed.

Lemma edit_invocation_completes_witness :
  exit_status (run scenario_world 4) = Some 0
  /\ outcome (run scenario_world 4) = Some Completed
  /\ output Stdout (events (run scenario_world 4))
     = ("4242" ++ nl) ++ ("/repo" ++ nl) ++ ("/bin/fakeeditor" ++ nl)
       ++ ("--edit" ++ nl) ++ ("msg.txt" ++ nl) ++ "FAKEEDITOR_OUTPUT_END" ++ nl.
Proof.
  apply (edit_invocation_completes scenario_world "/bin/fakeeditor" "/repo" "/tmp/sig42/0"
           scenario_parent 3 4); try reflexivity; try lia.
  intros j Hj.
  destruct j as [|[|[|j]]]; try reflexivity. lia.
Defined.

(** ** Flushing on the exit paths *)

(** C3 holds on the paths that end in [flushAndExit], which every exit
    through [std.process.exit] is. *)
Lemma exit_paths_flush w fuel c s evs :
  run w fuel = Exited c s evs ->
  flushed s
  /\ output Stdout evs = announce_output w
  /\ output Stderr evs = run_diagnostics w fuel.
Proof.
  intros R.
  pose proof (run_exit_flushed w fuel c s evs R) as (B1 & B2).
  destruct (run_effect w fuel) as (_ & O & D).
  rewrite R in O, D. unfold emitted in O, D.
  cbn [events final buf init stdout_buffer stderr_buffer append] in O, D.
  rewrite B1, append_empty_r in O. rewrite B2, append_empty_r in D.
  repeat split; assumption.
Qed.

(** C3 at the failing input: when [getcwd] fails the error returns from
    [main]; the process ends with status 1 as a setup error while the
    pid line is still in the buffer of standard output, and standard
    output has received nothing. *)
Theorem getcwd_failure_loses_pid_line :
  run unlinked_cwd_world 5
  = Throw "CurrentWorkingDirectoryUnlinked"
      {| stdout_buffer := "4242" ++ nl; stderr_buffer := "" |}
      [EvGetPid 4242; EvGetCwd (Err "CurrentWorkingDirectoryUnlinked")]
  /\ exit_status (run unlinked_cwd_world 5) = Some 1
  /\ outcome (run unlinked_cwd_world 5) = Some SetupError
  /\ output Stdout (events (run unlinked_cwd_world 5)) = ""
  /\ ~ flushed (final (run unlinked_cwd_world 5)).
Proof.
  repeat split. intros (H & _). discriminate H.
Qed.

(** * Further properties of the program *)

(** ** Where the wait loop stops *)

Lemma sleeps_app a b : sleeps (a ++ b) = (sleeps a ++ sleeps b)%list.
Proof.
  induction a as [|e a IH]; [reflexivity|].
  destruct e; cbn [app sleeps]; rewrite ?IH; reflexivity.
Qed.

Lemma sleeps_observations evs : sleeps (observations evs) = sleeps evs.
Proof.
  induction evs as [|e evs IH]; [reflexivity|].
  destruct e; cbn [observations filter is_write negb sleeps]; fold (observations evs);
    rewrite ?IH; reflexivity.
Qed.

Lemma probe_never_sleeps w p k : sleeps (probe_observations w p k) = [].
Proof.
  unfold probe_observations.
  destruct (parent_monitoring_active p); [|reflexivity].
  destruct (is_windows (os_tag w)); [|reflexivity].
  destruct (OpenProcess w k (win_ppid p)); reflexivity.
Qed.

Lemma tick_sleeps w path p start k :
  sleeps (tick_observations w path p start k)
  = match tick_verdict w path p start k with
    | VSleep => [POLLING_INTERVAL_MS * ns_per_ms]
    | _ => []
    end.
Proof.
  unfold tick_observations.
  destruct (tick_verdict w path p start k); cbn [sleeps];
    rewrite ?sleeps_app, ?probe_never_sleeps; reflexivity.
Qed.

Lemma loop_sleeps_pending w path p start fuel : forall k,
  first_stop w path p start fuel k = None ->
  sleeps (loop_observations w path p start fuel k)
  = repeat (POLLING_INTERVAL_MS * ns_per_ms) fuel.
Proof.
  induction fuel as [|fuel IH]; intros k; [reflexivity|].
  cbn [first_stop loop_observations repeat].
  rewrite sleeps_app, tick_sleeps.
  destruct (tick_verdict w path p start k); try discriminate.
  intros H. now rewrite IH.
Qed.

Lemma loop_sleeps_stopped w path p start fuel : forall k j,
  first_stop w path p start fuel k = Some j ->
  sleeps (loop_observations w path p start fuel k)
  = repeat (POLLING_INTERVAL_MS * ns_per_ms) (j - k).
Proof.
  induction fuel as [|fuel IH]; intros k j; [discriminate|].
  cbn [first_stop loop_observations].
  rewrite sleeps_app, tick_sleeps.
  destruct (tick_verdict w path p start k) eqn:V.
  1-3: intros [= <-]; now rewrite Nat.sub_diag.
  intros H.
  assert (S k <= j)%nat.
  { clear IH. revert H. generalize (S k). induction fuel as [|fuel IH]; intros n; [discriminate|].
    cbn [first_stop]. destruct (tick_verdict w path p start n).
    1-3: intros [= <-]; lia.
    intros H. apply IH in H. lia. }
  rewrite (IH _ _ H).
  replace (j - k)%nat with (S (j - S k)) by lia. reflexivity.
Qed.

Lemma first_stop_none w path p start : forall fuel k0,
  (forall j, (k0 <= j < k0 + fuel)%nat -> tick_verdict w path p start j = VSleep) ->
  first_stop w path p start fuel k0 = None.
Proof.
  induction fuel as [|fuel IH]; intros k0 H; [reflexivity|].
  cbn [first_stop]. rewrite (H k0) by lia.
  apply IH. intros j Hj. apply H. lia.
Qed.

Lemma startup_observations_never_sleep w dir :
  sleeps (announce_observations w) = [] /\ sleeps (setup_observations w dir) = [].
Proof.
  unfold announce_observations, setup_observations, resolve_observations,
    discovery_observations.
  split.
  - destruct (getcwd w); [destruct (argsAlloc w)|]; reflexivity.
  - destruct (path_join w [dir; "0"]); [|reflexivity].
    destruct (is_windows (os_tag w)); [destruct (CreateToolhelp32Snapshot w)|]; reflexivity.
Qed.

(** X1.  When the startup succeeds, the iterations before [k] all end
    in the sleep and iteration [k] does not, the run is still polling
    with any fuel up to [k], having slept 50 ms once per iteration
    made; with more fuel it has stopped in iteration [k], with the
    status and the outcome of that iteration's verdict, after exactly
    [k] sleeps of 50 ms. *)
Theorem run_stops_at_first_verdict (w : World) (path : string) (p : Parent)
    (k fuel : nat) :
  startup w = Some (path, p) ->
  (forall j, (j < k)%nat -> tick_verdict w path p (nanoTimestamp w 0) j = VSleep) ->
  tick_verdict w path p (nanoTimestamp w 0) k <> VSleep ->
  if (fuel <=? k)%nat then
    exit_status (run w fuel) = None
    /\ sleeps (events (run w fuel)) = repeat 50000000 fuel
  else
    exit_status (run w fuel)
    = verdict_status (tick_verdict w path p (nanoTimestamp w 0) k)
    /\ outcome (run w fuel)
       = verdict_outcome (tick_verdict w path p (nanoTimestamp w 0) k)
    /\ sleeps (events (run w fuel)) = repeat 50000000 k.
Proof.
  intros S0 Hs Hk.
  assert (A : exists dir, announced w = Some dir /\ path_join w [dir; "0"] = Ok path
                          /\ resolved w = Some p).
  { unfold startup in S0.
    destruct (announced w) as [dir|]; [|discriminate].
    destruct (path_join w [dir; "0"]) as [path'|] eqn:J; [|discriminate].
    destruct (resolved w) as [p'|]; [|discriminate].
    injection S0 as -> ->. eauto. }
  destruct A as (dir & An & J & R).
  assert (Sl : forall l,
             sleeps (run_observations w fuel) = l <->
             sleeps (loop_observations w path p (nanoTimestamp w 0) fuel 0) = l).
  { intros l. unfold run_observations. rewrite An, S0, !sleeps_app.
    destruct (startup_observations_never_sleep w dir) as (-> & ->). reflexivity. }
  rewrite <- sleeps_observations, run_observed, run_status, run_outcome.
  unfold expected_status, expected_outcome, stop_verdict. rewrite S0, An, J, R.
  destruct (Nat.leb_spec fuel k) as [Hf|Hf].
  - assert (F : first_stop w path p (nanoTimestamp w 0) fuel 0 = None).
    { apply first_stop_none. intros j Hj. apply Hs. lia. }
    rewrite F. split; [reflexivity|].
    apply Sl. now apply loop_sleeps_pending.
  - assert (F : first_stop w path p (nanoTimestamp w 0) fuel 0 = Some k).
    { apply first_stop_at; [|exact Hk|lia]. intros j Hj. apply Hs. lia. }
    rewrite F. split; [reflexivity|]. split; [reflexivity|].
    apply Sl. rewrite (loop_sleeps_stopped _ _ _ _ _ _ _ F). now rewrite Nat.sub_0_r.
Qed.

Lemma run_stops_at_first_verdict_witness :
  exit_status (run scenario_world 3) = None
  /\ sleeps (events (run scenario_world 3)) = repeat 50000000 3.
Proof.
  apply (run_stops_at_first_verdict scenario_world "/tmp/sig42/0" scenario_parent 3 3).
  - reflexivity.
  - intros j Hj. destruct j as [|[|[|j]]]; try reflexivity. lia.
  - discriminate.
Defined.

(** ** The boundary of the timeout *)

Lemma elapsed_reaches_budget w start k :
  (elapsed_ms w start k >=? TOTAL_TIMEOUT_MS)%Z = true
  <-> nanoTimestamp w (S k) - start >= 5000000000.
Proof.
  unfold elapsed_ms, TOTAL_TIMEOUT_MS, ns_per_ms.
  rewrite Z.geb_leb, Z.leb_le.
  split; intros H.
  - destruct (Z_lt_ge_dec (nanoTimestamp w (S k) - start) 5000000000) as [L|G]; [|exact G].
    assert (Z.quot (nanoTimestamp w (S k) - start) 1000000 <= Z.quot 4999999999 1000000)
      by (apply Z.quot_le_mono; lia).
    change (Z.quot 4999999999 1000000) with 4999 in *. lia.
  - change 5000 with (Z.quot 5000000000 1000000).
    apply Z.quot_le_mono; lia.
Qed.

Lemma probe_observations_active w p k :
  parent_monitoring_active p = true -> probe_observations w p k <> [].
Proof.
  intros A. unfold probe_observations. rewrite A.
  destruct (is_windows (os_tag w)); discriminate.
Qed.

(** X2.  An iteration times out exactly when its clock reading is at
    least 5 000 000 000 ns after the start time: then it reads nothing
    but the clock, logs the timeout line and exits with status 1,
    whatever the parent and the signal file are.  One nanosecond short
    of that, and for any reading before the start time, it does not
    time out and goes on to a further system call. *)
Theorem timeout_boundary (w : World) (path : string) (p : Parent)
    (start : Z) (k : nat) (s : State) :
  let r := tick w path (ppid p) (win_ppid p) (parent_monitoring_active p) start k s in
  (nanoTimestamp w (S k) - start >= 5000000000 ->
   exit_code r = Some 1
   /\ observations (events r) = [EvClock (nanoTimestamp w (S k))]
   /\ emitted Stderr r
      = buf Stderr s ++ "Error: Timeout (5000ms) reached in fakeeditor. Exiting." ++ nl)
  /\ (nanoTimestamp w (S k) - start < 5000000000 ->
      tick_verdict w path p start k <> VTimeout
      /\ exists e rest,
          observations (events r) = EvClock (nanoTimestamp w (S k)) :: e :: rest).
Proof.
  intros r.
  pose proof (tick_effect w path p start k s) as (Ob & _ & D).
  pose proof (tick_exit_code w path p start k s) as X.
  fold r in Ob, D, X. rewrite Ob, D, X.
  unfold tick_observations, tick_diagnostics, tick_verdict.
  split; intros H.
  - apply elapsed_reaches_budget in H. rewrite H. repeat split.
  - assert ((elapsed_ms w start k >=? TOTAL_TIMEOUT_MS)%Z = false) as ->.
    { destruct (elapsed_ms w start k >=? TOTAL_TIMEOUT_MS)%Z eqn:E; [|reflexivity].
      apply elapsed_reaches_budget in E. lia. }
    destruct (parent_gone w p k) eqn:G.
    + split; [discriminate|].
      assert (A : parent_monitoring_active p = true).
      { unfold parent_gone in G. destruct (parent_monitoring_active p); [reflexivity|discriminate]. }
      pose proof (probe_observations_active w p k A) as N.
      destruct (probe_observations w p k) as [|e rest]; [contradiction|]. eauto.
    + destruct (signal_present w path k); (split; [discriminate|]);
        destruct (probe_observations w p k) as [|e rest]; cbn [app]; eauto.
Qed.

Lemma timeout_boundary_witness :
  tick_verdict scenario_world "/tmp/sig42/0" scenario_parent 1000000000 0 <> VTimeout.
Proof.
  exact (proj1 (proj2 (timeout_boundary scenario_world "/tmp/sig42/0" scenario_parent
                         1000000000 0 init) eq_refl)).
Defined.

(** ** The liveness probe on Windows, case by case *)

(** X3.  On Windows, with monitoring enabled and the budget not used
    up: a parent handle that cannot be opened and a handle that is
    signaled both end the run with status 1, with the parent-gone line
    as the only diagnostic and without a look at the signal file; the
    null handle is neither waited on nor closed, the signaled one is
    closed.  A handle whose wait times out is closed and the iteration
    goes on to the signal check without logging anything. *)
Theorem windows_probe_cases (w : World) (path : string) (p : Parent)
    (start : Z) (k : nat) (s : State) :
  is_windows (os_tag w) = true ->
  parent_monitoring_active p = true ->
  elapsed_ms w start k < TOTAL_TIMEOUT_MS ->
  let r := tick w path (ppid p) (win_ppid p) (parent_monitoring_active p) start k s in
  let gone_line :=
    "Parent process (PID: " ++ fmt_int (win_ppid p)
    ++ ") no longer exists (Windows). Exiting." ++ nl in
  (OpenProcess w k (win_ppid p) = false ->
   exit_code r = Some 1
   /\ emitted Stderr r = buf Stderr s ++ gone_line
   /\ observations (events r)
      = [EvClock (nanoTimestamp w (S k)); EvOpenProcess (win_ppid p) false])
  /\ (OpenProcess w k (win_ppid p) = true ->
      WaitForSingleObject w k (win_ppid p) = WAIT_OBJECT_0 ->
      exit_code r = Some 1
      /\ emitted Stderr r = buf Stderr s ++ gone_line
      /\ observations (events r)
         = [EvClock (nanoTimestamp w (S k)); EvOpenProcess (win_ppid p) true;
            EvWaitForSingleObject (win_ppid p) WAIT_OBJECT_0; EvCloseHandle])
  /\ (OpenProcess w k (win_ppid p) = true ->
      WaitForSingleObject w k (win_ppid p) = WAIT_TIMEOUT ->
      exit_code r = (if signal_present w path k then Some 0 else None)
      /\ emitted Stderr r = buf Stderr s ++ access_diagnostics w path k
      /\ observations (events r)
         = (EvClock (nanoTimestamp w (S k)) :: EvOpenProcess (win_ppid p) true
            :: EvWaitForSingleObject (win_ppid p) WAIT_TIMEOUT :: EvCloseHandle
            :: EvAccess path (accessAbsolute w k path)
            :: (if signal_present w path k then []
                else [EvSleep (POLLING_INTERVAL_MS * ns_per_ms)]))%list).
Proof.
  intros W A T r gone_line.
  pose proof (tick_effect w path p start k s) as (Ob & _ & D).
  pose proof (tick_exit_code w path p start k s) as X.
  fold r in Ob, D, X. rewrite Ob, D, X.
  unfold tick_observations, tick_diagnostics, probe_observations, probe_diagnostics,
    parent_gone_line, tick_verdict, parent_gone, parent_alive_windows.
  rewrite within_budget by exact T. rewrite A, W. cbn [andb].
  split; [|split].
  - intros ->. cbn [andb negb]. repeat split.
  - intros -> ->. cbn [andb negb Z.eqb WAIT_OBJECT_0 WAIT_TIMEOUT]. repeat split.
  - intros -> ->. cbn [andb negb Z.eqb WAIT_OBJECT_0 WAIT_TIMEOUT Pos.eqb].
    unfold signal_present, access_diagnostics.
    destruct (accessAbsolute w k path) as [[]|e]; repeat split.
Qed.

Lemma windows_probe_cases_witness :
  exit_code (tick windows_exited_parent_world "C:\sig42\0" 0 977 true 1000000000 0 init)
  = Some 1
  /\ emitted Stderr
       (tick windows_exited_parent_world "C:\sig42\0" 0 977 true 1000000000 0 init)
     = "Parent process (PID: 977) no longer exists (Windows). Exiting." ++ nl.
Proof.
  pose proof (windows_probe_cases windows_exited_parent_world "C:\sig42\0" windows_parent
                1000000000 0 init eq_refl eq_refl eq_refl) as (_ & H & _).
  destruct (H eq_refl eq_refl) as (H1 & H2 & _).
  split; [exact H1 | exact H2].
Defined.

(** ** Parent discovery that succeeds *)

Lemma snapshot_walk_found w rest : forall pe32 pe s,
  own_entry w (pe32 :: rest) = Some pe ->
  th32ParentProcessID pe <> 0 ->
  snapshot_walk w (getpid w) pe32 rest s = Ret (th32ParentProcessID pe) s [].
Proof.
  induction rest as [|next rest IH]; intros pe32 pe s; unfold own_entry; cbn [snapshot_walk find];
    destruct (th32ProcessID pe32 =? getpid w)%Z.
  1,3: intros [= <-] N; apply Z.eqb_neq in N; now rewrite N.
  - discriminate.
  - apply IH.
Qed.

Lemma own_entry_first w entries pe :
  own_entry w entries = Some pe ->
  exists before after,
    entries = (before ++ pe :: after)%list
    /\ th32ProcessID pe = getpid w
    /\ forall e, In e before -> th32ProcessID e <> getpid w.
Proof.
  unfold own_entry. induction entries as [|e entries IH]; [discriminate|].
  cbn [find]. destruct (th32ProcessID e =? getpid w)%Z eqn:E.
  - intros [= <-]. exists [], entries. apply Z.eqb_eq in E. repeat split; auto.
  - intros H. destruct (IH H) as (before & after & -> & P & B).
    exists (e :: before), after. repeat split; auto.
    intros e' [<-|I]; [now apply Z.eqb_neq | auto].
Qed.

(** X4.  When the snapshot holds an entry for this process whose parent
    id is not 0, [getParentPidWindows] returns the parent id of the
    first such entry (the entries before it belong to other
    processes), prints nothing, and has closed the snapshot handle
    when it returns.  On Windows the parent resolution of [main] then
    returns that id with monitoring enabled, after these two calls and
    without printing; and when the startup calls succeed, a run is the
    wait loop called with that id and with monitoring enabled, after a
    startup that has left nothing for the diagnostic stream. *)
Theorem getParentPidWindows_finds_parent (w : World)
    (entries : list PROCESSENTRY32) (pe : PROCESSENTRY32) (s : State) :
  CreateToolhelp32Snapshot w = Some entries ->
  own_entry w entries = Some pe ->
  th32ParentProcessID pe <> 0 ->
  getParentPidWindows w s
  = Ret (th32ParentProcessID pe) s [EvSnapshot true; EvCloseHandle]
  /\ (exists before after,
         entries = (before ++ pe :: after)%list
         /\ th32ProcessID pe = getpid w
         /\ forall e, In e before -> th32ProcessID e <> getpid w)
  /\ (is_windows (os_tag w) = true ->
      resolved w
      = Some {| ppid := 0; win_ppid := th32ParentProcessID pe;
                parent_monitoring_active := true |}
      /\ resolve_parent w s
         = Ret {| ppid := 0; win_ppid := th32ParentProcessID pe;
                  parent_monitoring_active := true |}
               s [EvSnapshot true; EvCloseHandle]
      /\ forall cwd args dir path,
           getcwd w = Ok cwd ->
           argsAlloc w = Ok args ->
           getEnvVarOwned w envVarName = Ok dir ->
           path_join w [dir; "0"] = Ok path ->
           exists pre s0,
             (forall fuel,
                 run w fuel
                 = prepend pre
                     (wait_loop w path 0 (th32ParentProcessID pe) true
                        (nanoTimestamp w 0) fuel 0 s0))
             /\ output Stderr pre = ""
             /\ buf Stderr s0 = "").
Proof.
  intros Sn O N.
  assert (G : forall s', getParentPidWindows w s'
                         = Ret (th32ParentProcessID pe) s' [EvSnapshot true; EvCloseHandle]).
  { intros s'. unfold getParentPidWindows. rewrite Sn.
    destruct entries as [|pe32 rest]; [discriminate|].
    rewrite bind_observe_Ok.
    rewrite (defer_observe_Ret _ _ _ _ _ _ (snapshot_walk_found w rest pe32 pe s' O N)).
    reflexivity. }
  split; [apply G|]. split; [now apply own_entry_first|].
  intros W.
  assert (R : resolved w
              = Some {| ppid := 0; win_ppid := th32ParentProcessID pe;
                        parent_monitoring_active := true |}).
  { unfold resolved, discovery. rewrite W, Sn.
    destruct entries as [|pe32 rest]; [discriminate|].
    rewrite O. apply Z.eqb_neq in N. now rewrite N. }
  split; [exact R|]. split.
  - unfold resolve_parent. rewrite W. unfold bind, catch, ret. rewrite G.
    cbn [prepend fst snd app]. reflexivity.
  - intros cwd args dir path Hcwd Hargs Henv Hjoin.
    assert (S0 : startup w
                 = Some (path, {| ppid := 0; win_ppid := th32ParentProcessID pe;
                                  parent_monitoring_active := true |})).
    { apply reaches_loop_startup. exists cwd, args, dir. auto. }
    destruct (run_enters_loop w path _ S0) as (pre & s0 & dir' & Run & _ & _ & _ & _ & _ & Q).
    rewrite (quiet_resolution w _ R eq_refl) in Q.
    cbn [ppid win_ppid parent_monitoring_active] in Run.
    exists pre, s0. split; [exact Run|].
    destruct (output Stderr pre) as [|c0 rest0]; [|discriminate Q].
    split; [reflexivity | exact Q].
Qed.

Lemma getParentPidWindows_finds_parent_witness :
  getParentPidWindows windows_world init = Ret 977 init [EvSnapshot true; EvCloseHandle]
  /\ resolve_parent windows_world init
     = Ret windows_parent init [EvSnapshot true; EvCloseHandle]
  /\ exists pre s0,
       (forall fuel,
           run windows_world fuel
           = prepend pre (wait_loop windows_world "C:\sig42\0" 0 977 true 1000000000 fuel 0 s0))
       /\ output Stderr pre = ""
       /\ buf Stderr s0 = "".
Proof.
  destruct (getParentPidWindows_finds_parent windows_world
              [ {| th32ProcessID := 4; th32ParentProcessID := 0 |};
                {| th32ProcessID := 977; th32ParentProcessID := 4 |};
                {| th32ProcessID := 4242; th32ParentProcessID := 977 |} ]
              {| th32ProcessID := 4242; th32ParentProcessID := 977 |} init
              eq_refl eq_refl ltac:(discriminate)) as (H1 & _ & H3).
  destruct (H3 eq_refl) as (_ & H4 & H5).
  split; [exact H1|]. split; [exact H4|].
  exact (H5 "C:\repo" ["fakeeditor.exe"; "--edit"; "msg.txt"] "C:\sig42" "C:\sig42\0"
            eq_refl eq_refl eq_refl eq_refl).
Defined.

(** ** What the probes are aimed at *)

Lemma run_observations_in w fuel e :
  In e (run_observations w fuel) ->
  In e (announce_observations w)
  \/ (exists dir, announced w = Some dir /\ In e (setup_observations w dir))
  \/ (exists path p j,
         startup w = Some (path, p)
         /\ In e (tick_observations w path p (nanoTimestamp w 0) j)).
Proof.
  unfold run_observations. rewrite in_app_iff. intros [H|H]; [now left|].
  destruct (announced w) as [dir|]; [|contradiction].
  rewrite in_app_iff in H. destruct H as [H|H]; [right; left; eauto|].
  destruct (startup w) as [[path p]|]; [|contradiction].
  apply loop_observations_in in H. destruct H as (j & H).
  right; right. eauto.
Qed.

Lemma tick_observations_in w path p start k e :
  In e (tick_observations w path p start k) ->
  e = EvClock (nanoTimestamp w (S k))
  \/ In e (probe_observations w p k)
  \/ e = EvAccess path (accessAbsolute w k path)
  \/ e = EvSleep (POLLING_INTERVAL_MS * ns_per_ms).
Proof.
  unfold tick_observations.
  destruct (tick_verdict w path p start k); cbn [In]; rewrite ?in_app_iff; cbn [In];
    intuition auto.
Qed.

Lemma run_event_observed w fuel e :
  is_write e = false -> In e (events (run w fuel)) -> In e (run_observations w fuel).
Proof.
  intros Hw Hin. rewrite <- run_observed. apply filter_In. now rewrite Hw.
Qed.

Lemma startup_resolved w path p : startup w = Some (path, p) -> resolved w = Some p.
Proof.
  unfold startup.
  destruct (announced w) as [dir|]; [|discriminate].
  destruct (path_join w [dir; "0"]); [|discriminate].
  destruct (resolved w); [|discriminate].
  now intros [= _ ->].
Qed.

(** X5.  The only process a run ever signals is the parent whose id
    [getppid] returned, never the reaper, never on Windows, and only
    with signal 0; the only process handle a run ever asks for is that
    of the parent id found in the snapshot, and only on Windows. *)
Theorem probes_target_only_the_parent (w : World) (fuel : nat) :
  (forall pid sig r,
      In (EvKill pid sig r) (events (run w fuel)) ->
      is_windows (os_tag w) = false /\ pid = getppid w /\ pid <> 1 /\ sig = 0
      /\ exists k, r = kill w k pid 0)
  /\ (forall pid opened,
         In (EvOpenProcess pid opened) (events (run w fuel)) ->
         is_windows (os_tag w) = true /\ discovery w = Ok pid
         /\ exists k, opened = OpenProcess w k pid).
Proof.
  assert (NA : forall e, In e (announce_observations w) ->
                         match e with EvKill _ _ _ | EvOpenProcess _ _ => False | _ => True end).
  { intros e. unfold announce_observations.
    destruct (getcwd w); [destruct (argsAlloc w)|]; simpl; intuition (subst; exact I). }
  assert (NS : forall e dir, In e (setup_observations w dir) ->
                         match e with EvKill _ _ _ | EvOpenProcess _ _ => False | _ => True end).
  { intros e dir. unfold setup_observations, resolve_observations, discovery_observations.
    destruct (path_join w [dir; "0"]); [|simpl; intuition (subst; exact I)].
    destruct (is_windows (os_tag w)); [destruct (CreateToolhelp32Snapshot w)|];
      simpl; intuition (subst; exact I). }
  split.
  - intros pid sig r H.
    apply run_event_observed in H; [|reflexivity].
    apply run_observations_in in H.
    destruct H as [H|[(dir & _ & H)|(path & p & j & S0 & H)]].
    + destruct (NA _ H).
    + destruct (NS _ _ H).
    + apply startup_resolved in S0.
      apply tick_observations_in in H.
      destruct H as [H|[H|[H|H]]]; try discriminate.
      unfold probe_observations in H. unfold resolved in S0.
      destruct (is_windows (os_tag w)).
      * destruct (parent_monitoring_active p); [|destruct H].
        destruct (OpenProcess w j (win_ppid p)); simpl in H; intuition discriminate.
      * destruct (getppid w =? 1)%Z eqn:P; [discriminate|].
        injection S0 as <-. cbn [parent_monitoring_active ppid] in H.
        destruct H as [[= <- <- <-]|[]].
        apply Z.eqb_neq in P. repeat split; eauto.
  - intros pid opened H.
    apply run_event_observed in H; [|reflexivity].
    apply run_observations_in in H.
    destruct H as [H|[(dir & _ & H)|(path & p & j & S0 & H)]].
    + destruct (NA _ H).
    + destruct (NS _ _ H).
    + apply startup_resolved in S0.
      apply tick_observations_in in H.
      destruct H as [H|[H|[H|H]]]; try discriminate.
      unfold probe_observations in H. unfold resolved in S0.
      destruct (is_windows (os_tag w)).
      * destruct (discovery w) as [id|e]; injection S0 as <-;
          cbn [parent_monitoring_active win_ppid] in H; [|destruct H].
        destruct (OpenProcess w j id) eqn:O; simpl in H;
          destruct H as [[= <- <-]|H]; try (repeat split; eauto; fail);
          intuition discriminate.
      * destruct (getppid w =? 1)%Z; [discriminate|].
        injection S0 as <-. cbn [parent_monitoring_active] in H.
        destruct H as [H|[]]. discriminate.
Qed.

Lemma probes_target_only_the_parent_witness :
  In (EvKill 977 0 (Ok tt)) (events (run scenario_world 1))
  /\ 977 = getppid scenario_world.
Proof.
  assert (I : In (EvKill 977 0 (Ok tt)) (events (run scenario_world 1))).
  { vm_compute. tauto. }
  split; [exact I|].
  exact (proj1 (proj2 (proj1 (probes_target_only_the_parent scenario_world 1) 977 0 (Ok tt) I))).
Defined.

(** ** Handles *)

Lemma filter_observations (f : Event -> bool) evs :
  (forall fd b, f (EvWrite fd b) = false) ->
  filter f (observations evs) = filter f evs.
Proof.
  intros Hf. unfold observations.
  induction evs as [|e evs IH]; [reflexivity|].
  destruct e; cbn [filter is_write negb]; rewrite ?IH; try reflexivity.
  now rewrite Hf.
Qed.

Lemma probe_handles w p k :
  List.length (filter opens_handle (probe_observations w p k))
  = List.length (filter closes_handle (probe_observations w p k)).
Proof.
  unfold probe_observations.
  destruct (parent_monitoring_active p); [|reflexivity].
  destruct (is_windows (os_tag w)); [|reflexivity].
  destruct (OpenProcess w k (win_ppid p)); reflexivity.
Qed.

Lemma tick_handles w path p start k :
  List.length (filter opens_handle (tick_observations w path p start k))
  = List.length (filter closes_handle (tick_observations w path p start k)).
Proof.
  unfold tick_observations.
  destruct (tick_verdict w path p start k); cbn [filter opens_handle closes_handle];
    rewrite ?filter_app, ?length_app, ?probe_handles; reflexivity.
Qed.

Lemma loop_handles w path p start fuel : forall k,
  List.length (filter opens_handle (loop_observations w path p start fuel k))
  = List.length (filter closes_handle (loop_observations w path p start fuel k)).
Proof.
  induction fuel as [|fuel IH]; intros k; [reflexivity|].
  cbn [loop_observations]. rewrite !filter_app, !length_app, tick_handles.
  destruct (tick_verdict w path p start k); rewrite ?IH; reflexivity.
Qed.

(** X6.  In every run, finished or still polling, each handle that was
    handed out (the process snapshot, a parent process handle that
    opened) has been closed: the run has made as many [CloseHandle]
    calls as it was given handles. *)
Theorem handles_are_closed (w : World) (fuel : nat) :
  List.length (filter opens_handle (events (run w fuel)))
  = List.length (filter closes_handle (events (run w fuel))).
Proof.
  rewrite <- (filter_observations opens_handle) by reflexivity.
  rewrite <- (filter_observations closes_handle) by reflexivity.
  rewrite run_observed.
  unfold run_observations, announce_observations, setup_observations,
    resolve_observations, discovery_observations.
  rewrite !filter_app, !length_app.
  assert (L : forall o : option (string * Parent),
             List.length (filter opens_handle
                       match o with
                       | Some (path, p) => loop_observations w path p (nanoTimestamp w 0) fuel 0
                       | None => []
                       end)
             = List.length (filter closes_handle
                         match o with
                         | Some (path, p) => loop_observations w path p (nanoTimestamp w 0) fuel 0
                         | None => []
                         end)).
  { intros [[path p]|]; [apply loop_handles | reflexivity]. }
  destruct (getcwd w); [destruct (argsAlloc w)|]; cbn [filter opens_handle closes_handle List.length];
    destruct (announced w) as [dir|]; try reflexivity;
    rewrite !filter_app, !length_app, L;
    (destruct (path_join w [dir; "0"]); [|reflexivity]);
    (destruct (is_windows (os_tag w)); [destruct (CreateToolhelp32Snapshot w)|]);
    reflexivity.
Qed.

(** ** Setup failures *)

Lemma run_exited_before_loop w fuel cwd args :
  getcwd w = Ok cwd ->
  argsAlloc w = Ok args ->
  startup w = None ->
  exists s evs, run w fuel = Exited 1 s evs.
Proof.
  intros C A S0.
  pose proof (run_result w fuel) as X. rewrite C, A, S0 in X.
  destruct X as (s & evs & R & _). eauto.
Qed.

(** X7.  When the signal file path cannot be built, the run exits with
    status 1 as a setup error without asking who the parent is and
    without entering the wait loop; the whole identity block,
    sentinel included, has reached standard output, and the one line
    on the diagnostic stream names the directory, the separator, the
    file name and the error. *)
Theorem path_join_failure_exits (w : World) (fuel : nat)
    (cwd : string) (args : list string) (dir : string) (e : zig_error) :
  getcwd w = Ok cwd ->
  argsAlloc w = Ok args ->
  getEnvVarOwned w envVarName = Ok dir ->
  path_join w [dir; "0"] = Err e ->
  exit_status (run w fuel) = Some 1
  /\ outcome (run w fuel) = Some SetupError
  /\ run w fuel = run w 0
  /\ flushed (final (run w fuel))
  /\ observations (events (run w fuel))
     = [EvGetPid (getpid w); EvGetCwd (Ok cwd); EvArgsAlloc (Ok args);
        EvGetEnv envVarName (Ok dir); EvClock (nanoTimestamp w 0);
        EvPathJoin [dir; "0"] (Err e)]
  /\ output Stdout (events (run w fuel)) = identity_block (getpid w) cwd args
  /\ output Stderr (events (run w fuel))
     = "Critical Error: Failed to construct signal file path '" ++ dir ++ path_sep w
       ++ "0': error." ++ e ++ ". Exiting fakeeditor." ++ nl.
Proof.
  intros C A E J.
  assert (S0 : startup w = None).
  { unfold startup, announced. now rewrite C, A, E, J. }
  destruct (run_exited_before_loop w fuel cwd args C A S0) as (s & evs & R).
  destruct (exit_paths_flush w fuel 1 s evs R) as (F & O & D).
  split; [rewrite run_status; unfold expected_status; now rewrite S0|].
  split; [rewrite run_outcome; unfold expected_outcome, announced; now rewrite C, A, E, J|].
  split; [now apply run_without_loop|].
  split; [now rewrite R|].
  split.
  - rewrite run_observed.
    unfold run_observations, announce_observations, setup_observations, announced.
    now rewrite S0, C, A, E, J.
  - rewrite R. cbn [events]. split.
    + rewrite O. now apply (announce_output_block w cwd args dir).
    + rewrite D. unfold run_diagnostics, announce_diagnostics, setup_diagnostics, announced,
        join_error_line, fmt_error.
      rewrite S0, C, A, E, J. cbn [append].
      rewrite append_empty_r.
      repeat (rewrite ?append_assoc; cbn [append]). reflexivity.
Qed.

Lemma path_join_failure_exits_witness :
  exit_status (run join_failure_world 5) = Some 1
  /\ outcome (run join_failure_world 5) = Some SetupError
  /\ run join_failure_world 5 = run join_failure_world 0.
Proof.
  pose proof (path_join_failure_exits join_failure_world 5 "/repo"
                ["/bin/fakeeditor"; "--edit"; "msg.txt"] "/tmp/sig42" "OutOfMemory"
                eq_refl eq_refl eq_refl eq_refl) as (H1 & H2 & H3 & _).
  split; [exact H1 | split; [exact H2 | exact H3]].
Defined.

(** X8.  When the signal directory is not in the environment, the run
    exits with status 1 as a setup error right after the lookup: it
    never reads the clock, builds no path, asks nothing about the
    parent, and the one line on the diagnostic stream names the
    variable and the error. *)
Theorem missing_variable_exits (w : World) (fuel : nat)
    (cwd : string) (args : list string) (e : zig_error) :
  getcwd w = Ok cwd ->
  argsAlloc w = Ok args ->
  getEnvVarOwned w envVarName = Err e ->
  outcome (run w fuel) = Some SetupError
  /\ observations (events (run w fuel))
     = [EvGetPid (getpid w); EvGetCwd (Ok cwd); EvArgsAlloc (Ok args);
        EvGetEnv "JJ_FAKEEDITOR_SIGNAL_DIR" (Err e)]
  /\ output Stderr (events (run w fuel))
     = "Error getting environment variable 'JJ_FAKEEDITOR_SIGNAL_DIR': error." ++ e ++ nl
  /\ stderr_buffer (final (run w fuel)) = "".
Proof.
  intros C A E.
  assert (S0 : startup w = None).
  { unfold startup, announced. now rewrite C, A, E. }
  destruct (run_exited_before_loop w fuel cwd args C A S0) as (s & evs & R).
  destruct (exit_paths_flush w fuel 1 s evs R) as ((_ & F) & _ & D).
  split; [rewrite run_outcome; unfold expected_outcome, announced; now rewrite C, A, E|].
  split.
  - rewrite run_observed.
    unfold run_observations, announce_observations, announced.
    now rewrite C, A, E.
  - rewrite R. cbn [events final]. split; [|exact F].
    rewrite D. unfold run_diagnostics, announce_diagnostics, announced.
    rewrite C, A, E. unfold env_error_line, fmt_error, envVarName.
    cbn [append]. now rewrite append_empty_r.
Qed.

Lemma missing_variable_exits_witness :
  outcome (run unset_variable_world 5) = Some SetupError
  /\ output Stderr (events (run unset_variable_world 5))
     = "Error getting environment variable 'JJ_FAKEEDITOR_SIGNAL_DIR': "
       ++ "error.EnvironmentVariableNotFound" ++ nl.
Proof.
  pose proof (missing_variable_exits unset_variable_world 5 "/repo"
                ["/bin/fakeeditor"; "--edit"; "msg.txt"] "EnvironmentVariableNotFound"
                eq_refl eq_refl eq_refl) as (H1 & _ & H3 & _).
  split; [exact H1 | exact H3].
Defined.

(** ** Errors returned from [main] *)

Lemma line_not_empty (a : string) : a ++ nl <> "".
Proof. intros H. apply append_eq_empty in H. destruct H as (_ & H). discriminate H. Qed.

(** X9.  Whenever [getcwd] fails, for whatever reason, the error
    returns from [main] after the two system calls made so far: the
    run ends with status 1, standard output has received nothing, and
    the pid line is left behind in the buffer of standard output (a
    pid line fits the buffer).  Nothing goes to the diagnostic
    stream. *)
Theorem getcwd_failure_returns_unflushed (w : World) (fuel : nat) (e : zig_error) :
  getcwd w = Err e ->
  (String.length (fmt_int (getpid w) ++ nl) <= BUFFER_SIZE)%nat ->
  run w fuel
  = Throw e {| stdout_buffer := fmt_int (getpid w) ++ nl; stderr_buffer := "" |}
      [EvGetPid (getpid w); EvGetCwd (Err e)]
  /\ exit_status (run w fuel) = Some 1
  /\ output Stdout (events (run w fuel)) = ""
  /\ output Stderr (events (run w fuel)) = ""
  /\ ~ flushed (final (run w fuel)).
Proof.
  intros C L.
  assert (R : run w fuel
              = Throw e {| stdout_buffer := fmt_int (getpid w) ++ nl; stderr_buffer := "" |}
                  [EvGetPid (getpid w); EvGetCwd (Err e)]).
  { assert (P : print Stdout (fmt_int (getpid w) ++ nl) init
                = Ret tt {| stdout_buffer := fmt_int (getpid w) ++ nl; stderr_buffer := "" |} []).
    { unfold print. cbn [buf init stdout_buffer].
      change (String.length "") with 0%nat. rewrite Nat.add_0_l.
      apply Nat.leb_le in L. now rewrite L. }
    unfold run, main, announce.
    rewrite !bind_assoc, bind_observe_Ok, !bind_assoc.
    rewrite (bind_eq_Ret _ _ _ _ _ _ P).
    rewrite C, !bind_assoc, bind_observe_Err. reflexivity. }
  rewrite R. repeat split.
  intros (H & _). cbn [final stdout_buffer] in H. now apply line_not_empty in H.
Qed.

Lemma getcwd_failure_returns_unflushed_witness :
  exit_status (run unlinked_cwd_world 9) = Some 1
  /\ ~ flushed (final (run unlinked_cwd_world 9)).
Proof.
  assert (L : (String.length (fmt_int (getpid unlinked_cwd_world) ++ nl) <= BUFFER_SIZE)%nat).
  { apply Nat.leb_le. reflexivity. }
  pose proof (getcwd_failure_returns_unflushed unlinked_cwd_world 9
                "CurrentWorkingDirectoryUnlinked" eq_refl L) as (_ & H2 & _ & _ & H5).
  split; [exact H2 | exact H5].
Defined.

Lemma length_append (a b : string) :
  String.length (a ++ b) = (String.length a + String.length b)%nat.
Proof. induction a as [|c a IH]; simpl; [reflexivity | now rewrite IH]. Qed.

(** X10.  Whenever the argument vector cannot be allocated, the error
    returns from [main] after three system calls: the run ends with
    status 1, and the pid line and the working-directory line, which
    fit the buffer together, are left behind in the buffer of standard
    output, which has received nothing. *)
Theorem argsAlloc_failure_returns_unflushed (w : World) (fuel : nat)
    (cwd : string) (e : zig_error) :
  getcwd w = Ok cwd ->
  argsAlloc w = Err e ->
  (String.length ((fmt_int (getpid w) ++ nl) ++ (cwd ++ nl)) <= BUFFER_SIZE)%nat ->
  run w fuel
  = Throw e {| stdout_buffer := (fmt_int (getpid w) ++ nl) ++ (cwd ++ nl);
               stderr_buffer := "" |}
      [EvGetPid (getpid w); EvGetCwd (Ok cwd); EvArgsAlloc (Err e)]
  /\ exit_status (run w fuel) = Some 1
  /\ outcome (run w fuel) = Some SetupError
  /\ output Stdout (events (run w fuel)) = ""
  /\ ~ flushed (final (run w fuel)).
Proof.
  intros C A L.
  rewrite length_append in L.
  assert (P1 : print Stdout (fmt_int (getpid w) ++ nl) init
               = Ret tt {| stdout_buffer := fmt_int (getpid w) ++ nl; stderr_buffer := "" |} []).
  { unfold print. cbn [buf init stdout_buffer].
    change (String.length "") with 0%nat. rewrite Nat.add_0_l.
    assert ((String.length (fmt_int (getpid w) ++ nl) <=? BUFFER_SIZE)%nat = true) as ->
      by (apply Nat.leb_le; lia).
    reflexivity. }
  assert (P2 : print Stdout (cwd ++ nl)
                 {| stdout_buffer := fmt_int (getpid w) ++ nl; stderr_buffer := "" |}
               = Ret tt {| stdout_buffer := (fmt_int (getpid w) ++ nl) ++ (cwd ++ nl);
                           stderr_buffer := "" |} []).
  { unfold print. cbn [buf stdout_buffer].
    apply Nat.leb_le in L. now rewrite L. }
  assert (R : run w fuel
              = Throw e {| stdout_buffer := (fmt_int (getpid w) ++ nl) ++ (cwd ++ nl);
                           stderr_buffer := "" |}
                  [EvGetPid (getpid w); EvGetCwd (Ok cwd); EvArgsAlloc (Err e)]).
  { unfold run, main, announce.
    rewrite !bind_assoc, bind_observe_Ok, !bind_assoc.
    rewrite (bind_eq_Ret _ _ _ _ _ _ P1).
    rewrite C, !bind_assoc, bind_observe_Ok, !bind_assoc.
    rewrite (bind_eq_Ret _ _ _ _ _ _ P2).
    rewrite A, !bind_assoc, bind_observe_Err. reflexivity. }
  split; [exact R|].
  split; [now rewrite R|].
  split; [rewrite run_outcome; unfold expected_outcome, announced; now rewrite C, A|].
  rewrite R. split; [reflexivity|].
  intros (H & _). cbn [final stdout_buffer] in H.
  rewrite <- append_assoc in H. now apply line_not_empty in H.
Qed.

Lemma argsAlloc_failure_returns_unflushed_witness :
  exit_status (run args_failure_world 9) = Some 1
  /\ ~ flushed (final (run args_failure_world 9)).
Proof.
  assert (L : (String.length ((fmt_int (getpid args_failure_world) ++ nl) ++ ("/repo" ++ nl))
               <= BUFFER_SIZE)%nat).
  { apply Nat.leb_le. reflexivity. }
  pose proof (argsAlloc_failure_returns_unflushed args_failure_world 9 "/repo" "OutOfMemory"
                eq_refl eq_refl L) as (_ & H2 & _ & _ & H5).
  split; [exact H2 | exact H5].
Defined.

(** ** Exits through [flushAndExit] *)

(** X11.  Whenever a run ends in [std.process.exit], its status is 0 or
    1, both buffers are empty, standard output has received all that
    the announcer printed and the diagnostic stream every line the run
    logged, and the working directory and the argument vector had been
    obtained. *)
Theorem process_exits_are_flushed (w : World) (fuel : nat)
    (c : Z) (s : State) (evs : list Event) :
  run w fuel = Exited c s evs ->
  s = init
  /\ (c = 0 \/ c = 1)
  /\ output Stdout evs = announce_output w
  /\ output Stderr evs = run_diagnostics w fuel
  /\ (exists cwd args, getcwd w = Ok cwd /\ argsAlloc w = Ok args).
Proof.
  intros R.
  destruct (exit_paths_flush w fuel c s evs R) as ((B1 & B2) & O & D).
  split; [destruct s; cbn in B1, B2; now subst|].
  split.
  - pose proof (run_status w fuel) as St. rewrite R in St. cbn [exit_status] in St.
    unfold expected_status, stop_verdict in St.
    destruct (startup w) as [[path p]|]; [|injection St as ->; now right].
    destruct (first_stop w path p (nanoTimestamp w 0) fuel 0); [|discriminate].
    destruct (tick_verdict w path p (nanoTimestamp w 0) n); cbn in St;
      try discriminate; injection St as ->; auto.
  - split; [exact O|]. split; [exact D|].
    pose proof (run_result w fuel) as X. rewrite R in X.
    destruct (getcwd w) as [cwd|]; [|destruct X as (? & ? & X); discriminate].
    destruct (argsAlloc w) as [args|]; [|destruct X as (? & ? & X); discriminate].
    eauto.
Qed.

Lemma process_exits_are_flushed_witness :
  final (run scenario_world 10) = init
  /\ output Stderr (events (run scenario_world 10)) = run_diagnostics scenario_world 10.
Proof.
  destruct (process_exits_are_flushed scenario_world 10 0 init
              (events (run scenario_world 10)) eq_refl) as (_ & _ & _ & H & _).
  split; [reflexivity | exact H].
Defined.

(** ** A completion without diagnostics *)

Lemma verdict_parent_not_gone w path p start k :
  tick_verdict w path p start k = VCompleted \/ tick_verdict w path p start k = VSleep ->
  parent_gone w p k = false.
Proof.
  unfold tick_verdict.
  destruct (elapsed_ms w start k >=? TOTAL_TIMEOUT_MS)%Z; [intros [|]; discriminate|].
  destruct (parent_gone w p k); [intros [|]; discriminate | reflexivity].
Qed.

Lemma loop_quiet w path p start k : forall fuel k0,
  (forall j, (k0 <= j < k)%nat ->
             tick_verdict w path p start j = VSleep
             /\ accessAbsolute w j path = Err "FileNotFound") ->
  tick_verdict w path p start k = VCompleted ->
  (k0 <= k)%nat ->
  loop_diagnostics w path p start fuel k0 = "".
Proof.
  induction fuel as [|fuel IH]; intros k0 Hs Hk Hle; [reflexivity|].
  cbn [loop_diagnostics]. unfold tick_diagnostics.
  destruct (Nat.eq_dec k0 k) as [->|Hne].
  - rewrite Hk. rewrite quiet_probe; [reflexivity|].
    apply (verdict_parent_not_gone w path p start k). now left.
  - destruct (Hs k0) as (V & A); [lia|]. rewrite V.
    rewrite quiet_probe by (apply (verdict_parent_not_gone w path p start k0); now right).
    unfold access_diagnostics. rewrite A. cbn [String.eqb Ascii.eqb Bool.eqb append].
    apply IH; auto; [|lia]. intros j Hj. apply Hs. lia.
Qed.


(** X12.  A run with monitoring enabled that finds the signal file in
    iteration [k], after iterations that all found it missing
    ([error.FileNotFound]) and ended in the sleep, exits with status 0
    and has put nothing at all on the diagnostic stream. *)
Theorem quiet_completion (w : World) (path : string) (p : Parent) (k fuel : nat) :
  startup w = Some (path, p) ->
  parent_monitoring_active p = true ->
  (forall j, (j < k)%nat ->
             tick_verdict w path p (nanoTimestamp w 0) j = VSleep
             /\ accessAbsolute w j path = Err "FileNotFound") ->
  tick_verdict w path p (nanoTimestamp w 0) k = VCompleted ->
  (k < fuel)%nat ->
  exit_status (run w fuel) = Some 0
  /\ output Stderr (events (run w fuel)) = ""
  /\ final (run w fuel) = init.
Proof.
  intros S0 A Hs Hk Hf.
  assert (F : first_stop w path p (nanoTimestamp w 0) fuel 0 = Some k).
  { apply first_stop_at; [|congruence|lia]. intros j Hj. apply Hs. lia. }
  assert (St : exit_status (run w fuel) = Some 0).
  { rewrite run_status. unfold expected_status, stop_verdict. now rewrite S0, F, Hk. }
  split; [exact St|].
  pose proof (run_result w fuel) as X.
  assert (R : exists c s evs, run w fuel = Exited c s evs).
  { destruct (getcwd w); [|destruct X as (? & ? & X); rewrite X in St; discriminate].
    destruct (argsAlloc w); [|destruct X as (? & ? & X); rewrite X in St; discriminate].
    rewrite S0, F in X. destruct X as (c & s & evs & X & _). eauto. }
  destruct R as (c & s & evs & R).
  destruct (exit_paths_flush w fuel c s evs R) as ((B1 & B2) & _ & D).
  rewrite R. cbn [events final]. split; [|destruct s; cbn in B1, B2; now subst].
  rewrite D. unfold run_diagnostics, announce_diagnostics, setup_diagnostics.
  pose proof (startup_resolved w path p S0) as Rs.
  unfold startup, announced in *.
  destruct (getcwd w); [|discriminate].
  destruct (argsAlloc w); [|discriminate].
  destruct (getEnvVarOwned w envVarName) as [dir|]; [|discriminate].
  destruct (path_join w [dir; "0"]) as [path'|]; [|discriminate].
  rewrite Rs in *. injection S0 as ->.
  rewrite (quiet_resolution w p Rs A). cbn [append].
  apply (loop_quiet w path p (nanoTimestamp w 0) k); auto; [|lia].
  intros j Hj. apply Hs. lia.
Qed.

Lemma quiet_completion_witness :
  exit_status (run scenario_world 4) = Some 0
  /\ output Stderr (events (run scenario_world 4)) = ""
  /\ final (run scenario_world 4) = init.
Proof.
  apply (quiet_completion scenario_world "/tmp/sig42/0" scenario_parent 3 4);
    try reflexivity; try lia.
  intros j Hj. destruct j as [|[|[|j]]]; try (split; reflexivity). lia.
Defined.
